(** * Instance lifecycle reconciliation (instanceRoutes.js)

    A shallow embedding of the four lifecycle handlers of
    [src/instanceRoutes.js] -- [POST /setup], [GET /sync-status/:user_id],
    [DELETE /disconnect/:user_id] and [DELETE /delete/:user_id] -- over an
    explicit model of the two collaborators they talk to: the remote
    instance provider (reached through axios) and the record store
    (reached through the supabase client).

    JavaScript values are modelled by a small JSON type with the
    language's truthiness; the handlers run in a state-and-exception
    monad in which a [throw] keeps the state reached so far, as in
    JavaScript.  The collaborators are oracles indexed by the number of
    external effects performed so far, so that every deterministic
    behaviour of the provider and of the store is covered.

    A handler is taken from the point where the router's configuration
    guard has let the request through; the two middlewares in front of it
    are modelled separately, and so are the webhook and the campaign routes
    of index.js, which read and write the same table.  In the handler
    monad a remote call comes back, resolved or rejected (a timeout is a
    rejection); a call that never settles is the business of [against],
    which runs a handler in front of a provider that may stay silent, with
    the timeouts of the call sites.  The supabase client resolves with a
    [{ data, error }] pair and never throws.  The clock moves only when a
    handler sleeps. *)

From Stdlib Require Import String Ascii ZArith List Bool Lia PeanoNat.
From Stdlib Require Import DecimalString.
Import ListNotations.

Local Open Scope string_scope.
Local Open Scope Z_scope.

(* ===================================================================== *)
(** ** JavaScript values *)
(* ===================================================================== *)

Module Js.

(** The values that travel in response bodies and table columns. *)
#[local] Set Warnings "-register-all".
Inductive json : Type :=
| JUndefined
| JNull
| JBool (b : bool)
| JNum (n : Z)
| JStr (s : string)
| JObj (fields : list (string * json)).

(** [!!v]: the falsy values are [undefined], [null], [false], [0] and
    the empty string; every object is truthy. *)
Definition truthy (v : json) : bool :=
  match v with
  | JUndefined | JNull => false
  | JBool b => b
  | JNum n => negb (n =? 0)
  | JStr s => negb (String.eqb s "")
  | JObj _ => true
  end.

(** [a || b] *)
Definition or_else (a b : json) : json := if truthy a then a else b.

Fixpoint lookup (k : string) (fs : list (string * json)) : json :=
  match fs with
  | [] => JUndefined
  | (k', v) :: fs' => if String.eqb k k' then v else lookup k fs'
  end.

(** [v?.k]: [undefined] on [null] and [undefined], the property
    otherwise.  None of the property names the handlers read ([instance],
    [state], [base64], [qrcode], [name], [profilePictureUrl], [message])
    exists on a primitive, so a primitive yields [undefined] too. *)
Definition opt (v : json) (k : string) : json :=
  match v with
  | JObj fs => lookup k fs
  | _ => JUndefined
  end.

(** [v === 's'] for a string literal ['s']. *)
Definition is_str (v : json) (s : string) : bool :=
  match v with
  | JStr t => String.eqb t s
  | _ => false
  end.

End Js.
Import Js.

Notation "a ||| b" := (or_else a b) (at level 50, left associativity).

(* ===================================================================== *)
(** ** State mapper *)
(* ===================================================================== *)

(** [statusResponse.data?.instance?.state || 'close'] *)
Definition evolutionStatus_of (data : json) : json :=
  opt (opt data "instance") "state" ||| JStr "close".

(** The ternary chain written at both call sites:
    [evolutionStatus === 'open' ? 'connected'
      : evolutionStatus === 'connecting' ? 'connecting' : 'disconnected'] *)
Definition mapStatus (evolutionStatus : json) : string :=
  if is_str evolutionStatus "open" then "connected"
  else if is_str evolutionStatus "connecting" then "connecting"
  else "disconnected".

(* ===================================================================== *)
(** ** Data model: the [usuarios] and [whatsapp] tables *)
(* ===================================================================== *)

(** Instants ([new Date().toISOString()]) are kept as the clock value in
    milliseconds. *)
Definition Instant := Z.

Record Usuario := {
  u_id : string;
  telefone : option string          (* nullable column *)
}.

(** One row of [whatsapp], the local mirror of a messaging instance.
    [connection_attempts] is an integer column; it is kept as an unbounded
    integer. *)
Record Row := {
  id : nat;
  user_id : string;
  nome_instancia : string;
  numero : string;
  status : string;
  tipo_integracao : string;
  is_active : bool;
  qr_code : json;
  profile_name : json;
  profile_picture_url : json;
  connection_attempts : option Z;
  last_connection_at : option Instant;
  atualizado_em : option Instant
}.

(** The object literals handed to [.update(...)]: one constructor per
    column the handlers ever assign. *)
Inductive Field : Type :=
| F_status (v : string)
| F_atualizado_em (v : Instant)
| F_connection_attempts (v : Z)
| F_last_connection_at (v : option Instant)
| F_profile_name (v : json)
| F_profile_picture_url (v : json)
| F_qr_code (v : json)
| F_is_active (v : bool).

Definition Patch := list Field.

Definition set_field (r : Row) (f : Field) : Row :=
  match f with
  | F_status v =>
      {| id := id r; user_id := user_id r; nome_instancia := nome_instancia r;
         numero := numero r; status := v; tipo_integracao := tipo_integracao r;
         is_active := is_active r; qr_code := qr_code r;
         profile_name := profile_name r;
         profile_picture_url := profile_picture_url r;
         connection_attempts := connection_attempts r;
         last_connection_at := last_connection_at r;
         atualizado_em := atualizado_em r |}
  | F_atualizado_em v =>
      {| id := id r; user_id := user_id r; nome_instancia := nome_instancia r;
         numero := numero r; status := status r;
         tipo_integracao := tipo_integracao r;
         is_active := is_active r; qr_code := qr_code r;
         profile_name := profile_name r;
         profile_picture_url := profile_picture_url r;
         connection_attempts := connection_attempts r;
         last_connection_at := last_connection_at r;
         atualizado_em := Some v |}
  | F_connection_attempts v =>
      {| id := id r; user_id := user_id r; nome_instancia := nome_instancia r;
         numero := numero r; status := status r;
         tipo_integracao := tipo_integracao r;
         is_active := is_active r; qr_code := qr_code r;
         profile_name := profile_name r;
         profile_picture_url := profile_picture_url r;
         connection_attempts := Some v;
         last_connection_at := last_connection_at r;
         atualizado_em := atualizado_em r |}
  | F_last_connection_at v =>
      {| id := id r; user_id := user_id r; nome_instancia := nome_instancia r;
         numero := numero r; status := status r;
         tipo_integracao := tipo_integracao r;
         is_active := is_active r; qr_code := qr_code r;
         profile_name := profile_name r;
         profile_picture_url := profile_picture_url r;
         connection_attempts := connection_attempts r;
         last_connection_at := v;
         atualizado_em := atualizado_em r |}
  | F_profile_name v =>
      {| id := id r; user_id := user_id r; nome_instancia := nome_instancia r;
         numero := numero r; status := status r;
         tipo_integracao := tipo_integracao r;
         is_active := is_active r; qr_code := qr_code r;
         profile_name := v;
         profile_picture_url := profile_picture_url r;
         connection_attempts := connection_attempts r;
         last_connection_at := last_connection_at r;
         atualizado_em := atualizado_em r |}
  | F_profile_picture_url v =>
      {| id := id r; user_id := user_id r; nome_instancia := nome_instancia r;
         numero := numero r; status := status r;
         tipo_integracao := tipo_integracao r;
         is_active := is_active r; qr_code := qr_code r;
         profile_name := profile_name r;
         profile_picture_url := v;
         connection_attempts := connection_attempts r;
         last_connection_at := last_connection_at r;
         atualizado_em := atualizado_em r |}
  | F_qr_code v =>
      {| id := id r; user_id := user_id r; nome_instancia := nome_instancia r;
         numero := numero r; status := status r;
         tipo_integracao := tipo_integracao r;
         is_active := is_active r; qr_code := v;
         profile_name := profile_name r;
         profile_picture_url := profile_picture_url r;
         connection_attempts := connection_attempts r;
         last_connection_at := last_connection_at r;
         atualizado_em := atualizado_em r |}
  | F_is_active v =>
      {| id := id r; user_id := user_id r; nome_instancia := nome_instancia r;
         numero := numero r; status := status r;
         tipo_integracao := tipo_integracao r;
         is_active := v; qr_code := qr_code r;
         profile_name := profile_name r;
         profile_picture_url := profile_picture_url r;
         connection_attempts := connection_attempts r;
         last_connection_at := last_connection_at r;
         atualizado_em := atualizado_em r |}
  end.

(** [{ ...row, ...patch }], also what an UPDATE does to a matching row. *)
Definition apply_patch (p : Patch) (r : Row) : Row := fold_left set_field p r.

(** The object literal handed to [.insert(...)]. *)
Record NewRow := {
  n_user_id : string;
  n_nome_instancia : string;
  n_numero : string;
  n_status : string;
  n_tipo_integracao : string;
  n_is_active : bool;
  n_connection_attempts : Z
}.

(** The row the store creates: the columns the payload leaves out are
    null. *)
Definition row_of_insert (fresh : nat) (n : NewRow) : Row :=
  {| id := fresh; user_id := n_user_id n; nome_instancia := n_nome_instancia n;
     numero := n_numero n; status := n_status n;
     tipo_integracao := n_tipo_integracao n; is_active := n_is_active n;
     qr_code := JNull; profile_name := JNull; profile_picture_url := JNull;
     connection_attempts := Some (n_connection_attempts n);
     last_connection_at := None; atualizado_em := None |}.

(* ===================================================================== *)
(** ** The collaborators *)
(* ===================================================================== *)

(** What a handler throws or catches: an axios rejection (with the
    provider's response when there was one) or a [new Error(message)]. *)
Record JsError := {
  response : option (Z * json);     (* [error.response]: status and data *)
  message : string                  (* [error.message] *)
}.

Definition new_Error (m : string) : JsError :=
  {| response := None; message := m |}.

(** [error.response?.status] *)
Definition response_status (e : JsError) : option Z :=
  match response e with Some (st, _) => Some st | None => None end.

(** [error.response?.status !== n] *)
Definition status_is_not (st : option Z) (n : Z) : bool :=
  match st with
  | Some s => negb (s =? n)
  | None => true
  end.

(** [error.response?.data?.message] *)
Definition response_data_message (e : JsError) : json :=
  match response e with Some (_, d) => opt d "message" | None => JUndefined end.

(** The calls made to the remote instance provider, by instance name. *)
Inductive RemoteReq : Type :=
| Create (instanceName : string)              (* POST /instance/create *)
| Connect (name : string)                     (* GET /instance/connect/ *)
| ConnectionState (name : string)             (* GET /instance/connectionState/ *)
| FetchProfile (name : string)                (* GET /instance/fetchProfile/ *)
| Logout (name : string)                      (* DELETE /instance/logout/ *)
| DeleteInstance (name : string).             (* DELETE /instance/delete/ *)

Inductive AxiosResult : Type :=
| Resolved (data : json)                      (* [response.data] *)
| Rejected (e : JsError).

(** The queries made to the record store. *)
Inductive StoreOp : Type :=
| SelectUsuario (uid : string)
| SelectActive (uid : string)
| Update (row : nat) (p : Patch)
| Insert (n : NewRow).

(** Everything a handler does to the outside world, in order. *)
Inductive Event : Type :=
| ERemote (req : RemoteReq) (res : AxiosResult)
| EStore (op : StoreOp) (err : option string)
| ESleep (ms : Z).

Inductive Level := Info | Warn | Error.

(** The environment of one request.  Both oracles are indexed by the
    number of external effects performed so far. *)
Record Env := {
  remote : nat -> RemoteReq -> AxiosResult;
  store_error : nat -> option string;   (* [Some m]: the query fails with [m] *)
  random : Z                            (* [Math.floor(Math.random() * 9000)] *)
}.

Record World := {
  usuarios : list Usuario;
  whatsapp : list Row;
  now : Instant;
  trace : list Event;
  logs : list (Level * string)
}.

(** The mutable locals of the running handler that are assigned on one
    side of a [try] boundary and read on the other. *)
Record Frame := {
  existingInstance : option Row;
  qrCodeBase64 : json;
  evolutionStatus : json;
  profileData : json;
  mappedStatus : string;
  qrCode : json
}.

Record State := { world : World; frame : Frame }.

Definition frame0 : Frame :=
  {| existingInstance := None; qrCodeBase64 := JUndefined;
     evolutionStatus := JUndefined; profileData := JUndefined;
     mappedStatus := ""; qrCode := JUndefined |}.

Definition start (w : World) : State := {| world := w; frame := frame0 |}.

(* ===================================================================== *)
(** ** The handler monad: state, and exceptions that keep the state *)
(* ===================================================================== *)

Inductive Outcome (A : Type) : Type :=
| Ret (a : A)
| Throw (e : JsError).
Arguments Ret {A} a.
Arguments Throw {A} e.

Definition M (A : Type) : Type := Env -> State -> Outcome A * State.

Definition ret {A} (a : A) : M A := fun _ s => (Ret a, s).

Definition bind {A B} (m : M A) (k : A -> M B) : M B :=
  fun env s =>
    match m env s with
    | (Ret a, s') => k a env s'
    | (Throw e, s') => (Throw e, s')
    end.

Definition throw {A} (e : JsError) : M A := fun _ s => (Throw e, s).

(** [try { body } catch (e) { handler e }] *)
Definition try_catch {A} (body : M A) (handler : JsError -> M A) : M A :=
  fun env s =>
    match body env s with
    | (Ret a, s') => (Ret a, s')
    | (Throw e, s') => handler e env s'
    end.

Notation "x <- m ;; k" := (bind m (fun x => k))
  (at level 61, m at next level, right associativity).
Notation "m ;; k" := (bind m (fun _ => k))
  (at level 61, right associativity).

(** *** Plumbing *)

Definition tick (s : State) : nat := length (trace (world s)).

Definition record (e : Event) (s : State) : State :=
  {| world := {| usuarios := usuarios (world s); whatsapp := whatsapp (world s);
                 now := now (world s); trace := (trace (world s) ++ [e])%list;
                 logs := logs (world s) |};
     frame := frame s |}.

Definition with_whatsapp (rows : list Row) (s : State) : State :=
  {| world := {| usuarios := usuarios (world s); whatsapp := rows;
                 now := now (world s); trace := trace (world s);
                 logs := logs (world s) |};
     frame := frame s |}.

Definition advance (ms : Z) (s : State) : State :=
  {| world := {| usuarios := usuarios (world s); whatsapp := whatsapp (world s);
                 now := now (world s) + ms; trace := trace (world s);
                 logs := logs (world s) |};
     frame := frame s |}.

Definition with_log (l : Level * string) (s : State) : State :=
  {| world := {| usuarios := usuarios (world s); whatsapp := whatsapp (world s);
                 now := now (world s); trace := trace (world s);
                 logs := (logs (world s) ++ [l])%list |};
     frame := frame s |}.

Definition with_frame (f : Frame) (s : State) : State :=
  {| world := world s; frame := f |}.

(** [logger.info], [logger.warn], [logger.error]: the message text; the
    objects passed after it are not kept. *)
Definition logger (l : Level) (msg : string) : M unit :=
  fun _ s => (Ret tt, with_log (l, msg) s).

(** [new Date().toISOString()] *)
Definition new_Date : M Instant := fun _ s => (Ret (now (world s)), s).

(** [await new Promise(resolve => setTimeout(resolve, ms))] *)
Definition sleep (ms : Z) : M unit :=
  fun _ s => (Ret tt, record (ESleep ms) (advance ms s)).

(** [Math.floor(1000 + Math.random() * 9000)] *)
Definition randomDigits : M Z :=
  fun env s => (Ret (1000 + random env mod 9000), s).

(** *** Locals *)

Definition local {A} (get : Frame -> A) : M A :=
  fun _ s => (Ret (get (frame s)), s).

Definition assign (upd : Frame -> Frame) : M unit :=
  fun _ s => (Ret tt, with_frame (upd (frame s)) s).

Definition set_existingInstance (v : option Row) (f : Frame) : Frame :=
  {| existingInstance := v; qrCodeBase64 := qrCodeBase64 f;
     evolutionStatus := evolutionStatus f; profileData := profileData f;
     mappedStatus := mappedStatus f; qrCode := qrCode f |}.

Definition set_qrCodeBase64 (v : json) (f : Frame) : Frame :=
  {| existingInstance := existingInstance f; qrCodeBase64 := v;
     evolutionStatus := evolutionStatus f; profileData := profileData f;
     mappedStatus := mappedStatus f; qrCode := qrCode f |}.

Definition set_evolutionStatus (v : json) (f : Frame) : Frame :=
  {| existingInstance := existingInstance f; qrCodeBase64 := qrCodeBase64 f;
     evolutionStatus := v; profileData := profileData f;
     mappedStatus := mappedStatus f; qrCode := qrCode f |}.

Definition set_profileData (v : json) (f : Frame) : Frame :=
  {| existingInstance := existingInstance f; qrCodeBase64 := qrCodeBase64 f;
     evolutionStatus := evolutionStatus f; profileData := v;
     mappedStatus := mappedStatus f; qrCode := qrCode f |}.

Definition set_mappedStatus (v : string) (f : Frame) : Frame :=
  {| existingInstance := existingInstance f; qrCodeBase64 := qrCodeBase64 f;
     evolutionStatus := evolutionStatus f; profileData := profileData f;
     mappedStatus := v; qrCode := qrCode f |}.

Definition set_qrCode (v : json) (f : Frame) : Frame :=
  {| existingInstance := existingInstance f; qrCodeBase64 := qrCodeBase64 f;
     evolutionStatus := evolutionStatus f; profileData := profileData f;
     mappedStatus := mappedStatus f; qrCode := v |}.

(** *** The remote instance provider *)

(** [await axios.get/post/delete(...)] once it has settled: it resolves
    with the response, whose [data] is returned, or rejects with an error
    that is thrown.  A call that never settles has no [AxiosResult]; see
    [against]. *)
Definition axios (req : RemoteReq) : M json :=
  fun env s =>
    let res := remote env (tick s) req in
    match res with
    | Resolved d => (Ret d, record (ERemote req res) s)
    | Rejected e => (Throw e, record (ERemote req res) s)
    end.

(** *** The record store *)

(** The [{ data, error }] pair every supabase query resolves with; the
    client never throws. *)
Record QueryResult (A : Type) := { data : option A; error : option string }.
Arguments data {A} _.
Arguments error {A} _.

Definition found {A} (a : A) : QueryResult A := {| data := Some a; error := None |}.
Definition failed {A} (m : string) : QueryResult A := {| data := None; error := Some m |}.

Definition no_single_row : string :=
  "JSON object requested, multiple (or no) rows returned".

(** [.single()]: exactly one row, an error otherwise. *)
Definition single {A} (rows : list A) : QueryResult A :=
  match rows with
  | [r] => found r
  | _ => failed no_single_row
  end.

(** [.maybeSingle()]: no row is not an error. *)
Definition maybeSingle {A} (rows : list A) : QueryResult A :=
  match rows with
  | [] => {| data := None; error := None |}
  | [r] => found r
  | _ => failed no_single_row
  end.

(** [.eq('user_id', uid).eq('is_active', true)] *)
Definition active_of (uid : string) (rows : list Row) : list Row :=
  filter (fun r => String.eqb (user_id r) uid && is_active r) rows.

(** [.update(p).eq('id', i)] *)
Definition update_rows (i : nat) (p : Patch) (rows : list Row) : list Row :=
  map (fun r => if Nat.eqb (id r) i then apply_patch p r else r) rows.

Definition fresh_id (rows : list Row) : nat := S (list_max (map id rows)).

(** A query consults the store oracle; a failing query changes nothing. *)
Definition query {A} (op : StoreOp) (run : list Row -> QueryResult A * list Row)
  : M (QueryResult A) :=
  fun env s =>
    match store_error env (tick s) with
    | Some m => (Ret (failed m), record (EStore op (Some m)) s)
    | None =>
        let '(r, rows) := run (whatsapp (world s)) in
        (Ret r, record (EStore op (error r)) (with_whatsapp rows s))
    end.

(** [supabase.from('usuarios').select('telefone').eq('id', uid).single()] *)
Definition select_usuario (uid : string) : M (QueryResult Usuario) :=
  fun env s =>
    query (SelectUsuario uid)
      (fun rows =>
         (single (filter (fun u => String.eqb (u_id u) uid) (usuarios (world s))),
          rows))
      env s.

(** [supabase.from('whatsapp').select(...).eq('user_id', uid)
      .eq('is_active', true)] followed by [.maybeSingle()] or [.single()] *)
Definition select_active (uid : string) (shape : list Row -> QueryResult Row)
  : M (QueryResult Row) :=
  query (SelectActive uid) (fun rows => (shape (active_of uid rows), rows)).

(** [supabase.from('whatsapp').update(p).eq('id', i)] *)
Definition update (i : nat) (p : Patch) : M (QueryResult Row) :=
  query (Update i p)
    (fun rows => ({| data := None; error := None |}, update_rows i p rows)).

(** [supabase.from('whatsapp').update(p).eq('id', i).select().single()] *)
Definition update_returning (i : nat) (p : Patch) : M (QueryResult Row) :=
  query (Update i p)
    (fun rows =>
       let rows' := update_rows i p rows in
       (single (filter (fun r => Nat.eqb (id r) i) rows'), rows')).

(** [supabase.from('whatsapp').insert(n).select().single()] *)
Definition insert (n : NewRow) : M (QueryResult Row) :=
  query (Insert n)
    (fun rows =>
       let r := row_of_insert (fresh_id rows) n in
       (found r, (rows ++ [r])%list)).

(* ===================================================================== *)
(** ** Responses *)
(* ===================================================================== *)

(** The JSON bodies the four handlers send. *)
Inductive Body : Type :=
| BSetup (instance : Row) (qrcode : json) (msg : string)
    (* { success: true, instance, qrcode, message } *)
| BSync (instance : Row) (qrcode : json) (statusChanged : bool)
    (* { success: true, hasInstance: true, instance, qrcode, statusChanged } *)
| BDone (msg : string)
    (* { success: true, message } *)
| BNoInstance (msg : string)
    (* { success: false, hasInstance: false, message } *)
| BError (err : string) (details : json).
    (* { success: false, error, details } *)

Record Response := { code : Z; body : Body }.

(** [res.status(c).json(b)]; [res.json(b)] is [reply 200 b]. *)
Definition reply (c : Z) (b : Body) : M Response :=
  ret {| code := c; body := b |}.

Definition success (r : Response) : bool :=
  match body r with
  | BSetup _ _ _ | BSync _ _ _ | BDone _ => true
  | BNoInstance _ | BError _ _ => false
  end.

(** Template-literal interpolation of numbers. *)
Definition dec (n : Z) : string := NilZero.string_of_int (Z.to_int n).

(** [(instance.connection_attempts || 0)] *)
Definition attempts_or_0 (c : option Z) : Z :=
  match c with
  | Some n => n
  | None => 0
  end.

(** [a !== b] on strings *)
Definition str_neq (a b : string) : bool := negb (String.eqb a b).

(* ===================================================================== *)
(** ** POST /setup *)
(* ===================================================================== *)

(** Lines 371-423: an active record exists; resynchronise it. *)
Definition setup_existing (user_id : string) (existing : Row) : M Response :=
  assign (set_existingInstance (Some existing)) ;;
  logger Info ("Instância já existe para o usuário " ++ user_id
               ++ ". Sincronizando status.") ;;
  try_catch
    (statusResponse <- axios (ConnectionState (nome_instancia existing)) ;;
     let evolutionStatus := evolutionStatus_of statusResponse in
     let mappedStatus := mapStatus evolutionStatus in
     t <- new_Date ;;
     _ <- update (id existing) [F_status mappedStatus; F_atualizado_em t] ;;
     (* existingInstance.status = mappedStatus *)
     assign (set_existingInstance (Some (set_field existing (F_status mappedStatus)))) ;;
     qrCode <- (if String.eqb mappedStatus "disconnected" then
                  logger Info ("Instância " ++ nome_instancia existing
                               ++ " está desconectada. Obtendo novo QR Code.") ;;
                  qrResponse <- axios (Connect (nome_instancia existing)) ;;
                  ret (opt qrResponse "base64"
                       ||| opt (opt qrResponse "qrcode") "base64")
                else ret JNull) ;;
     ex <- local existingInstance ;;
     reply 200
       (BSetup (match ex with Some r => r | None => existing end) qrCode
          (if String.eqb mappedStatus "connected"
           then "Instância já existe e está conectada"
           else "Instância já existe. Escaneie o QR Code para conectar.")))
    (fun syncError =>
       logger Error ("Erro ao sincronizar status da instância existente "
                     ++ nome_instancia existing ++ ":") ;;
       ex <- local existingInstance ;;
       reply 200
         (BSetup (match ex with Some r => r | None => existing end) JNull
            "Instância já existe. Status da Evolution API indisponível no momento.")).

(** Lines 449-457: the object literal inserted for a new instance. *)
Definition new_instance (user_id tel instanceName : string) : NewRow :=
  {| n_user_id := user_id; n_nome_instancia := instanceName;
     n_numero := tel; n_status := "disconnected";
     n_tipo_integracao := "WHATSAPP-BAILEYS";
     n_is_active := true; n_connection_attempts := 1 |}.

(** Lines 426-427: [`${usuario.telefone}_${randomDigits}`] *)
Definition instanceName_of (tel : string) (digits : Z) : string :=
  tel ++ "_" ++ dec digits.

(** Lines 425-498: no active record; create the instance remotely, then
    locally. *)
Definition setup_create (user_id tel : string) : M Response :=
  digits <- randomDigits ;;
  let instanceName := instanceName_of tel digits in
  logger Info ("Criando nova instância: " ++ instanceName
               ++ " para o usuário " ++ user_id) ;;
  _ <- axios (Create instanceName) ;;
  logger Info ("Instância " ++ instanceName
               ++ " criada na Evolution API com sucesso.") ;;
  ins <- insert (new_instance user_id tel instanceName) ;;
  match error ins with
  | Some m =>
      logger Error "Erro ao salvar nova instância no Supabase:" ;;
      throw (new_Error ("Erro ao salvar no banco: " ++ m))
  | None =>
      match data ins with
      | None =>   (* [newInstance.id] on null *)
          throw (new_Error "Cannot read properties of null (reading 'id')")
      | Some newInstance =>
          logger Info ("Instância " ++ instanceName
                       ++ " salva no Supabase com ID: "
                       ++ dec (Z.of_nat (id newInstance))) ;;
          assign (set_qrCodeBase64 JNull) ;;
          try_catch
            (qrResponse <- axios (Connect instanceName) ;;
             assign (set_qrCodeBase64
                       (opt qrResponse "base64"
                        ||| opt (opt qrResponse "qrcode") "base64")) ;;
             q <- local qrCodeBase64 ;;
             if truthy q then
               _ <- update (id newInstance) [F_qr_code q] ;;
               logger Info ("QR Code para " ++ instanceName
                            ++ " salvo no Supabase.")
             else ret tt)
            (fun qrError =>
               logger Error ("Erro ao obter QR Code para " ++ instanceName ++ ":")) ;;
          q <- local qrCodeBase64 ;;
          reply 201
            (BSetup newInstance q
               "Instância criada com sucesso. Escaneie o QR Code no WhatsApp.")
      end
  end.

Definition setup (user_id : string) : M Response :=
  if String.eqb user_id "" then
    reply 400 (BError "user_id é obrigatório" JUndefined)
  else
    try_catch
      (usr <- select_usuario user_id ;;
       match error usr, data usr with
       | None, Some usuario =>
           match telefone usuario with
           | Some tel =>
               if String.eqb tel "" then
                 logger Warn ("Usuário " ++ user_id
                              ++ " não possui telefone cadastrado.") ;;
                 reply 400 (BError "Usuário não possui telefone cadastrado" JUndefined)
               else
                 chk <- select_active user_id maybeSingle ;;
                 match error chk with
                 | Some m =>
                     logger Error "Erro ao verificar instância existente no Supabase" ;;
                     throw (new_Error m)
                 | None =>
                     match data chk with
                     | Some existing => setup_existing user_id existing
                     | None => setup_create user_id tel
                     end
                 end
           | None =>
               logger Warn ("Usuário " ++ user_id
                            ++ " não possui telefone cadastrado.") ;;
               reply 400 (BError "Usuário não possui telefone cadastrado" JUndefined)
           end
       | _, _ =>
           logger Error ("Usuário não encontrado para user_id: " ++ user_id) ;;
           reply 404 (BError "Usuário não encontrado no banco de dados" JUndefined)
       end)
      (fun error =>
         logger Error ("Erro no endpoint /setup para user_id " ++ user_id ++ ":") ;;
         reply 500
           (BError "Erro ao configurar WhatsApp"
              (response_data_message error ||| JStr (message error)))).

(* ===================================================================== *)
(** ** GET /sync-status/:user_id *)
(* ===================================================================== *)

Inductive Ctl := Break | Next.

(** Lines 559-578: the body of the polling loop up to the sleep. *)
Definition poll_once (instance : Row) : M Ctl :=
  try_catch
    (statusResponse <- axios (ConnectionState (nome_instancia instance)) ;;
     assign (set_evolutionStatus (evolutionStatus_of statusResponse)) ;;
     st <- local evolutionStatus ;;
     if is_str st "open" then
       profileResponse <- axios (FetchProfile (nome_instancia instance)) ;;
       assign (set_profileData profileResponse) ;;
       assign (set_mappedStatus "connected") ;;
       ret Break
     else ret Next)
    (fun apiError =>
       logger Error ("Erro ao consultar Evolution API para "
                     ++ nome_instancia instance ++ ":") ;;
       assign (set_evolutionStatus (JStr "close")) ;;
       ret Next).

(** Lines 558-580: [for (let i = 0; i < 5; i++) { ... }], by the number
    of iterations left. *)
Fixpoint poll_loop (instance : Row) (left : nat) : M unit :=
  match left with
  | O => ret tt
  | S left' =>
      c <- poll_once instance ;;
      match c with
      | Break => ret tt
      | Next => sleep 2000 ;; poll_loop instance left'
      end
  end.

(** Lines 587-594: the object literal [updateData]. *)
Definition updateData (instance : Row) (mapped : string) (profile : json)
    (t : Instant) : Patch :=
  [ F_status mapped;
    F_atualizado_em t;
    F_connection_attempts
      (if String.eqb mapped "disconnected"
       then attempts_or_0 (connection_attempts instance) + 1 else 0);
    F_last_connection_at
      (if String.eqb mapped "connected" then Some t
       else last_connection_at instance);
    F_profile_name (opt profile "name" ||| JNull);
    F_profile_picture_url (opt profile "profilePictureUrl" ||| JNull) ].

(** Lines 582-629: persist what the loop observed and answer. *)
Definition sync_finish (instance : Row) : M Response :=
  let oldStatus := status instance in
  st <- local evolutionStatus ;;
  assign (set_mappedStatus (mapStatus st)) ;;
  mapped <- local mappedStatus ;;
  profile <- local profileData ;;
  t <- new_Date ;;
  let upd := updateData instance mapped profile t in
  res <- update_returning (id instance) upd ;;
  (match error res with
   | Some _ =>
       logger Error ("Erro ao atualizar Supabase para instância "
                     ++ dec (Z.of_nat (id instance)) ++ ":")
   | None => ret tt
   end) ;;
  assign (set_qrCode JNull) ;;
  (if String.eqb mapped "disconnected" then
     try_catch
       (qrResponse <- axios (Connect (nome_instancia instance)) ;;
        assign (set_qrCode (opt qrResponse "base64"
                            ||| opt (opt qrResponse "qrcode") "base64")) ;;
        q <- local qrCode ;;
        if truthy q then
          _ <- update (id instance) [F_qr_code q] ;; ret tt
        else ret tt)
       (fun qrError =>
          logger Error ("Erro ao obter novo QR Code para "
                        ++ nome_instancia instance ++ ":"))
   else ret tt) ;;
  q <- local qrCode ;;
  reply 200
    (BSync (match data res with
            | Some updatedInstance => updatedInstance
            | None => apply_patch upd instance
            end)
       q (str_neq oldStatus mapped)).

Definition sync_status (user_id : string) : M Response :=
  try_catch
    (sel <- select_active user_id maybeSingle ;;
     match error sel, data sel with
     | None, Some instance =>
         assign (set_evolutionStatus (JStr "close")) ;;
         assign (set_profileData JNull) ;;
         assign (set_mappedStatus "disconnected") ;;
         poll_loop instance 5 ;;
         sync_finish instance
     | _, _ =>
         reply 404 (BNoInstance "Nenhuma instância encontrada para este usuário")
     end)
    (fun error =>
       logger Error ("Erro em /sync-status para user_id " ++ user_id ++ ":") ;;
       reply 500 (BError "Erro ao sincronizar status" (JStr (message error)))).

(* ===================================================================== *)
(** ** DELETE /disconnect/:user_id *)
(* ===================================================================== *)

(** Lines 686-692: the object literal written after a logout. *)
Definition disconnect_patch (t : Instant) : Patch :=
  [ F_status "disconnected"; F_profile_name JNull;
    F_profile_picture_url JNull; F_qr_code JNull; F_atualizado_em t ].

Definition disconnect (user_id : string) : M Response :=
  try_catch
    (sel <- select_active user_id single ;;
     match error sel, data sel with
     | None, Some instance =>
         _ <- axios (Logout (nome_instancia instance)) ;;
         t <- new_Date ;;
         _ <- update (id instance) (disconnect_patch t) ;;
         logger Info ("Instância " ++ nome_instancia instance
                      ++ " desconectada para o usuário " ++ user_id ++ ".") ;;
         reply 200 (BDone "WhatsApp desconectado com sucesso")
     | _, _ =>
         reply 404 (BError "Instância não encontrada" JUndefined)
     end)
    (fun error =>
       logger Error ("Erro ao desconectar instância para user_id "
                     ++ user_id ++ ":") ;;
       reply 500
         (BError "Erro ao desconectar WhatsApp"
            (response_data_message error ||| JStr (message error)))).

(* ===================================================================== *)
(** ** DELETE /delete/:user_id *)
(* ===================================================================== *)

(** Lines 760-764: the object literal of the soft delete. *)
Definition delete_patch (t : Instant) : Patch :=
  [ F_is_active false; F_status "disconnected"; F_atualizado_em t ].

Definition delete (user_id : string) : M Response :=
  try_catch
    (sel <- select_active user_id single ;;
     match error sel, data sel with
     | None, Some instance =>
         try_catch
           (_ <- axios (DeleteInstance (nome_instancia instance)) ;;
            logger Info ("Instância " ++ nome_instancia instance
                         ++ " deletada da Evolution API."))
           (fun evolutionError =>
              if status_is_not (response_status evolutionError) 404 then
                logger Warn ("Erro não crítico ao deletar instância "
                             ++ nome_instancia instance
                             ++ " da Evolution (pode já ter sido removida):")
              else ret tt) ;;
         t <- new_Date ;;
         _ <- update (id instance) (delete_patch t) ;;
         logger Info ("Instância " ++ nome_instancia instance
                      ++ " marcada como inativa no Supabase para o usuário "
                      ++ user_id ++ ".") ;;
         reply 200 (BDone "Instância deletada com sucesso")
     | _, _ =>
         reply 404 (BError "Instância não encontrada" JUndefined)
     end)
    (fun error =>
       logger Error ("Erro ao deletar instância para user_id " ++ user_id ++ ":") ;;
       reply 500 (BError "Erro ao deletar instância" (JStr (message error)))).


(* ===================================================================== *)
(** ** Reading the outcome of a request *)
(* ===================================================================== *)

(** The tick of the [k]-th external effect (counting from 0) of a request
    that starts in world [w]. *)
Definition effect (w : World) (k : nat) : nat := (length (trace w) + k)%nat.

(** The store answers every query of the request. *)
Definition store_up (env : Env) : Prop := forall t, store_error env t = None.

(** The record with identifier [i] is in the store and satisfies [P]
    (and so does any other row carrying the same identifier). *)
Definition persisted (w : World) (i : nat) (P : Row -> Prop) : Prop :=
  (exists r, In r (whatsapp w) /\ id r = i) /\
  (forall r, In r (whatsapp w) -> id r = i -> P r).

(** The raw remote state as both call sites read and map it. *)
Definition mapped_of_raw (raw : json) : string := mapStatus (raw ||| JStr "close").

(** The randomly suffixed name Setup gives a new instance. *)
Definition new_name (env : Env) (tel : string) : string :=
  instanceName_of tel (1000 + random env mod 9000).

(** *** The shape of the polling trace *)

(** A connection-state poll whose raw state reads [open]. *)
Definition reads_open (res : AxiosResult) : bool :=
  match res with
  | Resolved d => is_str (evolutionStatus_of d) "open"
  | Rejected _ => false
  end.

Definition is_poll (e : Event) : bool :=
  match e with
  | ERemote (ConnectionState _) _ => true
  | _ => false
  end.

Definition is_sleep (e : Event) : bool :=
  match e with
  | ESleep _ => true
  | _ => false
  end.

(** A turn of the loop that does not end it: the poll fails or reads a
    state other than [open], or it reads [open] and the profile fetch
    fails; either way the turn closes with a sleep of 2000. *)
Definition failed_attempt (name : string) (evs : list Event) : bool :=
  match evs with
  | [ERemote (ConnectionState n) res; ESleep ms] =>
      String.eqb n name && negb (reads_open res) && (ms =? 2000)
  | [ERemote (ConnectionState n) res; ERemote (FetchProfile n') (Rejected _);
     ESleep ms] =>
      String.eqb n name && String.eqb n' name && reads_open res && (ms =? 2000)
  | _ => false
  end.

(** The turn that ends the loop: the poll reads [open] and the profile is
    fetched. *)
Definition final_attempt (name : string) (evs : list Event) : bool :=
  match evs with
  | [ERemote (ConnectionState n) res; ERemote (FetchProfile n') (Resolved _)] =>
      String.eqb n name && String.eqb n' name && reads_open res
  | _ => false
  end.

(** Neither a poll nor a sleep. *)
Definition after_polling (e : Event) : bool := negb (is_poll e) && negb (is_sleep e).

Definition polls (evs : list Event) : nat := length (filter is_poll evs).

(* ===================================================================== *)
(** ** Scenarios *)
(* ===================================================================== *)

Module Scenario.

Definition ana : Row :=
  {| id := 7; user_id := "u1"; nome_instancia := "5511999990000_1234";
     numero := "5511999990000"; status := "connected";
     tipo_integracao := "WHATSAPP-BAILEYS"; is_active := true;
     qr_code := JNull; profile_name := JStr "Ana";
     profile_picture_url := JStr "https://cdn.example/ana.png";
     connection_attempts := Some 3; last_connection_at := Some 5;
     atualizado_em := Some 5 |}.

Definition u1 : Usuario := {| u_id := "u1"; telefone := Some "5511999990000" |}.

(** [u1] owns one active record. *)
Definition mirrored : World :=
  {| usuarios := [u1]; whatsapp := [ana]; now := 100; trace := []; logs := [] |}.

(** [u1] has no record yet. *)
Definition blank : World :=
  {| usuarios := [u1]; whatsapp := []; now := 100; trace := []; logs := [] |}.

Definition state_body (st : string) : json :=
  JObj [("instance", JObj [("state", JStr st)])].

Definition pairing : json := JObj [("base64", JStr "ABC123")].

Definition timeout : JsError := new_Error "timeout of 8000ms exceeded".

Definition not_found : JsError :=
  {| response := Some (404, JObj [("message", JStr "instance not found")]);
     message := "Request failed with status code 404" |}.

Definition unavailable : JsError :=
  {| response := Some (503, JObj [("message", JStr "upstream unavailable")]);
     message := "Request failed with status code 503" |}.

(** A provider that reports the connection state [st] and answers every
    other call. *)
Definition provider (st : string) : Env :=
  {| remote := fun _ req =>
       match req with
       | ConnectionState _ => Resolved (state_body st)
       | Connect _ => Resolved pairing
       | FetchProfile _ => Resolved (JObj [("name", JStr "Ana")])
       | _ => Resolved JNull
       end;
     store_error := fun _ => None;
     random := 234 |}.

(** A provider whose connection is open but whose profile endpoint
    times out. *)
Definition open_without_profile : Env :=
  {| remote := fun _ req =>
       match req with
       | ConnectionState _ => Resolved (state_body "open")
       | FetchProfile _ => Rejected timeout
       | Connect _ => Resolved pairing
       | _ => Resolved JNull
       end;
     store_error := fun _ => None;
     random := 234 |}.

(** A provider that rejects every call with [e]. *)
Definition failing (e : JsError) : Env :=
  {| remote := fun _ _ => Rejected e;
     store_error := fun _ => None;
     random := 234 |}.

(** The provider of [provider st] in front of a store that fails every
    query from tick [k] on. *)
Definition store_down_from (k : nat) (st : string) : Env :=
  {| remote := remote (provider st);
     store_error := fun t => if Nat.leb k t then Some "connection refused" else None;
     random := 234 |}.

End Scenario.

(* ===================================================================== *)
(** ** Proof automation *)
(* ===================================================================== *)

Create Rewrite HintDb ticks.

(** Discharge an oracle hypothesis stated at [effect w k]. *)
Ltac at_tick H := autorewrite with ticks; exact H.

(** Run the steps that consult no oracle. *)
Ltac pure_steps :=
  cbn [logger new_Date reply ret local assign sleep throw randomDigits
       fst snd error data found failed single maybeSingle].

Ltac projections :=
  cbn [world frame whatsapp usuarios now trace logs
       record with_whatsapp advance with_log with_frame start].

(** Split on every oracle answer and every test the remaining run
    depends on. *)
Ltac split_oracles :=
  repeat (match goal with
          | |- context [store_error ?env ?t] =>
              let E := fresh "Estore" in destruct (store_error env t) eqn:E
          | |- context [remote ?env ?t ?r] =>
              let E := fresh "Eremote" in destruct (remote env t r) eqn:E
          | |- context [String.eqb ?a "disconnected"] =>
              let E := fresh "Edisc" in destruct (String.eqb a "disconnected") eqn:E
          | |- context [truthy ?v] =>
              let E := fresh "Etruthy" in destruct (truthy v) eqn:E
          | |- context [@single Row ?l] =>
              destruct (@single Row l) as [[?|] [?|]]
          end;
          pure_steps;
          cbn [frame with_frame set_mappedStatus set_qrCode mappedStatus
               qrCode profileData evolutionStatus]).

(** Case analysis on the shape of an attempt. *)
Ltac attempt_shape H :=
  cbv beta iota delta [failed_attempt final_attempt] in H;
  repeat (match type of H with
          | context [match ?x with _ => _ end] =>
              is_var x;
              match type of x with
              | Event => destruct x
              | RemoteReq => destruct x
              | AxiosResult => destruct x
              | list Event => destruct x
              end
          end;
          cbv beta iota in H);
  try discriminate H.

(* ===================================================================== *)
(** ** The way to a lifecycle handler *)
(* ===================================================================== *)

(** The environment variables the middlewares read; each is a string or
    absent. *)
Record Config := {
  API_KEY : option string;
  EVOLUTION_API_URL : option string;
  EVOLUTION_API_KEY : option string
}.

(** [!v] for a header or an environment variable: absent or empty. *)
Definition missing (v : option string) : bool :=
  match v with
  | None => true
  | Some s => String.eqb s ""
  end.

(** [a !== b] on values that are a string or [undefined]. *)
Definition differs (a b : option string) : bool :=
  match a, b with
  | Some x, Some y => negb (String.eqb x y)
  | None, None => false
  | _, _ => true
  end.

(** What leaves the server: a text ([res.send]) or one of the handlers'
    JSON answers. *)
Inductive Served : Type :=
| SText (status : Z) (text : string)
| SJson (r : Response).

(** auth.js, [authenticate]: [None] is [next()], the request goes on. *)
Definition authenticate (cfg : Config) (apiKey : option string) : option Served :=
  if missing apiKey || differs apiKey (API_KEY cfg)
  then Some (SText 401 "Chave de API inválida ou não fornecida.")
  else None.

(** instanceRoutes.js, lines 283-292: the router's configuration guard. *)
Definition configuration_guard (cfg : Config) : M (option Served) :=
  if missing (EVOLUTION_API_URL cfg) || missing (EVOLUTION_API_KEY cfg) then
    logger Error "EVOLUTION_API_URL ou EVOLUTION_API_KEY não configurado." ;;
    ret (Some (SJson {| code := 500;
                        body := BError "Configuração da API de evolução incompleta."
                                  JUndefined |}))
  else ret None.

(** [app.use('/v1/whatsapp', authenticate, instanceRoutes)]: a lifecycle
    handler behind the two middlewares. *)
Definition whatsapp_route (cfg : Config) (apiKey : option string)
    (handler : M Response) : M Served :=
  match authenticate cfg apiKey with
  | Some refused => ret refused
  | None =>
      g <- configuration_guard cfg ;;
      match g with
      | Some refused => ret refused
      | None => r <- handler ;; ret (SJson r)
      end
  end.

(** *** What a request may do to a row *)

(** The identity of a row is kept and a soft-deleted row stays deleted. *)
Definition evolves (r r' : Row) : Prop :=
  id r' = id r /\ user_id r' = user_id r /\
  nome_instancia r' = nome_instancia r /\ numero r' = numero r /\
  tipo_integracao r' = tipo_integracao r /\
  (is_active r = false -> is_active r' = false).

(** A patch that does not reactivate. *)
Definition keeps_deleted (p : Patch) : bool :=
  forallb (fun f => match f with F_is_active true => false | _ => true end) p.

(** The new events of a request that started in [w] and ended in [w']. *)
Definition events_since (w w' : World) : list Event :=
  skipn (length (trace w)) (trace w').

Definition is_remote (e : Event) : bool :=
  match e with
  | ERemote _ _ => true
  | _ => false
  end.

(** A remote create or a local insert. *)
Definition creates (e : Event) : bool :=
  match e with
  | ERemote (Create _) _ | EStore (Insert _) _ => true
  | _ => false
  end.

Definition is_write (e : Event) : bool :=
  match e with
  | EStore (Update _ _) _ | EStore (Insert _) _ => true
  | _ => false
  end.

(* ===================================================================== *)
(** ** index.js: the webhook and the campaign routes *)
(* ===================================================================== *)

(** Template-literal interpolation, [`${v}`]. *)
Definition template (v : json) : string :=
  match v with
  | JUndefined => "undefined"
  | JNull => "null"
  | JBool true => "true"
  | JBool false => "false"
  | JNum n => dec n
  | JStr s => s
  | JObj _ => "[object Object]"
  end.

Module Index.

(** What [axios.post] makes of the workflow engine's answer: it resolves
    on a 2xx status and rejects otherwise. *)
Inductive EngineResult : Type :=
| Answered (status : Z) (data : json)
| Refused (e : JsError).

(** The external effects of index.js, in order. *)
Inductive Effect : Type :=
| FindByName (name : string) (err : option string)
| FindActive (uid : string) (err : option string)
| Write (row : nat) (p : Patch) (err : option string)
| Post (path : string) (body : json) (res : EngineResult).

(** The environment of one request; the oracles are indexed by the number
    of external effects performed so far. *)
Record Env := {
  db_error : nat -> option string;
  n8n : nat -> string -> json -> EngineResult;
  development : bool                  (* NODE_ENV === 'development' *)
}.

Record State := {
  table : list Row;                   (* the [whatsapp] table *)
  clock : Instant;
  journal : list Effect;
  logbook : list (Level * string)
}.

Definition IM (A : Type) : Type := Env -> State -> Outcome A * State.

Definition ret {A} (a : A) : IM A := fun _ s => (Ret a, s).

Definition bind {A B} (m : IM A) (k : A -> IM B) : IM B :=
  fun env s =>
    match m env s with
    | (Ret a, s') => k a env s'
    | (Throw e, s') => (Throw e, s')
    end.

Definition throw {A} (e : JsError) : IM A := fun _ s => (Throw e, s).

Definition try_catch {A} (body : IM A) (handler : JsError -> IM A) : IM A :=
  fun env s =>
    match body env s with
    | (Ret a, s') => (Ret a, s')
    | (Throw e, s') => handler e env s'
    end.

Declare Scope index_scope.
Notation "x <- m ;; k" := (bind m (fun x => k))
  (at level 61, m at next level, right associativity) : index_scope.
Notation "m ;; k" := (bind m (fun _ => k))
  (at level 61, right associativity) : index_scope.
Local Open Scope index_scope.

Definition note (e : Effect) (s : State) : State :=
  {| table := table s; clock := clock s;
     journal := (journal s ++ [e])%list; logbook := logbook s |}.

Definition with_table (rows : list Row) (s : State) : State :=
  {| table := rows; clock := clock s;
     journal := journal s; logbook := logbook s |}.

Definition logger (l : Level) (msg : string) : IM unit :=
  fun _ s => (Ret tt, {| table := table s; clock := clock s;
                         journal := journal s;
                         logbook := (logbook s ++ [(l, msg)])%list |}).

Definition new_Date : IM Instant := fun _ s => (Ret (clock s), s).

Definition reply (c : Z) (b : Body) : IM Response :=
  ret {| code := c; body := b |}.

(** [v.k]: a [TypeError] on [undefined] and [null]. *)
Definition member (v : json) (k : string) : IM json :=
  match v with
  | JUndefined =>
      throw (new_Error ("Cannot read properties of undefined (reading '"
                        ++ k ++ "')"))
  | JNull =>
      throw (new_Error ("Cannot read properties of null (reading '"
                        ++ k ++ "')"))
  | _ => ret (opt v k)
  end.

(** [supabase.from('whatsapp').select('id, status')
      .eq('nome_instancia', name).single()] *)
Definition find_by_name (name : string) : IM (QueryResult Row) :=
  fun env s =>
    match db_error env (length (journal s)) with
    | Some m => (Ret (failed m), note (FindByName name (Some m)) s)
    | None =>
        let r := single (filter (fun x => String.eqb (nome_instancia x) name)
                           (table s)) in
        (Ret r, note (FindByName name (error r)) s)
    end.

(** [supabase.from('whatsapp').select('status').eq('user_id', uid)
      .eq('is_active', true).maybeSingle()] *)
Definition find_active (uid : string) : IM (QueryResult Row) :=
  fun env s =>
    match db_error env (length (journal s)) with
    | Some m => (Ret (failed m), note (FindActive uid (Some m)) s)
    | None =>
        let r := maybeSingle (active_of uid (table s)) in
        (Ret r, note (FindActive uid (error r)) s)
    end.

(** [supabase.from('whatsapp').update(p).eq('id', i)] *)
Definition write (i : nat) (p : Patch) : IM (QueryResult Row) :=
  fun env s =>
    match db_error env (length (journal s)) with
    | Some m => (Ret (failed m), note (Write i p (Some m)) s)
    | None =>
        (Ret {| data := None; error := None |},
         note (Write i p None) (with_table (update_rows i p (table s)) s))
    end.

(** [await axios.post(`${N8N_BASE_URL}${path}`, body)]: the response, or
    the rejection thrown. *)
Definition post (path : string) (body : json) : IM (Z * json) :=
  fun env s =>
    let res := n8n env (length (journal s)) path body in
    match res with
    | Answered st d => (Ret (st, d), note (Post path body res) s)
    | Refused e => (Throw e, note (Post path body res) s)
    end.

(** *** POST /v1/webhooks/whatsapp *)

(** Lines 521-532: the object literal of a [connection.update]. *)
Definition connection_update (current newStatus : string) (t : Instant) : Patch :=
  if str_neq current newStatus then
    ([F_status newStatus; F_atualizado_em t]
     ++ (if String.eqb newStatus "connected"
         then [F_last_connection_at (Some t); F_connection_attempts 0]
         else []))%list
  else [].

(** Lines 536-542: the object literal of a [qrcode.updated]. *)
Definition qrcode_updated (qrcode : json) (t : Instant) : Patch :=
  if truthy qrcode then [F_qr_code qrcode; F_atualizado_em t] else [].

(** Lines 550-563: write [updateData] unless it is empty, and answer. *)
Definition persist (instance : string) (row : nat) (updateData : Patch)
    (logMessage : string) : IM Response :=
  match updateData with
  | [] => reply 200 (BDone "Webhook processado com sucesso")
  | _ :: _ =>
      res <- write row updateData ;;
      match error res with
      | Some _ =>
          logger Error ("[WEBHOOK] Erro ao atualizar Supabase para instância "
                        ++ instance ++ ":") ;;
          reply 500 (BError "Erro ao atualizar dados" JUndefined)
      | None =>
          logger Info ("[WEBHOOK] " ++ logMessage) ;;
          reply 200 (BDone "Webhook processado com sucesso")
      end
  end.

(** The body's [event], [instance] and [data]; [instance] is the
    provider's instance name, a string. *)
Definition webhook (event : json) (instance : string) (payload : json)
  : IM Response :=
  logger Info ("[WEBHOOK] Recebido evento '" ++ template event
               ++ "' para a instância '" ++ instance ++ "'") ;;
  try_catch
    (sel <- find_by_name instance ;;
     match error sel, data sel with
     | None, Some whatsappInstance =>
         if is_str event "connection.update" then
           state <- member payload "state" ;;
           let newStatus := mapStatus state in
           t <- new_Date ;;
           persist instance (id whatsappInstance)
             (connection_update (status whatsappInstance) newStatus t)
             ("Status atualizado para: " ++ newStatus)
         else if is_str event "qrcode.updated" then
           qrcode <- member payload "qrcode" ;;
           t <- new_Date ;;
           persist instance (id whatsappInstance)
             (qrcode_updated qrcode t)
             "QR Code atualizado no banco de dados."
         else
           logger Info ("[WEBHOOK] Evento não tratado: " ++ template event) ;;
           reply 200 (BDone "Evento não tratado")
     | _, _ =>
         logger Warn ("[WEBHOOK] Instância '" ++ instance
                      ++ "' não encontrada no Supabase.") ;;
         reply 404 (BError "Instância não encontrada" JUndefined)
     end)
    (fun error =>
       logger Error ("[WEBHOOK] Erro fatal no processamento do webhook para instância "
                     ++ instance ++ ":") ;;
       reply 500 (BError (message error) JUndefined)).

(** *** The campaign routes *)

(** Bodies that [res.send] passes on as they are, under the status set
    before: an object or a boolean as JSON, a string as text. *)
Definition relayable (d : json) : bool :=
  match d with
  | JObj _ | JStr _ | JBool _ => true
  | _ => false
  end.

(** What a campaign route sends. *)
Inductive Sent : Type :=
| NotConnected
    (* 403 { success: false, error: 'WhatsApp não conectado', message, code } *)
| Relayed (status : Z) (data : json)
    (* res.status(status).send(data) on relayable data: both reach the client *)
| Handed (status : Z) (data : json)
    (* res.status(status).send(data) on a number, null or undefined: the call
       is made, what reaches the client is Express's reading of it (Express 4
       takes a bare number for the status code; null and undefined give an
       empty body) *)
| Failure (status : Z) (msg : string) (stack : bool).
    (* the error handler's { message, stack? } *)

(** [res.status(status).send(data)] *)
Definition send (status : Z) (data : json) : Sent :=
  if relayable data then Relayed status data else Handed status data.

(** The status of the answer, where the route decides it. *)
Definition status_of (s : Sent) : option Z :=
  match s with
  | NotConnected => Some 403
  | Relayed st _ => Some st
  | Handed _ _ => None
  | Failure st _ _ => Some st
  end.

(** errorMiddleware.js.  Neither an axios rejection nor [new Error(...)]
    carries a [statusCode], so [err.statusCode || 500] is 500. *)
Definition errorHandler (err : JsError) : IM Sent :=
  logger Error (message err) ;;
  fun env s =>
    (Ret (Failure 500
            (if String.eqb (message err) "" then "Internal Server Error"
             else message err)
            (development env)), s).

(** POST /v1/disparos/criar-campanha, lines 392-426; [user_id] is the
    body's [user_id]. *)
Definition criar_campanha (user_id : string) (body : json) : IM Sent :=
  try_catch
    (sel <- find_active user_id ;;
     match error sel with
     | Some m =>
         logger Error ("Erro ao verificar status do whatsapp para user_id "
                       ++ user_id ++ ":") ;;
         throw (new_Error m)
     | None =>
         if match data sel with
            | None => true
            | Some whatsappInstance =>
                str_neq (status whatsappInstance) "connected"
            end
         then
           logger Warn ("Tentativa de criar campanha sem WhatsApp conectado para user_id: "
                        ++ user_id) ;;
           ret NotConnected
         else
           response <- post "/webhook/criar-campanha" body ;;
           ret (send (fst response) (snd response))
     end)
    (fun error =>
       logger Error ("Erro ao criar campanha para user_id " ++ user_id ++ ":") ;;
       errorHandler error).

(** POST /v1/disparos/comecar-campanha and /pausar-campanha, lines
    454-461 and 489-496. *)
Definition forward (path : string) (body : json) : IM Sent :=
  try_catch
    (response <- post path body ;;
     ret (send (fst response) (snd response)))
    (fun error => errorHandler error).

Definition comecar_campanha : json -> IM Sent := forward "/webhook/comecar-campanha".
Definition pausar_campanha : json -> IM Sent := forward "/webhook/pausar-campanha".

(** A request against the table [rows]. *)
Definition start (rows : list Row) (t : Instant) : State :=
  {| table := rows; clock := t; journal := []; logbook := [] |}.

Definition is_store_write (e : Effect) : bool :=
  match e with
  | Write _ _ _ => true
  | _ => false
  end.

Definition is_post (e : Effect) : bool :=
  match e with
  | Post _ _ _ => true
  | _ => false
  end.

End Index.

(** *** Reading a table *)

(** The record with identifier [i] is in the table and satisfies [P]. *)
Definition recorded (rows : list Row) (i : nat) (P : Row -> Prop) : Prop :=
  (exists r, In r rows /\ id r = i) /\
  (forall r, In r rows -> id r = i -> P r).

(** The rows a webhook for [name] resolves to. *)
Definition named (name : string) (rows : list Row) : list Row :=
  filter (fun x => String.eqb (nome_instancia x) name) rows.

(** [v] is neither [undefined] nor [null]. *)
Definition defined (v : json) : bool :=
  match v with
  | JUndefined | JNull => false
  | _ => true
  end.

(** Run the steps of an index.js handler that consult no oracle. *)
Ltac index_steps :=
  cbn [Index.logger Index.new_Date Index.reply Index.ret Index.throw
       Index.note Index.with_table Index.start
       Index.table Index.clock Index.journal Index.logbook
       length app fst snd error data found failed single maybeSingle].

(** *** Scenarios for index.js *)

Module IndexScenario.

(** The store and the engine both answer. *)
Definition working : Index.Env :=
  {| Index.db_error := fun _ => None;
     Index.n8n := fun _ _ _ => Index.Answered 200 (JObj [("ok", JBool true)]);
     Index.development := false |}.

(** The store fails every query from tick [k] on. *)
Definition store_down_from (k : nat) : Index.Env :=
  {| Index.db_error := fun t => if Nat.leb k t then Some "connection refused" else None;
     Index.n8n := fun _ _ _ => Index.Answered 200 (JObj [("ok", JBool true)]);
     Index.development := false |}.

(** The engine answers every POST with a 404. *)
Definition engine_not_found : Index.Env :=
  {| Index.db_error := fun _ => None;
     Index.n8n := fun _ _ _ => Index.Refused Scenario.not_found;
     Index.development := false |}.

(** The record of [u1] after a Delete. *)
Definition deleted : Row :=
  apply_patch (delete_patch 50) Scenario.ana.

(** The record of [u1], disconnected. *)
Definition offline : Row :=
  set_field Scenario.ana (F_status "disconnected").

End IndexScenario.

(** Split on every oracle answer, query shape and test a handler's run
    depends on. *)
Ltac split_all :=
  repeat (match goal with
          | |- context [store_error ?env ?t] =>
              let E := fresh "Estore" in destruct (store_error env t) eqn:E
          | |- context [remote ?env ?t ?r] =>
              let E := fresh "Eremote" in destruct (remote env t r) eqn:E
          | |- context [@single ?A ?l] =>
              destruct (@single A l) as [[?|] [?|]]
          | |- context [@maybeSingle ?A ?l] =>
              destruct (@maybeSingle A l) as [[?|] [?|]]
          | |- context [status_is_not ?a ?b] =>
              destruct (status_is_not a b)
          | |- context [telefone ?u] =>
              destruct (telefone u)
          | |- context [String.eqb ?a ?b] =>
              let E := fresh "Eeqb" in destruct (String.eqb a b) eqn:E
          | |- context [truthy ?v] =>
              let E := fresh "Etruthy" in destruct (truthy v) eqn:E
          end;
          pure_steps;
          cbn [frame with_frame set_mappedStatus set_qrCode set_qrCodeBase64
               set_existingInstance set_evolutionStatus set_profileData
               mappedStatus qrCode qrCodeBase64 existingInstance
               profileData evolutionStatus]).

Create HintDb evolve.

(** Close a goal about the table a run leaves. *)
Ltac evolved := projections; cbn [snd]; eauto 12 with evolve.

(** *** Further scenarios *)

Module Race.

(** A second active record of [u1]: what two racing Setups leave. *)
Definition twin : Row :=
  {| id := 8; user_id := "u1"; nome_instancia := "5511999990000_5678";
     numero := "5511999990000"; status := "disconnected";
     tipo_integracao := "WHATSAPP-BAILEYS"; is_active := true;
     qr_code := JNull; profile_name := JNull; profile_picture_url := JNull;
     connection_attempts := Some 1; last_connection_at := None;
     atualizado_em := None |}.

Definition doubled : World :=
  {| usuarios := [Scenario.u1]; whatsapp := [Scenario.ana; twin];
     now := 100; trace := []; logs := [] |}.

End Race.

(** *** Reading the store's part of a trace *)

(** An update that writes the [status] column. *)
Definition writes_status (e : Event) : bool :=
  match e with
  | EStore (Update _ p) _ =>
      existsb (fun f => match f with F_status _ => true | _ => false end) p
  | _ => false
  end.

(* ===================================================================== *)
(** ** Calls that never settle *)
(* ===================================================================== *)

(** What the provider does with a call: it answers, or it never does. *)
Inductive Reaction : Type :=
| Answers (res : AxiosResult)
| Silent.

(** A provider, by tick and call. *)
Definition Provider : Type := nat -> RemoteReq -> Reaction.

(** The [timeout] option of the axios calls of GET /sync-status, in
    milliseconds: lines 562 and 569 give the connection-state poll and the
    profile fetch 8000; the pairing-code fetch of lines 610-613 has none. *)
Definition sync_timeout (req : RemoteReq) : option Z :=
  match req with
  | ConnectionState _ | FetchProfile _ => Some 8000
  | _ => None
  end.

(** The rejection of a call cut off by its timeout. *)
Definition timeout_error (ms : Z) : JsError :=
  new_Error ("timeout of " ++ dec ms ++ "ms exceeded").

(** How [await axios(...)] settles: with the provider's answer; against
    a silent provider with the rejection of the timeout, and never when
    the call carries no timeout. *)
Definition settles (timeout : RemoteReq -> option Z) (p : Provider)
    (t : nat) (req : RemoteReq) : option AxiosResult :=
  match p t req with
  | Answers res => Some res
  | Silent =>
      match timeout req with
      | Some ms => Some (Rejected (timeout_error ms))
      | None => None
      end
  end.

(** The environment a handler sees in front of [p].  The store and the
    random digits are those of [env]; so is the stand-in for a call that
    never settles, up to which the run is followed and no further. *)
Definition facing (timeout : RemoteReq -> option Z) (p : Provider)
    (env : Env) : Env :=
  {| remote := fun t req =>
       match settles timeout p t req with
       | Some res => res
       | None => remote env t req
       end;
     store_error := store_error env;
     random := random env |}.

(** The first call among [evs], issued from tick [t] on, that never
    settles, with the events before it. *)
Fixpoint first_pending (timeout : RemoteReq -> option Z) (p : Provider)
    (t : nat) (evs : list Event) : option (list Event * RemoteReq) :=
  match evs with
  | [] => None
  | e :: rest =>
      let later :=
        match first_pending timeout p (S t) rest with
        | Some (done, req) => Some (e :: done, req)
        | None => None
        end in
      match e with
      | ERemote req _ =>
          match settles timeout p t req with
          | Some _ => later
          | None => Some ([], req)
          end
      | _ => later
      end
  end.

(** A request either completes or awaits for ever a call that never
    settles, having performed [done]. *)
Inductive Run (A : Type) : Type :=
| Completed (o : Outcome A) (s : State)
| Pending (done : list Event) (req : RemoteReq).
Arguments Completed {A} o s.
Arguments Pending {A} done req.

(** A handler in front of a provider that may stay silent.  A handler
    awaits its calls one after the other, so what it does before a call is
    issued does not depend on the answer to it: the handler is run with
    [env]'s answer standing in for a call that never settles, and the run
    is cut at the first such call. *)
Definition against {A} (timeout : RemoteReq -> option Z) (p : Provider)
    (env : Env) (m : M A) (w : World) : Run A :=
  let '(o, s') := m (facing timeout p env) (start w) in
  match first_pending timeout p (length (trace w))
          (events_since w (world s')) with
  | Some (done, req) => Pending done req
  | None => Completed o s'
  end.

(** An event that is a poll or a sleep. *)
Definition of_polling (e : Event) : bool := is_poll e || is_sleep e.

(** An event that cannot stay pending: a call that carries a timeout, or
    no call at all. *)
Definition bounded (timeout : RemoteReq -> option Z) (e : Event) : bool :=
  match e with
  | ERemote req _ =>
      match timeout req with
      | Some _ => true
      | None => false
      end
  | _ => true
  end.

(** *** Outages *)

Module Outage.

(** The provider of [Scenario.provider st] in front of a store that
    refuses the one query issued at tick [k]. *)
Definition store_refusing_at (k : nat) (st : string) : Env :=
  {| remote := remote (Scenario.provider st);
     store_error := fun t => if Nat.eqb t k then Some "connection refused" else None;
     random := 234 |}.

(** A provider that accepts every call and never answers. *)
Definition silent : Provider := fun _ _ => Silent.

(** A provider that rejects every call at once. *)
Definition refusing (e : JsError) : Provider := fun _ _ => Answers (Rejected e).

End Outage.

(* ===================================================================== *)
(** ** Stepping lemmas *)
(* ===================================================================== *)

Lemma tick_record e s : tick (record e s) = S (tick s).
Proof.
  unfold tick, record; simpl. rewrite length_app; simpl. lia.
Qed.

Lemma tick_start w : tick (start w) = effect w 0.
Proof. unfold tick, start, effect; simpl. lia. Qed.

Lemma effect_S w k : S (effect w k) = effect w (S k).
Proof. unfold effect. lia. Qed.

Lemma tick_with_whatsapp rows s : tick (with_whatsapp rows s) = tick s.
Proof. reflexivity. Qed.

Lemma tick_advance ms s : tick (advance ms s) = tick s.
Proof. reflexivity. Qed.

Lemma tick_with_log l s : tick (with_log l s) = tick s.
Proof. reflexivity. Qed.

Lemma tick_with_frame f s : tick (with_frame f s) = tick s.
Proof. reflexivity. Qed.

#[local] Hint Rewrite tick_record tick_with_whatsapp tick_advance tick_with_log
  tick_with_frame tick_start effect_S : ticks.

(** The events of a request are what it appended to the trace. *)
Lemma events_since_app w w' evs :
  trace w' = (trace w ++ evs)%list -> events_since w w' = evs.
Proof.
  intros H. unfold events_since. rewrite H.
  rewrite skipn_app, skipn_all, Nat.sub_diag. reflexivity.
Qed.

Lemma axios_resolved env s req d :
  remote env (tick s) req = Resolved d ->
  axios req env s = (Ret d, record (ERemote req (Resolved d)) s).
Proof. intros H. unfold axios. rewrite H. reflexivity. Qed.

Lemma axios_rejected env s req e :
  remote env (tick s) req = Rejected e ->
  axios req env s = (Throw e, record (ERemote req (Rejected e)) s).
Proof. intros H. unfold axios. rewrite H. reflexivity. Qed.

Lemma query_up {A} env s op (run : list Row -> QueryResult A * list Row) :
  store_error env (tick s) = None ->
  query op run env s =
  (Ret (fst (run (whatsapp (world s)))),
   record (EStore op (error (fst (run (whatsapp (world s))))))
     (with_whatsapp (snd (run (whatsapp (world s)))) s)).
Proof.
  intros H. unfold query. rewrite H. destruct (run _); reflexivity.
Qed.

Lemma query_down {A} env s op (run : list Row -> QueryResult A * list Row) m :
  store_error env (tick s) = Some m ->
  query op run env s = (Ret (failed m), record (EStore op (Some m)) s).
Proof. intros H. unfold query. rewrite H. reflexivity. Qed.

(** *** Rows and patches *)

Lemma set_field_id r f : id (set_field r f) = id r.
Proof. destruct f; reflexivity. Qed.

Lemma apply_patch_id p : forall r, id (apply_patch p r) = id r.
Proof.
  unfold apply_patch. induction p as [|f p IH]; intros r; simpl.
  - reflexivity.
  - rewrite IH. apply set_field_id.
Qed.

Lemma active_of_In uid rows inst :
  In inst (active_of uid rows) -> In inst rows.
Proof. unfold active_of. intros H. apply filter_In in H. tauto. Qed.

Lemma active_is uid rows inst :
  active_of uid rows = [inst] -> In inst rows.
Proof. intros H. apply (active_of_In uid). rewrite H. left; reflexivity. Qed.

(** After an UPDATE by identifier, what holds of every row before and
    after the patch holds of the record. *)
Lemma persisted_update w rows i j p (P : Row -> Prop) :
  whatsapp w = update_rows j p rows ->
  (exists r, In r rows /\ id r = i) ->
  (forall r, In r rows -> id r = i ->
             if Nat.eqb i j then P (apply_patch p r) else P r) ->
  persisted w i P.
Proof.
  intros Hw [r0 [Hin Hid]] HP. unfold persisted. rewrite Hw. split.
  - exists (if Nat.eqb (id r0) j then apply_patch p r0 else r0). split.
    + unfold update_rows. apply in_map_iff. exists r0. auto.
    + destruct (Nat.eqb (id r0) j); [rewrite apply_patch_id|]; exact Hid.
  - intros r Hr Hri. unfold update_rows in Hr. apply in_map_iff in Hr.
    destruct Hr as [r1 [Hr1 Hin1]]. subst r.
    destruct (Nat.eqb (id r1) j) eqn:E.
    + rewrite apply_patch_id in Hri. specialize (HP r1 Hin1 Hri).
      apply Nat.eqb_eq in E. rewrite <- Hri, E, Nat.eqb_refl in HP. exact HP.
    + specialize (HP r1 Hin1 Hri). rewrite <- Hri, E in HP. exact HP.
Qed.

Lemma persisted_update_same w rows i p (P : Row -> Prop) inst :
  whatsapp w = update_rows i p rows ->
  In inst rows -> id inst = i ->
  (forall r, P (apply_patch p r)) ->
  persisted w i P.
Proof.
  intros Hw Hin Hid HP. eapply persisted_update; eauto.
  intros r _ _. rewrite Nat.eqb_refl. apply HP.
Qed.

(* ===================================================================== *)
(** ** State mapper: correctness *)
(* ===================================================================== *)

(** C6.  The status mapping is a total function of the raw remote state:
    it yields [connected] exactly for [open], [connecting] exactly for
    [connecting], and [disconnected] for everything else, an absent state
    and [close] included; both call sites map the state read from the
    provider's answer this way. *)
Theorem mapStatus_total (raw : json) :
  (mapped_of_raw raw = "connected" <-> raw = JStr "open") /\
  (mapped_of_raw raw = "connecting" <-> raw = JStr "connecting") /\
  (mapped_of_raw raw = "disconnected" <->
     raw <> JStr "open" /\ raw <> JStr "connecting") /\
  mapped_of_raw JUndefined = "disconnected" /\
  mapped_of_raw JNull = "disconnected" /\
  mapped_of_raw (JStr "close") = "disconnected" /\
  (forall data, mapStatus (evolutionStatus_of data)
                = mapped_of_raw (opt (opt data "instance") "state")).
Proof.
  assert (Hstr : forall s,
             mapped_of_raw (JStr s) =
             if String.eqb s "open" then "connected"
             else if String.eqb s "connecting" then "connecting"
             else "disconnected").
  { intros s. unfold mapped_of_raw, or_else, mapStatus. simpl.
    destruct (String.eqb_spec s "") as [->|_]; reflexivity. }
  assert (Hother : forall v, (forall s, v <> JStr s) ->
                             mapped_of_raw v = "disconnected").
  { intros v Hv. destruct v; try reflexivity.
    - unfold mapped_of_raw, or_else; simpl. destruct b; reflexivity.
    - unfold mapped_of_raw, or_else; simpl. destruct (n =? 0); reflexivity.
    - exfalso. apply (Hv s). reflexivity. }
  assert (Hcases : (exists s, raw = JStr s) \/ (forall s, raw <> JStr s)).
  { destruct raw; try (right; intros s0; discriminate). left; eauto. }
  split; [|split; [|split; [|repeat split; reflexivity]]].
  - destruct Hcases as [[s ->]|Hn].
    + rewrite Hstr. destruct (String.eqb_spec s "open") as [->|Ho].
      * tauto.
      * split; [|congruence].
        destruct (String.eqb s "connecting"); discriminate.
    + rewrite (Hother _ Hn). split; [discriminate|].
      intros ->. exfalso. apply (Hn "open"). reflexivity.
  - destruct Hcases as [[s ->]|Hn].
    + rewrite Hstr. destruct (String.eqb_spec s "open") as [->|Ho].
      * split; discriminate.
      * destruct (String.eqb_spec s "connecting") as [->|Hc].
        -- tauto.
        -- split; [discriminate|congruence].
    + rewrite (Hother _ Hn). split; [discriminate|].
      intros ->. exfalso. apply (Hn "connecting"). reflexivity.
  - destruct Hcases as [[s ->]|Hn].
    + rewrite Hstr. destruct (String.eqb_spec s "open") as [->|Ho].
      * split; [discriminate|]. intros [H _]. congruence.
      * destruct (String.eqb_spec s "connecting") as [->|Hc].
        -- split; [discriminate|]. intros [_ H]. congruence.
        -- split; [|reflexivity]. intros _. split; congruence.
    + rewrite (Hother _ Hn). split; [|reflexivity].
      intros _. split; apply Hn.
Qed.

(* ===================================================================== *)
(** ** Disconnect *)
(* ===================================================================== *)

(** C3.  Disconnect on a user with an active record: when the remote
    logout is rejected the store is left exactly as it was and the answer
    is a 500 carrying the upstream detail; when it resolves (and the store
    takes the write) the record is persisted with [status = disconnected]
    and [profile_name], [profile_picture_url], [qr_code] null. *)
Theorem disconnect_logout_fatal env w user_id inst :
  store_error env (effect w 0) = None ->
  active_of user_id (whatsapp w) = [inst] ->
  (forall e,
      remote env (effect w 1) (Logout (nome_instancia inst)) = Rejected e ->
      exists r s',
        disconnect user_id env (start w) = (Ret r, s') /\
        code r = 500 /\ success r = false /\
        body r = BError "Erro ao desconectar WhatsApp"
                   (response_data_message e ||| JStr (message e)) /\
        whatsapp (world s') = whatsapp w) /\
  (forall d,
      remote env (effect w 1) (Logout (nome_instancia inst)) = Resolved d ->
      store_error env (effect w 2) = None ->
      exists r s',
        disconnect user_id env (start w) = (Ret r, s') /\
        code r = 200 /\ success r = true /\
        whatsapp (world s')
        = update_rows (id inst) (disconnect_patch (now w)) (whatsapp w) /\
        persisted (world s') (id inst)
          (fun r => status r = "disconnected" /\ profile_name r = JNull /\
                    profile_picture_url r = JNull /\ qr_code r = JNull)).
Proof.
  intros Hs Ha. split.
  - intros e Hr.
    unfold disconnect, try_catch, bind, select_active.
    rewrite query_up by at_tick Hs.
    projections. rewrite Ha. pure_steps.
    rewrite (axios_rejected _ _ _ e) by at_tick Hr.
    pure_steps. projections.
    eexists; eexists. repeat split.
  - intros d Hr Hu.
    unfold disconnect, try_catch, bind, select_active, update.
    rewrite query_up by at_tick Hs.
    projections. rewrite Ha. pure_steps.
    rewrite (axios_resolved _ _ _ d) by at_tick Hr.
    pure_steps.
    rewrite query_up by at_tick Hu.
    pure_steps. projections.
    eexists; eexists. split; [reflexivity|]. split; [reflexivity|].
    split; [reflexivity|]. split; [reflexivity|].
    eapply persisted_update_same with (inst := inst).
    + reflexivity.
    + eapply active_is; eassumption.
    + reflexivity.
    + intros r. repeat split.
Qed.

(** The two halves of C3 on the record of [u1]: a provider that rejects
    the logout, and one that accepts it. *)
Lemma disconnect_logout_fatal_witness :
  (exists r s',
      disconnect "u1" (Scenario.failing Scenario.unavailable)
        (start Scenario.mirrored) = (Ret r, s') /\
      code r = 500 /\ success r = false /\
      body r = BError "Erro ao desconectar WhatsApp" (JStr "upstream unavailable") /\
      whatsapp (world s') = [Scenario.ana]) /\
  (exists r s',
      disconnect "u1" (Scenario.provider "open")
        (start Scenario.mirrored) = (Ret r, s') /\
      code r = 200 /\ success r = true /\
      whatsapp (world s')
      = update_rows 7 (disconnect_patch 100) [Scenario.ana] /\
      persisted (world s') 7
        (fun r => status r = "disconnected" /\ profile_name r = JNull /\
                  profile_picture_url r = JNull /\ qr_code r = JNull)).
Proof.
  split.
  - apply (proj1 (disconnect_logout_fatal
                    (Scenario.failing Scenario.unavailable) Scenario.mirrored
                    "u1" Scenario.ana eq_refl eq_refl) Scenario.unavailable).
    reflexivity.
  - apply (proj2 (disconnect_logout_fatal
                    (Scenario.provider "open") Scenario.mirrored
                    "u1" Scenario.ana eq_refl eq_refl) JNull);
      reflexivity.
Defined.

(* ===================================================================== *)
(** ** Delete *)
(* ===================================================================== *)



(* ===================================================================== *)
(** ** Setup: the creation path *)
(* ===================================================================== *)

Lemma fresh_id_fresh rows r :
  In r rows -> Nat.eqb (id r) (fresh_id rows) = false.
Proof.
  intros Hin. apply Nat.eqb_neq. unfold fresh_id.
  assert (H : (id r <= list_max (map id rows))%nat).
  { assert (HF : Forall (fun k => (k <= list_max (map id rows))%nat) (map id rows)).
    { apply list_max_le. apply Nat.le_refl. }
    rewrite Forall_forall in HF. apply HF. apply in_map. exact Hin. }
  lia.
Qed.

(** The table after an insert, whether or not the pairing code was then
    written to the new row. *)
Lemma created_rows rows n rows' :
  rows' = (rows ++ [row_of_insert (fresh_id rows) n])%list \/
  (exists q, rows' = update_rows (fresh_id rows) [F_qr_code q]
                       (rows ++ [row_of_insert (fresh_id rows) n])%list) ->
  length rows' = S (length rows) /\
  (forall r0, In r0 rows -> In r0 rows') /\
  (exists r, In r rows' /\ id r = fresh_id rows) /\
  (forall r, In r rows' -> id r = fresh_id rows ->
             status r = n_status n /\
             connection_attempts r = Some (n_connection_attempts n) /\
             user_id r = n_user_id n /\
             nome_instancia r = n_nome_instancia n /\
             is_active r = n_is_active n).
Proof.
  intros [->|[q ->]].
  - split; [rewrite length_app; simpl; lia|].
    split; [intros r0 H; apply in_or_app; left; exact H|].
    split.
    + eexists. split; [apply in_or_app; right; left; reflexivity|reflexivity].
    + intros r Hr Hid. apply in_app_or in Hr. destruct Hr as [Hr|[<-|[]]].
      * apply fresh_id_fresh in Hr. apply Nat.eqb_neq in Hr. contradiction.
      * repeat split.
  - unfold update_rows. split; [rewrite length_map, length_app; simpl; lia|].
    split.
    + intros r0 H. apply in_map_iff. exists r0.
      rewrite (fresh_id_fresh _ _ H). split; [reflexivity|].
      apply in_or_app; left; exact H.
    + split.
      * eexists. split.
        -- apply in_map_iff. eexists. split; [reflexivity|].
           apply in_or_app; right; left; reflexivity.
        -- cbn [row_of_insert id]. rewrite Nat.eqb_refl. reflexivity.
      * intros r Hr Hid. apply in_map_iff in Hr. destruct Hr as [r1 [<- Hr1]].
        apply in_app_or in Hr1. destruct Hr1 as [Hr1|[<-|[]]].
        -- rewrite (fresh_id_fresh _ _ Hr1) in *.
           apply fresh_id_fresh in Hr1. apply Nat.eqb_neq in Hr1. contradiction.
        -- cbn [row_of_insert id]. rewrite Nat.eqb_refl. repeat split.
Qed.

(** C5.  Setup for a known user with a phone number and no active
    record: a rejected remote create is fatal -- the answer is a 500 and the
    table is left as it was; a resolved one (the store taking the insert)
    adds exactly one record, with [status = disconnected] and
    [connection_attempts = 1], and the answer is a 201 carrying it. *)
Theorem setup_create_fatal_or_created env w uid usuario tel :
  uid <> "" ->
  store_error env (effect w 0) = None ->
  filter (fun u => String.eqb (u_id u) uid) (usuarios w) = [usuario] ->
  telefone usuario = Some tel ->
  tel <> "" ->
  store_error env (effect w 1) = None ->
  active_of uid (whatsapp w) = [] ->
  (forall e,
      remote env (effect w 2) (Create (new_name env tel)) = Rejected e ->
      exists r s',
        setup uid env (start w) = (Ret r, s') /\
        code r = 500 /\ success r = false /\
        body r = BError "Erro ao configurar WhatsApp"
                   (response_data_message e ||| JStr (message e)) /\
        whatsapp (world s') = whatsapp w) /\
  (forall d,
      remote env (effect w 2) (Create (new_name env tel)) = Resolved d ->
      store_error env (effect w 3) = None ->
      exists r s' q,
        setup uid env (start w) = (Ret r, s') /\
        code r = 201 /\ success r = true /\
        body r = BSetup (row_of_insert (fresh_id (whatsapp w))
                           (new_instance uid tel (new_name env tel)))
                   q "Instância criada com sucesso. Escaneie o QR Code no WhatsApp." /\
        length (whatsapp (world s')) = S (length (whatsapp w)) /\
        (forall r0, In r0 (whatsapp w) -> In r0 (whatsapp (world s'))) /\
        persisted (world s') (fresh_id (whatsapp w))
          (fun r => status r = "disconnected" /\
                    connection_attempts r = Some 1 /\
                    user_id r = uid /\
                    nome_instancia r = new_name env tel /\
                    is_active r = true)).
Proof.
  intros Hu Hs0 Husr Htel Htne Hs1 Hact.
  apply String.eqb_neq in Hu. apply String.eqb_neq in Htne.
  unfold new_name. split.
  - intros e Hr.
    unfold setup. rewrite Hu.
    unfold try_catch, bind, select_usuario, select_active.
    rewrite query_up by at_tick Hs0.
    projections. rewrite Husr. pure_steps. rewrite Htel, Htne.
    rewrite query_up by at_tick Hs1.
    projections. rewrite Hact. pure_steps.
    unfold setup_create, bind.
    pure_steps.
    rewrite (axios_rejected _ _ _ e) by at_tick Hr.
    pure_steps.
    eexists; eexists. split; [reflexivity|]. projections. repeat split.
  - intros d Hr Hs3.
    unfold setup. rewrite Hu.
    unfold try_catch, bind, select_usuario, select_active.
    rewrite query_up by at_tick Hs0.
    projections. rewrite Husr. pure_steps. rewrite Htel, Htne.
    rewrite query_up by at_tick Hs1.
    projections. rewrite Hact. pure_steps.
    unfold setup_create, bind, try_catch, insert, update.
    pure_steps.
    rewrite (axios_resolved _ _ _ d) by at_tick Hr.
    pure_steps.
    rewrite query_up by at_tick Hs3.
    pure_steps. projections.
    set (name := instanceName_of tel (1000 + random env mod 9000)).
    set (new := row_of_insert (fresh_id (whatsapp w)) (new_instance uid tel name)).
    assert (Hrows : forall w' q,
               whatsapp w' = (whatsapp w ++ [new])%list \/
               whatsapp w' = update_rows (fresh_id (whatsapp w)) [F_qr_code q]
                               (whatsapp w ++ [new])%list ->
               length (whatsapp w') = S (length (whatsapp w)) /\
               (forall r0, In r0 (whatsapp w) -> In r0 (whatsapp w')) /\
               persisted w' (fresh_id (whatsapp w))
                 (fun r => status r = "disconnected" /\
                           connection_attempts r = Some 1 /\
                           user_id r = uid /\
                           nome_instancia r = name /\
                           is_active r = true)).
    { intros w' q H.
      destruct (created_rows (whatsapp w) (new_instance uid tel name) (whatsapp w'))
        as [H1 [H2 [H3 H4]]].
      - destruct H as [H|H]; [left; exact H|right; exists q; exact H].
      - split; [exact H1|]. split; [exact H2|]. split; [exact H3|exact H4]. }
    destruct (remote env (effect w 4) (Connect name)) as [qr|e] eqn:Hc.
    + rewrite (axios_resolved _ _ _ qr) by at_tick Hc.
      pure_steps. projections. cbn [set_qrCodeBase64 qrCodeBase64].
      destruct (truthy (opt qr "base64" ||| opt (opt qr "qrcode") "base64")) eqn:Hq.
      * destruct (store_error env (effect w 5)) as [m|] eqn:Hs5.
        -- rewrite (query_down _ _ _ _ m) by at_tick Hs5.
           pure_steps.
           eexists; eexists; eexists. split; [reflexivity|].
           split; [reflexivity|]. split; [reflexivity|]. split; [reflexivity|].
           apply (Hrows _ JNull). left; reflexivity.
        -- rewrite query_up by at_tick Hs5.
           pure_steps.
           eexists; eexists; eexists. split; [reflexivity|].
           split; [reflexivity|]. split; [reflexivity|]. split; [reflexivity|].
           eapply Hrows. right; reflexivity.
      * pure_steps.
        eexists; eexists; eexists. split; [reflexivity|].
        split; [reflexivity|]. split; [reflexivity|]. split; [reflexivity|].
        apply (Hrows _ JNull). left; reflexivity.
    + rewrite (axios_rejected _ _ _ e) by at_tick Hc.
      pure_steps.
      eexists; eexists; eexists. split; [reflexivity|].
      split; [reflexivity|]. split; [reflexivity|]. split; [reflexivity|].
      apply (Hrows _ JNull). left; reflexivity.
Qed.

(** The two halves of C5 for [u1], who has a phone number and no record:
    a provider that rejects the create call, and one that accepts it. *)
Lemma setup_create_fatal_or_created_witness :
  (exists r s',
      setup "u1" (Scenario.failing Scenario.unavailable)
        (start Scenario.blank) = (Ret r, s') /\
      code r = 500 /\ success r = false /\
      body r = BError "Erro ao configurar WhatsApp" (JStr "upstream unavailable") /\
      whatsapp (world s') = []) /\
  (exists r s' q,
      setup "u1" (Scenario.provider "close") (start Scenario.blank) = (Ret r, s') /\
      code r = 201 /\ success r = true /\
      body r = BSetup (row_of_insert 1
                         (new_instance "u1" "5511999990000" "5511999990000_1234"))
                 q "Instância criada com sucesso. Escaneie o QR Code no WhatsApp." /\
      length (whatsapp (world s')) = 1%nat /\
      (forall r0, In r0 [] -> In r0 (whatsapp (world s'))) /\
      persisted (world s') 1
        (fun r => status r = "disconnected" /\
                  connection_attempts r = Some 1 /\
                  user_id r = "u1" /\
                  nome_instancia r = "5511999990000_1234" /\
                  is_active r = true)).
Proof.
  split.
  - apply (proj1 (setup_create_fatal_or_created
                    (Scenario.failing Scenario.unavailable) Scenario.blank
                    "u1" Scenario.u1 "5511999990000"
                    ltac:(discriminate) eq_refl eq_refl eq_refl
                    ltac:(discriminate) eq_refl eq_refl) Scenario.unavailable).
    reflexivity.
  - apply (proj2 (setup_create_fatal_or_created
                    (Scenario.provider "close") Scenario.blank
                    "u1" Scenario.u1 "5511999990000"
                    ltac:(discriminate) eq_refl eq_refl eq_refl
                    ltac:(discriminate) eq_refl eq_refl) JNull);
      reflexivity.
Defined.

(* ===================================================================== *)
(** ** Sync: the polling loop *)
(* ===================================================================== *)

Lemma is_str_true v s : is_str v s = true -> v = JStr s.
Proof.
  destruct v; simpl; try discriminate.
  intros H. apply String.eqb_eq in H. congruence.
Qed.

(** One turn of the loop: it either ends the loop, having read [open] and
    fetched the profile, or asks for the next turn, leaving the locals as
    a failed attempt does. *)
Lemma poll_once_spec inst env s :
  exists c s' evs,
    poll_once inst env s = (Ret c, s') /\
    whatsapp (world s') = whatsapp (world s) /\
    now (world s') = now (world s) /\
    trace (world s') = (trace (world s) ++ evs)%list /\
    match c with
    | Break =>
        final_attempt (nome_instancia inst) evs = true /\
        evolutionStatus (frame s') = JStr "open"
    | Next =>
        failed_attempt (nome_instancia inst) (evs ++ [ESleep 2000]) = true /\
        profileData (frame s') = profileData (frame s) /\
        is_str (evolutionStatus (frame s')) "open" = false
    end.
Proof.
  unfold poll_once, try_catch, bind.
  destruct (remote env (tick s) (ConnectionState (nome_instancia inst)))
    as [d|e] eqn:Hpoll.
  - rewrite (axios_resolved _ _ _ d) by exact Hpoll.
    pure_steps. projections. cbn [set_evolutionStatus evolutionStatus].
    destruct (is_str (evolutionStatus_of d) "open") eqn:Hopen.
    + destruct (remote env (S (tick s)) (FetchProfile (nome_instancia inst)))
        as [p|e] eqn:Hprof.
      * rewrite (axios_resolved _ _ _ p) by (autorewrite with ticks; exact Hprof).
        pure_steps.
        exists Break. eexists. eexists. split; [reflexivity|]. projections.
        split; [reflexivity|]. split; [reflexivity|].
        split; [rewrite <- app_assoc; reflexivity|].
        cbn [final_attempt reads_open app]. rewrite String.eqb_refl, Hopen.
        split; [reflexivity|].
        cbn [set_mappedStatus set_profileData set_evolutionStatus evolutionStatus].
        apply is_str_true. exact Hopen.
      * rewrite (axios_rejected _ _ _ e) by (autorewrite with ticks; exact Hprof).
        pure_steps.
        exists Next. eexists. eexists. split; [reflexivity|]. projections.
        split; [reflexivity|]. split; [reflexivity|].
        split; [rewrite <- app_assoc; reflexivity|].
        cbn [failed_attempt reads_open app]. rewrite String.eqb_refl, Hopen.
        repeat split.
    + pure_steps.
      exists Next. eexists. eexists. split; [reflexivity|]. projections.
      split; [reflexivity|]. split; [reflexivity|].
      split; [reflexivity|].
      cbn [failed_attempt reads_open app]. rewrite String.eqb_refl, Hopen.
      cbn [set_evolutionStatus evolutionStatus profileData].
      repeat split. exact Hopen.
  - rewrite (axios_rejected _ _ _ e) by exact Hpoll.
    pure_steps.
    exists Next. eexists. eexists. split; [reflexivity|]. projections.
    split; [reflexivity|]. split; [reflexivity|].
    split; [reflexivity|].
    cbn [failed_attempt reads_open app]. rewrite String.eqb_refl.
    repeat split.
Qed.

(** The loop as a whole: a run of failed attempts, closed -- unless all
    [n] turns are used up -- by the turn that reads [open] and fetches the
    profile. *)
Lemma poll_loop_spec inst n : forall env s,
  exists s' attempts last,
    poll_loop inst n env s = (Ret tt, s') /\
    whatsapp (world s') = whatsapp (world s) /\
    now (world s') = now (world s) + 2000 * Z.of_nat (length attempts) /\
    trace (world s') = (trace (world s) ++ concat attempts ++ last)%list /\
    forallb (failed_attempt (nome_instancia inst)) attempts = true /\
    ((last = [] /\ length attempts = n /\
      profileData (frame s') = profileData (frame s) /\
      (is_str (evolutionStatus (frame s)) "open" = false ->
       is_str (evolutionStatus (frame s')) "open" = false)) \/
     (final_attempt (nome_instancia inst) last = true /\
      (length attempts < n)%nat /\
      evolutionStatus (frame s') = JStr "open")).
Proof.
  induction n as [|n IH]; intros env s.
  - exists s, [], []. cbn [poll_loop ret concat app length forallb].
    split; [reflexivity|]. split; [reflexivity|].
    split; [cbn; lia|]. split; [rewrite app_nil_r; reflexivity|].
    split; [reflexivity|]. left. auto.
  - cbn [poll_loop]. unfold bind.
    destruct (poll_once_spec inst env s)
      as [c [s1 [evs [Hrun [Hw [Hn [Htr Hc]]]]]]].
    rewrite Hrun. destruct c.
    + destruct Hc as [Hfin Hopen].
      exists s1, [], evs. cbn [ret concat app length forallb].
      split; [reflexivity|]. split; [exact Hw|].
      split; [rewrite Hn; cbn; lia|]. split; [exact Htr|].
      split; [reflexivity|]. right. split; [exact Hfin|]. split; [lia|exact Hopen].
    + destruct Hc as [Hfail [Hprof Hnot]].
      pure_steps.
      destruct (IH env (record (ESleep 2000) (advance 2000 s1)))
        as [s' [attempts [last [Hrun' [Hw' [Hn' [Htr' [Hall Hend]]]]]]]].
      rewrite Hrun'.
      exists s', ((evs ++ [ESleep 2000])%list :: attempts), last.
      split; [reflexivity|].
      split; [rewrite Hw'; projections; exact Hw|].
      split.
      { rewrite Hn'. projections. rewrite Hn. cbn [length].
        rewrite Nat2Z.inj_succ. lia. }
      split.
      { rewrite Htr'. projections. rewrite Htr. cbn [concat].
        rewrite <- !app_assoc. reflexivity. }
      split; [cbn [forallb]; rewrite Hfail, Hall; reflexivity|].
      destruct Hend as [[Hl [Hlen [Hp Hs]]]|[Hfin [Hlen Ho]]].
      * left. split; [exact Hl|]. split; [cbn [length]; lia|].
        split; [rewrite Hp; projections; exact Hprof|].
        intros _. apply Hs. projections. exact Hnot.
      * right. split; [exact Hfin|]. split; [cbn [length]; lia|exact Ho].
Qed.

(* ===================================================================== *)
(** ** Sync: persisting the observation *)
(* ===================================================================== *)

Lemma update_rows_nil i rows : update_rows i [] rows = rows.
Proof.
  unfold update_rows. induction rows as [|r rows IH]; cbn [map].
  - reflexivity.
  - f_equal; [destruct (Nat.eqb (id r) i); reflexivity | exact IH].
Qed.

Lemma sync_finish_spec inst env s :
  exists r s' rest,
    sync_finish inst env s = (Ret r, s') /\
    code r = 200 /\ success r = true /\
    mappedStatus (frame s') = mapStatus (evolutionStatus (frame s)) /\
    profileData (frame s') = profileData (frame s) /\
    now (world s') = now (world s) /\
    trace (world s') = (trace (world s) ++ rest)%list /\
    forallb after_polling rest = true /\
    (store_up env ->
     exists qp,
       (qp = [] \/ exists q, qp = [F_qr_code q]) /\
       whatsapp (world s')
       = update_rows (id inst) qp
           (update_rows (id inst)
              (updateData inst (mapStatus (evolutionStatus (frame s)))
                 (profileData (frame s)) (now (world s)))
              (whatsapp (world s)))) /\
    ((forall t, (tick s <= t)%nat -> store_error env t <> None) ->
     whatsapp (world s') = whatsapp (world s) /\
     In (Error, "Erro ao atualizar Supabase para instância "
                ++ dec (Z.of_nat (id inst)) ++ ":") (logs (world s'))).
Proof.
  unfold sync_finish, bind, try_catch, update_returning, update, query, axios.
  pure_steps.
  cbn [frame with_frame set_mappedStatus set_qrCode mappedStatus
       qrCode profileData evolutionStatus].
  split_oracles.
  all: eexists; eexists; eexists; (split; [reflexivity|]).
  all: split; [reflexivity|]; split; [reflexivity|]; split; [reflexivity|].
  all: split; [reflexivity|]; split; [reflexivity|].
  all: projections.
  all: split; [rewrite <- ?app_assoc; reflexivity|].
  all: split; [reflexivity|].
  all: autorewrite with ticks in *.
  all: split;
    [ intros Hup; try (rewrite Hup in *; discriminate)
    | intros Hdown;
      try (exfalso;
           match goal with
           | H : store_error _ ?t = None |- _ =>
               apply (Hdown t); [lia | exact H]
           end) ].
  all: try (exists []; split; [left; reflexivity|];
            rewrite update_rows_nil; reflexivity).
  all: try (eexists; split; [right; eexists; reflexivity|]; reflexivity).
  all: try (split; [reflexivity|]; apply in_or_app; simpl; tauto).
  all: try (split; [reflexivity|]).
  all: try (apply in_or_app; left; apply in_or_app; simpl; tauto).
Qed.

(** The request up to the loop: the lookup, then the three locals. *)
Lemma sync_status_found env w uid inst :
  store_error env (effect w 0) = None ->
  active_of uid (whatsapp w) = [inst] ->
  exists s0,
    whatsapp (world s0) = whatsapp w /\
    now (world s0) = now w /\
    trace (world s0) = (trace w ++ [EStore (SelectActive uid) None])%list /\
    evolutionStatus (frame s0) = JStr "close" /\
    profileData (frame s0) = JNull /\
    forall s1 r s',
      poll_loop inst 5 env s0 = (Ret tt, s1) ->
      sync_finish inst env s1 = (Ret r, s') ->
      sync_status uid env (start w) = (Ret r, s').
Proof.
  intros Hs Ha.
  unfold sync_status, try_catch, bind, select_active.
  rewrite query_up by at_tick Hs.
  projections. rewrite Ha. pure_steps.
  eexists. split; [|split; [|split; [|split; [|split]]]].
  6: { intros s1 r s' Hloop Hfin. rewrite Hloop, Hfin. reflexivity. }
  all: reflexivity.
Qed.

Lemma polls_app a b : polls (a ++ b) = (polls a + polls b)%nat.
Proof. unfold polls. rewrite filter_app, length_app. reflexivity. Qed.

Lemma polls_failed name attempts :
  forallb (failed_attempt name) attempts = true ->
  polls (concat attempts) = length attempts.
Proof.
  induction attempts as [|a attempts IH]; intros H.
  - reflexivity.
  - cbn [forallb] in H. apply andb_true_iff in H. destruct H as [Ha Hall].
    cbn [concat length]. rewrite polls_app, (IH Hall). f_equal.
    attempt_shape Ha; reflexivity.
Qed.

Lemma polls_final name last :
  final_attempt name last = true -> polls last = 1%nat.
Proof.
  intros H. attempt_shape H; reflexivity.
Qed.

Lemma polls_after rest :
  forallb after_polling rest = true -> polls rest = 0%nat.
Proof.
  induction rest as [|e rest IH]; intros H; [reflexivity|].
  cbn [forallb] in H. apply andb_true_iff in H. destruct H as [He Hr].
  unfold polls in *. cbn [filter]. unfold after_polling in He.
  destruct (is_poll e); [discriminate|]. apply IH. exact Hr.
Qed.

(* ===================================================================== *)
(** ** Sync: end-to-end properties *)
(* ===================================================================== *)

(** C1, as the code has it.  A Sync on a user with an active record makes
    at most 5 connection-state polls.  Its trace is the lookup, then a run
    of failed attempts -- each one a poll that fails or does not read
    [open], or a poll that reads [open] followed by a failed profile
    fetch, and each closed by a sleep of 2000 -- then, unless all 5 turns
    were used, the one attempt whose poll reads [open] and whose profile
    fetch succeeds; nothing after it polls or sleeps. *)
Theorem sync_polling_bounded env w uid inst :
  store_error env (effect w 0) = None ->
  active_of uid (whatsapp w) = [inst] ->
  exists r s' attempts last rest,
    sync_status uid env (start w) = (Ret r, s') /\
    trace (world s')
    = (trace w ++ EStore (SelectActive uid) None
         :: concat attempts ++ last ++ rest)%list /\
    forallb (failed_attempt (nome_instancia inst)) attempts = true /\
    (last = [] /\ length attempts = 5%nat \/
     final_attempt (nome_instancia inst) last = true /\
     (length attempts < 5)%nat) /\
    forallb after_polling rest = true /\
    (polls (concat attempts ++ last ++ rest) <= 5)%nat /\
    now (world s') = now w + 2000 * Z.of_nat (length attempts).
Proof.
  intros Hs Ha.
  destruct (sync_status_found env w uid inst Hs Ha)
    as [s0 [Hw0 [Hn0 [Ht0 [He0 [Hp0 Hrun]]]]]].
  destruct (poll_loop_spec inst 5 env s0)
    as [s1 [attempts [last [Hloop [Hw1 [Hn1 [Ht1 [Hall Hend]]]]]]]].
  destruct (sync_finish_spec inst env s1)
    as [r [s' [rest [Hfin [_ [_ [_ [_ [Hn2 [Ht2 [Hrest _]]]]]]]]]]].
  exists r, s', attempts, last, rest.
  split; [apply (Hrun s1); assumption|].
  split.
  { rewrite Ht2, Ht1, Ht0. rewrite <- !app_assoc. reflexivity. }
  split; [exact Hall|].
  split.
  { destruct Hend as [[Hl [Hlen _]]|[Hf [Hlen _]]]; [left|right]; auto. }
  split; [exact Hrest|].
  split.
  { rewrite !polls_app, (polls_failed _ _ Hall), (polls_after _ Hrest).
    destruct Hend as [[Hl [Hlen _]]|[Hf [Hlen _]]].
    - subst last. cbn. lia.
    - rewrite (polls_final _ _ Hf). lia. }
  rewrite Hn2, Hn1, Hn0. reflexivity.
Qed.

(** C1 on the record of [u1], against a provider that reports [close]. *)
Lemma sync_polling_bounded_witness :
  exists r s' attempts last rest,
    sync_status "u1" (Scenario.provider "close") (start Scenario.mirrored)
    = (Ret r, s') /\
    trace (world s')
    = (EStore (SelectActive "u1") None :: concat attempts ++ last ++ rest)%list /\
    forallb (failed_attempt "5511999990000_1234") attempts = true /\
    (last = [] /\ length attempts = 5%nat \/
     final_attempt "5511999990000_1234" last = true /\
     (length attempts < 5)%nat) /\
    forallb after_polling rest = true /\
    (polls (concat attempts ++ last ++ rest) <= 5)%nat /\
    now (world s') = 100 + 2000 * Z.of_nat (length attempts).
Proof.
  apply (sync_polling_bounded (Scenario.provider "close") Scenario.mirrored
           "u1" Scenario.ana eq_refl eq_refl).
Defined.

(** C1 as stated fails: against a provider whose connection is [open] but
    whose profile endpoint times out, the first poll already reads [open],
    and four more polls follow it. *)
Lemma sync_polls_on_after_open :
  exists r s',
    sync_status "u1" Scenario.open_without_profile (start Scenario.mirrored)
    = (Ret r, s') /\
    nth_error (trace (world s')) 1
    = Some (ERemote (ConnectionState "5511999990000_1234")
              (Resolved (Scenario.state_body "open"))) /\
    reads_open (Resolved (Scenario.state_body "open")) = true /\
    polls (skipn 2 (trace (world s'))) = 4%nat.
Proof.
  eexists; eexists. split; [vm_compute; reflexivity|].
  repeat split.
Qed.

Lemma persisted_update2 w rows i upd qp (P : Row -> Prop) inst :
  whatsapp w = update_rows i qp (update_rows i upd rows) ->
  In inst rows -> id inst = i ->
  (forall r, P (apply_patch qp (apply_patch upd r))) ->
  persisted w i P.
Proof.
  intros Hw Hin Hid HP.
  eapply persisted_update; [exact Hw| |].
  - exists (apply_patch upd inst). split.
    + unfold update_rows. apply in_map_iff. exists inst.
      rewrite Hid, Nat.eqb_refl. auto.
    + rewrite apply_patch_id. exact Hid.
  - intros r Hr Hri. rewrite Nat.eqb_refl.
    unfold update_rows in Hr. apply in_map_iff in Hr.
    destruct Hr as [r0 [Hr0 _]]. subst r.
    destruct (Nat.eqb (id r0) i) eqn:E.
    + apply HP.
    + apply Nat.eqb_neq in E. contradiction.
Qed.

(** What a Sync leaves in the store, given what its loop observed. *)
Lemma sync_status_after env w uid inst :
  store_up env ->
  active_of uid (whatsapp w) = [inst] ->
  exists s0,
    whatsapp (world s0) = whatsapp w /\
    now (world s0) = now w /\
    evolutionStatus (frame s0) = JStr "close" /\
    profileData (frame s0) = JNull /\
    forall s1,
      poll_loop inst 5 env s0 = (Ret tt, s1) ->
      whatsapp (world s1) = whatsapp (world s0) ->
      exists r s',
        sync_status uid env (start w) = (Ret r, s') /\
        code r = 200 /\ success r = true /\
        mappedStatus (frame s') = mapStatus (evolutionStatus (frame s1)) /\
        profileData (frame s') = profileData (frame s1) /\
        now (world s') = now (world s1) /\
        persisted (world s') (id inst)
          (fun x =>
             status x = mappedStatus (frame s') /\
             connection_attempts x
             = Some (if String.eqb (mappedStatus (frame s')) "disconnected"
                     then attempts_or_0 (connection_attempts inst) + 1
                     else 0) /\
             profile_name x = opt (profileData (frame s')) "name" ||| JNull /\
             profile_picture_url x
             = opt (profileData (frame s')) "profilePictureUrl" ||| JNull).
Proof.
  intros Hup Ha.
  destruct (sync_status_found env w uid inst (Hup _) Ha)
    as [s0 [Hw0 [Hn0 [Ht0 [He0 [Hp0 Hrun]]]]]].
  exists s0. split; [exact Hw0|]. split; [exact Hn0|].
  split; [exact He0|]. split; [exact Hp0|].
  intros s1 Hloop Hw1.
  destruct (sync_finish_spec inst env s1)
    as [r [s' [rest [Hfin [Hc [Hok [Hm [Hp [Hn [_ [_ [Hst _]]]]]]]]]]]].
  exists r, s'.
  split; [apply (Hrun s1); assumption|].
  split; [exact Hc|]. split; [exact Hok|]. split; [exact Hm|].
  split; [exact Hp|]. split; [exact Hn|].
  destruct (Hst Hup) as [qp [Hqp Hrows]].
  rewrite Hm, Hp.
  eapply persisted_update2 with (inst := inst).
  - exact Hrows.
  - rewrite Hw1, Hw0. eapply active_is; eassumption.
  - reflexivity.
  - intros x. destruct Hqp as [->|[q ->]]; repeat split.
Qed.

(** C2, as the code has it.  A Sync whose final mapped status is not
    [connected] writes null to [profile_name] and [profile_picture_url];
    one whose final mapped status is [connected] writes the name and the
    picture of the fetched profile (null where the profile has none). *)
Theorem sync_profile_follows_connection env w uid inst :
  store_up env ->
  active_of uid (whatsapp w) = [inst] ->
  exists r s',
    sync_status uid env (start w) = (Ret r, s') /\
    persisted (world s') (id inst)
      (fun x => status x = mappedStatus (frame s')) /\
    (mappedStatus (frame s') <> "connected" ->
     persisted (world s') (id inst)
       (fun x => profile_name x = JNull /\ profile_picture_url x = JNull)) /\
    (mappedStatus (frame s') = "connected" ->
     persisted (world s') (id inst)
       (fun x =>
          profile_name x = opt (profileData (frame s')) "name" ||| JNull /\
          profile_picture_url x
          = opt (profileData (frame s')) "profilePictureUrl" ||| JNull)).
Proof.
  intros Hup Ha.
  destruct (sync_status_after env w uid inst Hup Ha)
    as [s0 [Hw0 [Hn0 [He0 [Hp0 Hafter]]]]].
  destruct (poll_loop_spec inst 5 env s0)
    as [s1 [attempts [last [Hloop [Hw1 [_ [_ [_ Hend]]]]]]]].
  destruct (Hafter s1 Hloop Hw1)
    as [r [s' [Hrun [_ [_ [Hm [Hp [_ [Hex Hall]]]]]]]]].
  exists r, s'. split; [exact Hrun|]. split; [|split].
  - split; [exact Hex|]. intros x Hx Hid. apply (Hall x Hx Hid).
  - intros Hnot. split; [exact Hex|].
    intros x Hx Hid. destruct (Hall x Hx Hid) as [_ [_ [Hname Hpic]]].
    destruct Hend as [[_ [_ [Hprof _]]]|[_ [_ Hopen]]].
    + rewrite Hp, Hprof, Hp0 in Hname, Hpic. split; assumption.
    + exfalso. apply Hnot. rewrite Hm, Hopen. reflexivity.
  - intros _. split; [exact Hex|].
    intros x Hx Hid. destruct (Hall x Hx Hid) as [_ [_ [Hname Hpic]]].
    split; assumption.
Qed.

(** C2 on the record of [u1]: a provider that reports [close] leaves both
    columns null; one that reports [open] leaves the fetched name, and
    null for the picture its profile does not have. *)
Lemma sync_profile_follows_connection_witness :
  (exists r s',
      sync_status "u1" (Scenario.provider "close") (start Scenario.mirrored)
      = (Ret r, s') /\
      persisted (world s') 7
        (fun x => profile_name x = JNull /\ profile_picture_url x = JNull)) /\
  (exists r s',
      sync_status "u1" (Scenario.provider "open") (start Scenario.mirrored)
      = (Ret r, s') /\
      persisted (world s') 7
        (fun x => profile_name x = JStr "Ana" /\ profile_picture_url x = JNull)).
Proof.
  split.
  - destruct (sync_profile_follows_connection (Scenario.provider "close")
                Scenario.mirrored "u1" Scenario.ana (fun _ => eq_refl) eq_refl)
      as [r [s' [Hrun [_ [Hnot _]]]]].
    exists r, s'. split; [exact Hrun|]. apply Hnot.
    vm_compute in Hrun. injection Hrun as _ <-. discriminate.
  - destruct (sync_profile_follows_connection (Scenario.provider "open")
                Scenario.mirrored "u1" Scenario.ana (fun _ => eq_refl) eq_refl)
      as [r [s' [Hrun [_ [_ Hconn]]]]].
    exists r, s'. split; [exact Hrun|].
    vm_compute in Hrun. injection Hrun as _ <-. apply Hconn. reflexivity.
Defined.

(** C2 as stated fails: the record of [u1] carries the profile name
    ["Ana"] and a picture; after a Sync that ends [disconnected] both
    columns are null. *)
Lemma sync_clears_profile :
  exists r s',
    sync_status "u1" (Scenario.provider "close") (start Scenario.mirrored)
    = (Ret r, s') /\
    mappedStatus (frame s') = "disconnected" /\
    map profile_name (whatsapp Scenario.mirrored) = [JStr "Ana"] /\
    map profile_picture_url (whatsapp Scenario.mirrored)
    = [JStr "https://cdn.example/ana.png"] /\
    map profile_name (whatsapp (world s')) = [JNull] /\
    map profile_picture_url (whatsapp (world s')) = [JNull].
Proof.
  eexists; eexists. split; [vm_compute; reflexivity|].
  repeat split.
Qed.

(* ===================================================================== *)
(** ** A provider that does not answer *)
(* ===================================================================== *)

(** The loop against a provider whose every connection-state poll is
    rejected, turn by turn. *)
Lemma poll_loop_failing inst env :
  (forall t, exists e,
      remote env t (ConnectionState (nome_instancia inst)) = Rejected e) ->
  forall n s,
  exists s' evs,
    poll_loop inst n env s = (Ret tt, s') /\
    whatsapp (world s') = whatsapp (world s) /\
    now (world s') = now (world s) + 2000 * Z.of_nat n /\
    trace (world s') = (trace (world s) ++ evs)%list /\
    length evs = (2 * n)%nat /\
    polls evs = n /\
    forallb of_polling evs = true /\
    profileData (frame s') = profileData (frame s) /\
    (evolutionStatus (frame s) = JStr "close" ->
     evolutionStatus (frame s') = JStr "close").
Proof.
  intros Hrej. induction n as [|n IH]; intros s.
  - exists s, []. cbn [poll_loop ret]. split; [reflexivity|].
    split; [reflexivity|]. split; [cbn; lia|].
    split; [rewrite app_nil_r; reflexivity|]. repeat split. auto.
  - cbn [poll_loop]. unfold poll_once, try_catch, bind.
    destruct (Hrej (tick s)) as [e He].
    rewrite (axios_rejected _ _ _ e) by exact He.
    pure_steps.
    match goal with
    | |- context [poll_loop inst n env ?s2] =>
        destruct (IH s2)
          as [s' [evs [Hrun [Hw [Hn [Ht [Hlen [Hp [Hall [Hprof Hev]]]]]]]]]]
    end.
    rewrite Hrun.
    exists s', (ERemote (ConnectionState (nome_instancia inst)) (Rejected e)
                :: ESleep 2000 :: evs).
    split; [reflexivity|].
    split; [rewrite Hw; reflexivity|].
    split; [rewrite Hn; projections; rewrite Nat2Z.inj_succ; lia|].
    split; [rewrite Ht; projections; rewrite <- !app_assoc; reflexivity|].
    split; [cbn [length]; rewrite Hlen; lia|].
    split; [unfold polls in *; cbn [filter is_poll length]; rewrite Hp; reflexivity|].
    split; [cbn [forallb of_polling is_poll is_sleep orb andb]; exact Hall|].
    split; [rewrite Hprof; reflexivity|].
    intros _. apply Hev. reflexivity.
Qed.

(** The end of a Sync whose loop read [close] throughout: the status
    update, then the pairing-code fetch, then at most the write of the
    code. *)
Lemma sync_finish_close inst env s :
  evolutionStatus (frame s) = JStr "close" ->
  store_up env ->
  exists r s' err rest qp,
    sync_finish inst env s = (Ret r, s') /\
    code r = 200 /\ success r = true /\
    trace (world s')
    = (trace (world s)
       ++ EStore (Update (id inst)
                    (updateData inst "disconnected" (profileData (frame s))
                       (now (world s)))) err
          :: ERemote (Connect (nome_instancia inst))
               (remote env (S (tick s)) (Connect (nome_instancia inst)))
          :: rest)%list /\
    forallb (fun e => negb (is_remote e)) rest = true /\
    (qp = [] \/ exists q, qp = [F_qr_code q]) /\
    whatsapp (world s')
    = update_rows (id inst) qp
        (update_rows (id inst)
           (updateData inst "disconnected" (profileData (frame s))
              (now (world s)))
           (whatsapp (world s))).
Proof.
  intros Hclose Hup.
  set (res0 := remote env (S (tick s)) (Connect (nome_instancia inst))).
  unfold sync_finish, bind, try_catch, update_returning, update, query, axios.
  pure_steps.
  cbn [frame with_frame set_mappedStatus set_qrCode mappedStatus
       qrCode profileData evolutionStatus].
  rewrite Hclose.
  cbn [mapStatus is_str String.eqb Ascii.eqb Bool.eqb].
  autorewrite with ticks. rewrite !Hup.
  split_oracles.
  all: autorewrite with ticks in *.
  all: try (rewrite Hup in *; discriminate).
  all: eexists; eexists; eexists; eexists; eexists; (split; [reflexivity|]).
  all: split; [reflexivity|]; split; [reflexivity|].
  all: projections.
  all: subst res0.
  all: split; [rewrite <- ?app_assoc; cbn [app]; try rewrite Eremote; reflexivity|].
  all: split; [reflexivity|].
  all: first [ split; [left; reflexivity|]; rewrite update_rows_nil; reflexivity
             | split; [right; eexists; reflexivity|]; reflexivity ].
Qed.

(** Events that cannot stay pending are passed over. *)
Lemma first_pending_app timeout p pre post : forall t,
  forallb (bounded timeout) pre = true ->
  first_pending timeout p t (pre ++ post)
  = match first_pending timeout p (t + length pre) post with
    | Some (done, req) => Some ((pre ++ done)%list, req)
    | None => None
    end.
Proof.
  induction pre as [|e pre IH]; intros t Hall.
  - cbn [app length]. rewrite Nat.add_0_r.
    destruct (first_pending timeout p t post) as [[done req]|]; reflexivity.
  - cbn [forallb] in Hall. apply andb_prop in Hall. destruct Hall as [He Hpre].
    cbn [app length first_pending]. rewrite (IH (S t) Hpre).
    replace (S t + length pre)%nat with (t + S (length pre))%nat by lia.
    assert (Hlater :
              match
                match first_pending timeout p (t + S (length pre)) post with
                | Some (done, req) => Some ((pre ++ done)%list, req)
                | None => None
                end
              with
              | Some (done, req) => Some (e :: done, req)
              | None => None
              end
              = match first_pending timeout p (t + S (length pre)) post with
                | Some (done, req) => Some (e :: (pre ++ done)%list, req)
                | None => None
                end).
    { destruct (first_pending timeout p (t + S (length pre)) post)
        as [[done req]|]; reflexivity. }
    destruct e as [req res|op err|ms]; try exact Hlater.
    cbn [bounded] in He. unfold settles.
    destruct (p t req); [exact Hlater|].
    destruct (timeout req); [exact Hlater|discriminate].
Qed.

Lemma of_polling_bounded evs :
  forallb of_polling evs = true ->
  forallb (bounded sync_timeout) evs = true.
Proof.
  induction evs as [|e evs IH]; [reflexivity|].
  cbn [forallb]. intros H. apply andb_prop in H. destruct H as [He Hevs].
  rewrite (IH Hevs), andb_true_r.
  destruct e as [[]| |]; try reflexivity; discriminate.
Qed.

(** In front of a provider whose every poll fails, rejected or cut off by
    the timeout, the handler sees every poll rejected. *)
Lemma polls_seen_rejected p env name :
  (forall t, p t (ConnectionState name) = Silent \/
             exists e, p t (ConnectionState name) = Answers (Rejected e)) ->
  forall t, exists e,
    remote (facing sync_timeout p env) t (ConnectionState name) = Rejected e.
Proof.
  intros Hfail t. cbn [facing remote]. unfold settles.
  destruct (Hfail t) as [-> | [e ->]]; cbn [sync_timeout]; eauto.
Qed.

(** A Sync whose every poll fails, up to and including its pairing-code
    fetch. *)
Lemma sync_polls_fail_run env p w uid inst :
  store_up env ->
  active_of uid (whatsapp w) = [inst] ->
  (forall t, p t (ConnectionState (nome_instancia inst)) = Silent \/
             exists e, p t (ConnectionState (nome_instancia inst))
                       = Answers (Rejected e)) ->
  exists r s' evs err rest qp,
    sync_status uid (facing sync_timeout p env) (start w) = (Ret r, s') /\
    code r = 200 /\ success r = true /\
    events_since w (world s')
    = ((EStore (SelectActive uid) None
        :: evs ++ [EStore (Update (id inst)
                             (updateData inst "disconnected" JNull
                                (now w + 10000))) err])
       ++ ERemote (Connect (nome_instancia inst))
            (remote (facing sync_timeout p env) (effect w 12)
               (Connect (nome_instancia inst)))
          :: rest)%list /\
    length evs = 10%nat /\ polls evs = 5%nat /\
    forallb of_polling evs = true /\
    forallb (fun e => negb (is_remote e)) rest = true /\
    (qp = [] \/ exists q, qp = [F_qr_code q]) /\
    whatsapp (world s')
    = update_rows (id inst) qp
        (update_rows (id inst)
           (updateData inst "disconnected" JNull (now w + 10000))
           (whatsapp w)).
Proof.
  intros Hup Ha Hfail.
  set (env' := facing sync_timeout p env).
  assert (Hup' : store_up env') by exact Hup.
  destruct (sync_status_found env' w uid inst (Hup' _) Ha)
    as [s0 [Hw0 [Hn0 [Ht0 [He0 [Hp0 Hrun]]]]]].
  destruct (poll_loop_failing inst env'
              (polls_seen_rejected p env _ Hfail) 5 s0)
    as [s1 [evs [Hloop [Hw1 [Hn1 [Ht1 [Hlen [Hpolls [Hall [Hprof Hev]]]]]]]]]].
  destruct (sync_finish_close inst env' s1 (Hev He0) Hup')
    as [r [s' [err [rest [qp [Hfin [Hc [Hok [Ht [Hrest [Hqp Hrows]]]]]]]]]]].
  assert (Htick : S (tick s1) = effect w 12).
  { unfold tick, effect. rewrite Ht1, Ht0, !length_app, Hlen. cbn [length]. lia. }
  assert (Hnow : now (world s1) = now w + 10000) by (rewrite Hn1, Hn0; lia).
  rewrite Hprof, Hp0, Hnow, Htick in Ht.
  rewrite Hprof, Hp0, Hnow, Hw1, Hw0 in Hrows.
  exists r, s', evs, err, rest, qp.
  split; [apply (Hrun s1); assumption|].
  split; [exact Hc|]. split; [exact Hok|].
  split.
  { apply events_since_app. rewrite Ht, Ht1, Ht0.
    cbn [app]. rewrite <- !app_assoc. reflexivity. }
  repeat (split; [assumption|]). exact Hrows.
Qed.

Lemma first_pending_none timeout p evs : forall t,
  forallb (fun e => negb (is_remote e)) evs = true ->
  first_pending timeout p t evs = None.
Proof.
  induction evs as [|e evs IH]; intros t H; [reflexivity|].
  cbn [forallb] in H. apply andb_prop in H. destruct H as [He Hevs].
  cbn [first_pending]. rewrite (IH (S t) Hevs).
  destruct e; [discriminate|reflexivity|reflexivity].
Qed.

Lemma polls_none evs :
  forallb (fun e => negb (is_remote e)) evs = true -> polls evs = 0%nat.
Proof.
  unfold polls. induction evs as [|e evs IH]; [reflexivity|].
  cbn [forallb]. intros H. apply andb_prop in H. destruct H as [He Hevs].
  destruct e as [[]| |]; try discriminate; cbn [filter is_poll]; auto.
Qed.

(** C8.  A Sync on a user with an active record whose every
    connection-state poll fails -- rejected by the provider, or cut off by
    the 8000 ms timeout of a provider that does not answer -- uses its 5
    polls and writes the status [disconnected] with the counter at its
    previous value (0 for null) plus 1 (the store taking the writes).  It
    then fetches a pairing code, a call that carries no timeout: when the
    provider settles that call the request completes with a 200; when the
    provider stays silent the request awaits it for ever. *)
Theorem sync_pairing_fetch_unbounded env p w uid inst :
  store_up env ->
  active_of uid (whatsapp w) = [inst] ->
  (forall t, p t (ConnectionState (nome_instancia inst)) = Silent \/
             exists e, p t (ConnectionState (nome_instancia inst))
                       = Answers (Rejected e)) ->
  (forall res,
      p (effect w 12) (Connect (nome_instancia inst)) = Answers res ->
      exists r s',
        against sync_timeout p env (sync_status uid) w = Completed (Ret r) s' /\
        code r = 200 /\ success r = true /\
        polls (events_since w (world s')) = 5%nat /\
        persisted (world s') (id inst)
          (fun x =>
             status x = "disconnected" /\
             connection_attempts x
             = Some (attempts_or_0 (connection_attempts inst) + 1))) /\
  (p (effect w 12) (Connect (nome_instancia inst)) = Silent ->
   exists evs err,
     against sync_timeout p env (sync_status uid) w
     = Pending
         (EStore (SelectActive uid) None
          :: evs ++ [EStore (Update (id inst)
                               (updateData inst "disconnected" JNull
                                  (now w + 10000))) err])
         (Connect (nome_instancia inst)) /\
     length evs = 10%nat /\ polls evs = 5%nat /\
     forallb of_polling evs = true /\
     In (F_status "disconnected")
       (updateData inst "disconnected" JNull (now w + 10000)) /\
     In (F_connection_attempts (attempts_or_0 (connection_attempts inst) + 1))
       (updateData inst "disconnected" JNull (now w + 10000))).
Proof.
  intros Hup Ha Hfail.
  destruct (sync_polls_fail_run env p w uid inst Hup Ha Hfail)
    as [r [s' [evs [err [rest [qp [Hrun [Hc [Hok [Hevs [Hlen [Hpolls
         [Hall [Hrest [Hqp Hrows]]]]]]]]]]]]]]].
  assert (Hpre : forallb (bounded sync_timeout)
                   (EStore (SelectActive uid) None
                    :: evs ++ [EStore (Update (id inst)
                                         (updateData inst "disconnected" JNull
                                            (now w + 10000))) err]) = true).
  { cbn [forallb bounded andb]. rewrite forallb_app.
    rewrite (of_polling_bounded _ Hall). reflexivity. }
  assert (Hlen12 : length (EStore (SelectActive uid) None
                    :: evs ++ [EStore (Update (id inst)
                                         (updateData inst "disconnected" JNull
                                            (now w + 10000))) err]) = 12%nat).
  { cbn [length]. rewrite length_app, Hlen. reflexivity. }
  split.
  - intros res Hres. exists r, s'.
    split.
    { unfold against. rewrite Hrun, Hevs.
      rewrite (first_pending_app _ _ _ _ _ Hpre), Hlen12.
      cbn [first_pending]. rewrite (first_pending_none _ _ _ _ Hrest).
      unfold settles. fold (effect w 12). rewrite Hres. reflexivity. }
    split; [exact Hc|]. split; [exact Hok|].
    split.
    { rewrite Hevs. cbn [app]. unfold polls in *.
      cbn [filter is_poll]. rewrite !filter_app, !length_app.
      cbn [filter is_poll length]. rewrite Hpolls.
      fold (polls rest). rewrite (polls_none _ Hrest). reflexivity. }
    eapply persisted_update2 with (inst := inst).
    + exact Hrows.
    + eapply active_is; eassumption.
    + reflexivity.
    + intros x. destruct Hqp as [->|[q ->]]; repeat split.
  - intros Hsilent. exists evs, err.
    split.
    { unfold against. rewrite Hrun, Hevs.
      rewrite (first_pending_app _ _ _ _ _ Hpre), Hlen12.
      cbn [first_pending]. unfold settles. fold (effect w 12).
      rewrite Hsilent. cbn [sync_timeout]. rewrite app_nil_r. reflexivity. }
    split; [exact Hlen|]. split; [exact Hpolls|]. split; [exact Hall|].
    split; [left; reflexivity|].
    right; right; left. reflexivity.
Qed.

(** C8 on the record of [u1], whose counter stands at 3: against a
    provider that rejects every call the request completes, against one
    that never answers it does not. *)
Lemma sync_pairing_fetch_unbounded_witness :
  (exists r s',
      against sync_timeout (Outage.refusing Scenario.unavailable)
        (Scenario.provider "close") (sync_status "u1") Scenario.mirrored
      = Completed (Ret r) s' /\
      code r = 200 /\ success r = true /\
      polls (events_since Scenario.mirrored (world s')) = 5%nat /\
      persisted (world s') 7
        (fun x => status x = "disconnected" /\ connection_attempts x = Some 4)) /\
  (exists evs err,
      against sync_timeout Outage.silent (Scenario.provider "close")
        (sync_status "u1") Scenario.mirrored
      = Pending
          (EStore (SelectActive "u1") None
           :: evs ++ [EStore (Update 7
                                (updateData Scenario.ana "disconnected" JNull
                                   10100)) err])
          (Connect "5511999990000_1234") /\
      length evs = 10%nat /\ polls evs = 5%nat /\
      forallb of_polling evs = true /\
      In (F_status "disconnected")
        (updateData Scenario.ana "disconnected" JNull 10100) /\
      In (F_connection_attempts 4)
        (updateData Scenario.ana "disconnected" JNull 10100)).
Proof.
  split.
  - apply (proj1 (sync_pairing_fetch_unbounded (Scenario.provider "close")
                    (Outage.refusing Scenario.unavailable)
                    Scenario.mirrored "u1" Scenario.ana
                    (fun _ => eq_refl) eq_refl
                    (fun _ => or_intror (ex_intro _ Scenario.unavailable eq_refl)))
             (Rejected Scenario.unavailable)).
    reflexivity.
  - apply (proj2 (sync_pairing_fetch_unbounded (Scenario.provider "close")
                    Outage.silent
                    Scenario.mirrored "u1" Scenario.ana
                    (fun _ => eq_refl) eq_refl
                    (fun _ => or_introl eq_refl))).
    reflexivity.
Defined.

(** The request that is never answered, event by event: the lookup, five
    polls cut off by their timeout with the sleep after each, the status
    update, and then the pairing-code fetch it awaits. *)
Lemma sync_awaits_pairing_code :
  against sync_timeout Outage.silent (Scenario.provider "close")
    (sync_status "u1") Scenario.mirrored
  = Pending
      ([EStore (SelectActive "u1") None]
       ++ concat (repeat [ERemote (ConnectionState "5511999990000_1234")
                            (Rejected (timeout_error 8000));
                          ESleep 2000] 5)
       ++ [EStore (Update 7 (updateData Scenario.ana "disconnected" JNull 10100))
             None])
      (Connect "5511999990000_1234").
Proof. vm_compute. reflexivity. Qed.

(** C10.  A Sync persists the mapped status and a counter that is the
    previous value plus 1 when the mapped status is [disconnected] and 0
    otherwise; in particular a Sync whose final mapped status is
    [connecting] resets [connection_attempts] to 0. *)
Theorem sync_connecting_resets_attempts env w uid inst r s' :
  store_up env ->
  active_of uid (whatsapp w) = [inst] ->
  sync_status uid env (start w) = (Ret r, s') ->
  persisted (world s') (id inst)
    (fun x =>
       status x = mappedStatus (frame s') /\
       connection_attempts x
       = Some (if String.eqb (mappedStatus (frame s')) "disconnected"
               then attempts_or_0 (connection_attempts inst) + 1
               else 0)) /\
  (mappedStatus (frame s') = "connecting" ->
   persisted (world s') (id inst)
     (fun x => status x = "connecting" /\ connection_attempts x = Some 0)).
Proof.
  intros Hup Ha Hrun.
  destruct (sync_status_after env w uid inst Hup Ha)
    as [s0 [Hw0 [Hn0 [He0 [Hp0 Hafter]]]]].
  destruct (poll_loop_spec inst 5 env s0)
    as [s1 [attempts [last [Hloop [Hw1 _]]]]].
  destruct (Hafter s1 Hloop Hw1)
    as [r0 [s0' [Hrun0 [_ [_ [_ [_ [_ [Hex Hall]]]]]]]]].
  rewrite Hrun in Hrun0. injection Hrun0 as <- <-.
  assert (Hgen : persisted (world s') (id inst)
            (fun x =>
               status x = mappedStatus (frame s') /\
               connection_attempts x
               = Some (if String.eqb (mappedStatus (frame s')) "disconnected"
                       then attempts_or_0 (connection_attempts inst) + 1
                       else 0))).
  { split; [exact Hex|]. intros x Hx Hid.
    destruct (Hall x Hx Hid) as [H1 [H2 _]]. split; assumption. }
  split; [exact Hgen|].
  intros Hconn. split; [exact Hex|]. intros x Hx Hid.
  destruct (proj2 Hgen x Hx Hid) as [H1 H2].
  rewrite Hconn in H1, H2. split; assumption.
Qed.

(** C10 on the record of [u1], whose counter stands at 3, against a
    provider that reports [connecting]. *)
Lemma sync_connecting_resets_attempts_witness :
  exists r s',
    sync_status "u1" (Scenario.provider "connecting") (start Scenario.mirrored)
    = (Ret r, s') /\
    connection_attempts Scenario.ana = Some 3 /\
    mappedStatus (frame s') = "connecting" /\
    persisted (world s') 7
      (fun x => status x = "connecting" /\ connection_attempts x = Some 0).
Proof.
  assert (Hrun : exists r s',
             sync_status "u1" (Scenario.provider "connecting")
               (start Scenario.mirrored) = (Ret r, s') /\
             mappedStatus (frame s') = "connecting").
  { eexists; eexists. split; [vm_compute; reflexivity|reflexivity]. }
  destruct Hrun as [r [s' [Hrun Hm]]].
  exists r, s'. split; [exact Hrun|]. split; [reflexivity|].
  split; [exact Hm|].
  exact (proj2 (sync_connecting_resets_attempts
                  (Scenario.provider "connecting") Scenario.mirrored "u1"
                  Scenario.ana r s' (fun _ => eq_refl) eq_refl Hrun) Hm).
Defined.

(* ===================================================================== *)
(** ** Setup: the resynchronisation path *)
(* ===================================================================== *)

Lemma update_rows_keeps_qr_code i m t rows :
  map qr_code (update_rows i [F_status m; F_atualizado_em t] rows)
  = map qr_code rows.
Proof.
  unfold update_rows. rewrite map_map. apply map_ext.
  intros r. destruct (Nat.eqb (id r) i); reflexivity.
Qed.

(** C7, what the code does.  Setup on a user whose active record maps to
    [disconnected] fetches a pairing code and returns it, but writes only
    [status] and [atualizado_em]: the [qr_code] column of every row is what
    it was.  A rejected pairing-code fetch is logged and answered with a
    success carrying a null code. *)
Theorem setup_existing_pairing_code env w uid usuario tel inst d :
  uid <> "" ->
  store_error env (effect w 0) = None ->
  filter (fun u => String.eqb (u_id u) uid) (usuarios w) = [usuario] ->
  telefone usuario = Some tel ->
  tel <> "" ->
  store_error env (effect w 1) = None ->
  active_of uid (whatsapp w) = [inst] ->
  remote env (effect w 2) (ConnectionState (nome_instancia inst)) = Resolved d ->
  mapStatus (evolutionStatus_of d) = "disconnected" ->
  (forall q,
      remote env (effect w 4) (Connect (nome_instancia inst)) = Resolved q ->
      exists r s',
        setup uid env (start w) = (Ret r, s') /\
        code r = 200 /\
        body r = BSetup (set_field inst (F_status "disconnected"))
                   (opt q "base64" ||| opt (opt q "qrcode") "base64")
                   "Instância já existe. Escaneie o QR Code para conectar." /\
        map qr_code (whatsapp (world s')) = map qr_code (whatsapp w)) /\
  (forall e,
      remote env (effect w 4) (Connect (nome_instancia inst)) = Rejected e ->
      exists r s',
        setup uid env (start w) = (Ret r, s') /\
        code r = 200 /\ success r = true /\
        body r = BSetup (set_field inst (F_status "disconnected")) JNull
                   "Instância já existe. Status da Evolution API indisponível no momento." /\
        In (Error, "Erro ao sincronizar status da instância existente "
                   ++ nome_instancia inst ++ ":") (logs (world s')) /\
        map qr_code (whatsapp (world s')) = map qr_code (whatsapp w)).
Proof.
  intros Hu Hs0 Husr Htel Htne Hs1 Hact Hst Hmap.
  apply String.eqb_neq in Hu. apply String.eqb_neq in Htne.
  split.
  - intros q Hq.
    unfold setup. rewrite Hu.
    unfold try_catch, bind, select_usuario, select_active.
    rewrite query_up by at_tick Hs0.
    projections. rewrite Husr. pure_steps. rewrite Htel, Htne.
    rewrite query_up by at_tick Hs1.
    projections. rewrite Hact. pure_steps.
    unfold setup_existing, try_catch, bind, update.
    pure_steps.
    rewrite (axios_resolved _ _ _ d) by at_tick Hst.
    pure_steps. rewrite Hmap.
    destruct (store_error env (effect w 3)) as [m|] eqn:Hs3.
    + rewrite (query_down _ _ _ _ m) by at_tick Hs3.
      pure_steps. cbn [String.eqb Ascii.eqb Bool.eqb].
      pure_steps.
      rewrite (axios_resolved _ _ _ q) by at_tick Hq.
      pure_steps.
      eexists; eexists. split; [reflexivity|]. repeat split.
    + rewrite query_up by at_tick Hs3.
      pure_steps. cbn [String.eqb Ascii.eqb Bool.eqb].
      pure_steps.
      rewrite (axios_resolved _ _ _ q) by at_tick Hq.
      pure_steps.
      eexists; eexists. split; [reflexivity|].
      split; [reflexivity|]. split; [reflexivity|].
      projections. apply update_rows_keeps_qr_code.
  - intros e He.
    unfold setup. rewrite Hu.
    unfold try_catch, bind, select_usuario, select_active.
    rewrite query_up by at_tick Hs0.
    projections. rewrite Husr. pure_steps. rewrite Htel, Htne.
    rewrite query_up by at_tick Hs1.
    projections. rewrite Hact. pure_steps.
    unfold setup_existing, try_catch, bind, update.
    pure_steps.
    rewrite (axios_resolved _ _ _ d) by at_tick Hst.
    pure_steps. rewrite Hmap.
    destruct (store_error env (effect w 3)) as [m|] eqn:Hs3.
    + rewrite (query_down _ _ _ _ m) by at_tick Hs3.
      pure_steps. cbn [String.eqb Ascii.eqb Bool.eqb].
      pure_steps.
      rewrite (axios_rejected _ _ _ e) by at_tick He.
      pure_steps.
      eexists; eexists. split; [reflexivity|].
      split; [reflexivity|]. split; [reflexivity|]. split; [reflexivity|].
      projections. split; [|reflexivity].
      apply in_or_app. right. left. reflexivity.
    + rewrite query_up by at_tick Hs3.
      pure_steps. cbn [String.eqb Ascii.eqb Bool.eqb].
      pure_steps.
      rewrite (axios_rejected _ _ _ e) by at_tick He.
      pure_steps.
      eexists; eexists. split; [reflexivity|].
      split; [reflexivity|]. split; [reflexivity|]. split; [reflexivity|].
      projections. split; [|apply update_rows_keeps_qr_code].
      apply in_or_app. right. left. reflexivity.
Qed.

(** C7 on the record of [u1], whose [qr_code] is null, against a provider
    that reports [close] and hands out the pairing code ["ABC123"]: the
    answer carries the code, the store does not. *)
Lemma setup_existing_pairing_code_witness :
  exists r s',
    setup "u1" (Scenario.provider "close") (start Scenario.mirrored)
    = (Ret r, s') /\
    code r = 200 /\
    body r = BSetup (set_field Scenario.ana (F_status "disconnected"))
               (JStr "ABC123")
               "Instância já existe. Escaneie o QR Code para conectar." /\
    map qr_code (whatsapp (world s')) = [JNull].
Proof.
  apply (proj1 (setup_existing_pairing_code
                  (Scenario.provider "close") Scenario.mirrored "u1"
                  Scenario.u1 "5511999990000" Scenario.ana
                  (Scenario.state_body "close")
                  ltac:(discriminate) eq_refl eq_refl eq_refl
                  ltac:(discriminate) eq_refl eq_refl eq_refl eq_refl)
           Scenario.pairing).
  reflexivity.
Defined.

(** The sibling path: a Sync on the same record against the same provider
    does write the pairing code it fetched. *)
Lemma sync_persists_pairing_code :
  exists r s',
    sync_status "u1" (Scenario.provider "close") (start Scenario.mirrored)
    = (Ret r, s') /\
    map qr_code (whatsapp (world s')) = [JStr "ABC123"].
Proof.
  eexists; eexists. split; [vm_compute; reflexivity|reflexivity].
Qed.

(* ===================================================================== *)
(** ** Store failures *)
(* ===================================================================== *)

(** What [sync_finish] does with the store: the status update comes
    first, and no later query writes the status. *)
Lemma sync_finish_store inst env s :
  exists r s' err rest,
    sync_finish inst env s = (Ret r, s') /\
    code r = 200 /\ success r = true /\
    trace (world s')
    = (trace (world s)
       ++ EStore (Update (id inst)
                    (updateData inst (mapStatus (evolutionStatus (frame s)))
                       (profileData (frame s)) (now (world s)))) err
          :: rest)%list /\
    forallb (fun e => negb (writes_status e)) rest = true /\
    (store_error env (tick s) <> None ->
     In (Error, "Erro ao atualizar Supabase para instância "
                ++ dec (Z.of_nat (id inst)) ++ ":") (logs (world s')) /\
     (whatsapp (world s') = whatsapp (world s) \/
      exists q, truthy q = true /\
                whatsapp (world s')
                = update_rows (id inst) [F_qr_code q] (whatsapp (world s)))).
Proof.
  unfold sync_finish, bind, try_catch, update_returning, update, query, axios.
  pure_steps.
  cbn [frame with_frame set_mappedStatus set_qrCode mappedStatus
       qrCode profileData evolutionStatus].
  split_oracles.
  all: eexists; eexists; eexists; eexists; (split; [reflexivity|]).
  all: split; [reflexivity|]; split; [reflexivity|].
  all: projections.
  all: split; [rewrite <- ?app_assoc; reflexivity|].
  all: split; [reflexivity|].
  all: autorewrite with ticks in *.
  all: intros Hdown; try congruence.
  all: split; [repeat (apply in_or_app; simpl; tauto || left)|].
  all: try (left; reflexivity).
  all: try (right; eexists; split; [eassumption|reflexivity]).
Qed.

(** The turns of the polling loop write nothing. *)
Lemma attempts_write_nothing name attempts :
  forallb (failed_attempt name) attempts = true ->
  forallb (fun e => negb (writes_status e)) (concat attempts) = true.
Proof.
  induction attempts as [|a rest IH]; [reflexivity|].
  cbn [forallb concat]. intros H. apply andb_prop in H. destruct H as [Ha Hrest].
  rewrite forallb_app, (IH Hrest), andb_true_r.
  attempt_shape Ha; reflexivity.
Qed.

Lemma final_attempt_writes_nothing name last :
  final_attempt name last = true ->
  forallb (fun e => negb (writes_status e)) last = true.
Proof.
  intros H. attempt_shape H; reflexivity.
Qed.

(** The one event of a list that satisfies [P] sits where it was put. *)
Lemma nth_error_only {A} (P : A -> bool) pre x post k e :
  forallb (fun a => negb (P a)) pre = true ->
  forallb (fun a => negb (P a)) post = true ->
  nth_error (pre ++ x :: post) k = Some e ->
  P e = true ->
  k = length pre.
Proof.
  intros Hpre Hpost Hnth HP.
  destruct (Nat.lt_trichotomy k (length pre)) as [Hlt|[Heq|Hgt]];
    [exfalso|exact Heq|exfalso].
  - rewrite nth_error_app1 in Hnth by exact Hlt.
    apply nth_error_In in Hnth.
    rewrite forallb_forall in Hpre. specialize (Hpre e Hnth).
    rewrite HP in Hpre. discriminate.
  - rewrite nth_error_app2 in Hnth by lia.
    destruct (k - length pre)%nat as [|j] eqn:Hk; [lia|].
    cbn [nth_error] in Hnth. apply nth_error_In in Hnth.
    rewrite forallb_forall in Hpost. specialize (Hpost e Hnth).
    rewrite HP in Hpost. discriminate.
Qed.

(** A Sync that found its record: the answer is a 200 whatever the store
    does next, and a refused status update is logged and not applied. *)
Lemma sync_update_refused env w uid inst :
  store_error env (effect w 0) = None ->
  active_of uid (whatsapp w) = [inst] ->
  exists r s',
    sync_status uid env (start w) = (Ret r, s') /\
    code r = 200 /\ success r = true /\
    forall k e,
      nth_error (events_since w (world s')) k = Some e ->
      writes_status e = true ->
      store_error env (effect w k) <> None ->
      In (Error, "Erro ao atualizar Supabase para instância "
                 ++ dec (Z.of_nat (id inst)) ++ ":") (logs (world s')) /\
      (whatsapp (world s') = whatsapp w \/
       exists q, truthy q = true /\
                 whatsapp (world s')
                 = update_rows (id inst) [F_qr_code q] (whatsapp w)).
Proof.
  intros Hs0 Ha.
  destruct (sync_status_found env w uid inst Hs0 Ha)
    as [s0 [Hw0 [Hn0 [Ht0 [He0 [Hp0 Hrun]]]]]].
  destruct (poll_loop_spec inst 5 env s0)
    as [s1 [attempts [last [Hloop [Hw1 [Hn1 [Ht1 [Hall Hend]]]]]]]].
  destruct (sync_finish_store inst env s1)
    as [r [s' [err [rest [Hfin [Hc [Hok [Ht [Hrest Hdown]]]]]]]]].
  exists r, s'.
  split; [apply (Hrun s1); assumption|].
  split; [exact Hc|]. split; [exact Hok|].
  intros k e Hnth He Herr.
  assert (Hlast : forallb (fun e => negb (writes_status e)) last = true).
  { destruct Hend as [[-> _]|[Hfinal _]]; [reflexivity|].
    eapply final_attempt_writes_nothing; exact Hfinal. }
  rewrite (events_since_app w (world s')
             ((EStore (SelectActive uid) None :: concat attempts ++ last)
              ++ EStore (Update (id inst)
                           (updateData inst (mapStatus (evolutionStatus (frame s1)))
                              (profileData (frame s1)) (now (world s1)))) err
                 :: rest)) in Hnth.
  2: { rewrite Ht, Ht1, Ht0. cbn [app]. rewrite <- !app_assoc. reflexivity. }
  apply (nth_error_only writes_status) in Hnth; [| |exact Hrest|exact He].
  2: { cbn [forallb writes_status negb andb]. rewrite forallb_app.
       rewrite (attempts_write_nothing _ _ Hall), Hlast. reflexivity. }
  assert (Htick : effect w k = tick s1).
  { unfold effect, tick. rewrite Hnth, Ht1, Ht0, !length_app. cbn [length].
    rewrite length_app. lia. }
  rewrite Htick in Herr.
  destruct (Hdown Herr) as [Hlog Hrows].
  split; [exact Hlog|]. rewrite Hw1, Hw0 in Hrows. exact Hrows.
Qed.

(** C9, as the code has it.  A failing store turns into a 500 where
    Setup checks the query and throws: the lookup of the active record and
    the insert.  A failed first lookup is answered 404 by Setup (the
    user), Sync, Disconnect and Delete.  A refused update never fails the
    request: Sync logs it and answers 200 whatever the store does after
    the lookup, and the resynchronisation of Setup, Disconnect and Delete
    do not look at the result of their update and answer 200.  The refused
    update is not applied; in Sync the later write of the pairing code is
    a query of its own. *)
Theorem store_failure_responses env w uid m :
  (forall usuario tel,
      uid <> "" ->
      store_error env (effect w 0) = None ->
      filter (fun u => String.eqb (u_id u) uid) (usuarios w) = [usuario] ->
      telefone usuario = Some tel ->
      tel <> "" ->
      store_error env (effect w 1) = Some m ->
      exists r s',
        setup uid env (start w) = (Ret r, s') /\
        code r = 500 /\ success r = false /\
        body r = BError "Erro ao configurar WhatsApp" (JStr m) /\
        whatsapp (world s') = whatsapp w) /\
  (forall usuario tel d,
      uid <> "" ->
      store_error env (effect w 0) = None ->
      filter (fun u => String.eqb (u_id u) uid) (usuarios w) = [usuario] ->
      telefone usuario = Some tel ->
      tel <> "" ->
      store_error env (effect w 1) = None ->
      active_of uid (whatsapp w) = [] ->
      remote env (effect w 2) (Create (new_name env tel)) = Resolved d ->
      store_error env (effect w 3) = Some m ->
      exists r s',
        setup uid env (start w) = (Ret r, s') /\
        code r = 500 /\ success r = false /\
        body r = BError "Erro ao configurar WhatsApp"
                   (JStr ("Erro ao salvar no banco: " ++ m)) /\
        whatsapp (world s') = whatsapp w) /\
  (store_error env (effect w 0) = Some m ->
   (uid <> "" ->
    exists r s',
      setup uid env (start w) = (Ret r, s') /\
      code r = 404 /\ success r = false /\
      whatsapp (world s') = whatsapp w) /\
   (exists r s',
      sync_status uid env (start w) = (Ret r, s') /\
      code r = 404 /\ success r = false /\
      whatsapp (world s') = whatsapp w) /\
   (exists r s',
      disconnect uid env (start w) = (Ret r, s') /\
      code r = 404 /\ success r = false /\
      whatsapp (world s') = whatsapp w) /\
   (exists r s',
      delete uid env (start w) = (Ret r, s') /\
      code r = 404 /\ success r = false /\
      whatsapp (world s') = whatsapp w)) /\
  (forall inst,
      store_error env (effect w 0) = None ->
      active_of uid (whatsapp w) = [inst] ->
      exists r s',
        sync_status uid env (start w) = (Ret r, s') /\
        code r = 200 /\ success r = true /\
        forall k e,
          nth_error (events_since w (world s')) k = Some e ->
          writes_status e = true ->
          store_error env (effect w k) <> None ->
          In (Error, "Erro ao atualizar Supabase para instância "
                     ++ dec (Z.of_nat (id inst)) ++ ":") (logs (world s')) /\
          (whatsapp (world s') = whatsapp w \/
           exists q, truthy q = true /\
                     whatsapp (world s')
                     = update_rows (id inst) [F_qr_code q] (whatsapp w))) /\
  (forall usuario tel inst d,
      uid <> "" ->
      store_error env (effect w 0) = None ->
      filter (fun u => String.eqb (u_id u) uid) (usuarios w) = [usuario] ->
      telefone usuario = Some tel ->
      tel <> "" ->
      store_error env (effect w 1) = None ->
      active_of uid (whatsapp w) = [inst] ->
      remote env (effect w 2) (ConnectionState (nome_instancia inst))
      = Resolved d ->
      store_error env (effect w 3) = Some m ->
      exists r s',
        setup uid env (start w) = (Ret r, s') /\
        code r = 200 /\ success r = true /\
        whatsapp (world s') = whatsapp w) /\
  (forall inst d,
      store_error env (effect w 0) = None ->
      active_of uid (whatsapp w) = [inst] ->
      remote env (effect w 1) (Logout (nome_instancia inst)) = Resolved d ->
      store_error env (effect w 2) = Some m ->
      exists r s',
        disconnect uid env (start w) = (Ret r, s') /\
        code r = 200 /\ success r = true /\
        whatsapp (world s') = whatsapp w) /\
  (forall inst,
      store_error env (effect w 0) = None ->
      active_of uid (whatsapp w) = [inst] ->
      store_error env (effect w 2) = Some m ->
      exists r s',
        delete uid env (start w) = (Ret r, s') /\
        code r = 200 /\ success r = true /\
        whatsapp (world s') = whatsapp w).
Proof.
  split; [|split; [|split; [|split; [|split; [|split]]]]].
  - intros usuario tel Hu Hs0 Husr Htel Htne Hs1.
    apply String.eqb_neq in Hu. apply String.eqb_neq in Htne.
    unfold setup. rewrite Hu.
    unfold try_catch, bind, select_usuario, select_active.
    rewrite query_up by at_tick Hs0.
    projections. rewrite Husr. pure_steps. rewrite Htel, Htne.
    rewrite (query_down _ _ _ _ m) by at_tick Hs1.
    pure_steps.
    eexists; eexists. split; [reflexivity|]. repeat split.
  - intros usuario tel d Hu Hs0 Husr Htel Htne Hs1 Hact Hcreate Hs3.
    apply String.eqb_neq in Hu. apply String.eqb_neq in Htne.
    unfold new_name in Hcreate.
    unfold setup. rewrite Hu.
    unfold try_catch, bind, select_usuario, select_active.
    rewrite query_up by at_tick Hs0.
    projections. rewrite Husr. pure_steps. rewrite Htel, Htne.
    rewrite query_up by at_tick Hs1.
    projections. rewrite Hact. pure_steps.
    unfold setup_create, bind, try_catch, insert.
    pure_steps.
    rewrite (axios_resolved _ _ _ d) by at_tick Hcreate.
    pure_steps.
    rewrite (query_down _ _ _ _ m) by at_tick Hs3.
    pure_steps.
    eexists; eexists. split; [reflexivity|]. repeat split.
  - intros Hs0. split; [|split; [|split]].
    + intros Hu. apply String.eqb_neq in Hu.
      unfold setup. rewrite Hu.
      unfold try_catch, bind, select_usuario.
      rewrite (query_down _ _ _ _ m) by at_tick Hs0.
      pure_steps.
      eexists; eexists. split; [reflexivity|]. repeat split.
    + unfold sync_status, try_catch, bind, select_active.
      rewrite (query_down _ _ _ _ m) by at_tick Hs0.
      pure_steps.
      eexists; eexists. split; [reflexivity|]. repeat split.
    + unfold disconnect, try_catch, bind, select_active.
      rewrite (query_down _ _ _ _ m) by at_tick Hs0.
      pure_steps.
      eexists; eexists. split; [reflexivity|]. repeat split.
    + unfold delete, try_catch, bind, select_active.
      rewrite (query_down _ _ _ _ m) by at_tick Hs0.
      pure_steps.
      eexists; eexists. split; [reflexivity|]. repeat split.
  - intros inst Hs0 Ha. apply sync_update_refused; assumption.
  - intros usuario tel inst d Hu Hs0 Husr Htel Htne Hs1 Hact Hpoll Hs3.
    apply String.eqb_neq in Hu. apply String.eqb_neq in Htne.
    unfold setup. rewrite Hu.
    unfold try_catch, bind, select_usuario, select_active.
    rewrite query_up by at_tick Hs0.
    projections. rewrite Husr. pure_steps. rewrite Htel, Htne.
    rewrite query_up by at_tick Hs1.
    projections. rewrite Hact. pure_steps.
    unfold setup_existing, try_catch, bind, update.
    pure_steps.
    rewrite (axios_resolved _ _ _ d) by at_tick Hpoll.
    pure_steps.
    rewrite (query_down _ _ _ _ m) by at_tick Hs3.
    pure_steps.
    cbn [frame with_frame set_existingInstance existingInstance].
    unfold axios.
    destruct (String.eqb (mapStatus (evolutionStatus_of d)) "disconnected");
      pure_steps;
      [match goal with
       | |- context [remote ?v ?t ?c] => destruct (remote v t c) as [q|e]
       end; pure_steps|];
      cbn [frame with_frame set_existingInstance existingInstance];
      eexists; eexists; (split; [reflexivity|]); repeat split.
  - intros inst d Hs0 Ha Hr Hs2.
    unfold disconnect, try_catch, bind, select_active, update.
    rewrite query_up by at_tick Hs0.
    projections. rewrite Ha. pure_steps.
    rewrite (axios_resolved _ _ _ d) by at_tick Hr.
    pure_steps.
    rewrite (query_down _ _ _ _ m) by at_tick Hs2.
    pure_steps.
    eexists; eexists. split; [reflexivity|]. repeat split.
  - intros inst Hs0 Ha Hs2.
    unfold delete, try_catch, bind, select_active, update.
    rewrite query_up by at_tick Hs0.
    projections. rewrite Ha. pure_steps.
    unfold axios.
    match goal with
    | |- context [remote ?v ?t ?c] => destruct (remote v t c) as [d|e]
    end; pure_steps;
      [|destruct (status_is_not _ _); pure_steps].
    all: rewrite (query_down _ _ _ _ m) by at_tick Hs2.
    all: pure_steps; eexists; eexists; (split; [reflexivity|]).
    all: projections; repeat split.
Qed.

(** C9 at work: a store that fails Setup's lookup of the active record,
    one that fails its insert, one that fails the first lookup of Sync
    and of Delete, and one that refuses only the update of a Sync, of a
    Disconnect and of a Delete. *)
Lemma store_failure_responses_witness :
  (exists r s',
      setup "u1" (Scenario.store_down_from 1 "close") (start Scenario.blank)
      = (Ret r, s') /\
      code r = 500 /\ success r = false /\
      body r = BError "Erro ao configurar WhatsApp" (JStr "connection refused") /\
      whatsapp (world s') = []) /\
  (exists r s',
      setup "u1" (Scenario.store_down_from 3 "close") (start Scenario.blank)
      = (Ret r, s') /\
      code r = 500 /\ success r = false /\
      body r = BError "Erro ao configurar WhatsApp"
                 (JStr "Erro ao salvar no banco: connection refused") /\
      whatsapp (world s') = []) /\
  (exists r s',
      sync_status "u1" (Scenario.store_down_from 0 "close")
        (start Scenario.mirrored) = (Ret r, s') /\
      code r = 404 /\ success r = false /\
      whatsapp (world s') = [Scenario.ana]) /\
  (exists r s',
      delete "u1" (Scenario.store_down_from 0 "close")
        (start Scenario.mirrored) = (Ret r, s') /\
      code r = 404 /\ success r = false /\
      whatsapp (world s') = [Scenario.ana]) /\
  (exists r s',
      sync_status "u1" (Outage.store_refusing_at 11 "close")
        (start Scenario.mirrored) = (Ret r, s') /\
      code r = 200 /\ success r = true /\
      In (Error, "Erro ao atualizar Supabase para instância 7:")
        (logs (world s')) /\
      (whatsapp (world s') = [Scenario.ana] \/
       exists q, truthy q = true /\
                 whatsapp (world s')
                 = update_rows 7 [F_qr_code q] [Scenario.ana])) /\
  (exists r s',
      disconnect "u1" (Outage.store_refusing_at 2 "open")
        (start Scenario.mirrored) = (Ret r, s') /\
      code r = 200 /\ success r = true /\
      whatsapp (world s') = [Scenario.ana]) /\
  (exists r s',
      delete "u1" (Outage.store_refusing_at 2 "open")
        (start Scenario.mirrored) = (Ret r, s') /\
      code r = 200 /\ success r = true /\
      whatsapp (world s') = [Scenario.ana]).
Proof.
  split; [|split; [|split; [|split; [|split; [|split]]]]].
  - apply (proj1 (store_failure_responses
                    (Scenario.store_down_from 1 "close") Scenario.blank
                    "u1" "connection refused")
             Scenario.u1 "5511999990000");
      (reflexivity || discriminate).
  - apply (proj1 (proj2 (store_failure_responses
                           (Scenario.store_down_from 3 "close") Scenario.blank
                           "u1" "connection refused"))
             Scenario.u1 "5511999990000" JNull);
      (reflexivity || discriminate).
  - apply (proj1 (proj2 (proj1 (proj2 (proj2 (store_failure_responses
                                  (Scenario.store_down_from 0 "close")
                                  Scenario.mirrored
                                  "u1" "connection refused"))) eq_refl))).
  - apply (proj2 (proj2 (proj2 (proj1 (proj2 (proj2 (store_failure_responses
                                  (Scenario.store_down_from 0 "close")
                                  Scenario.mirrored
                                  "u1" "connection refused"))) eq_refl)))).
  - destruct (proj1 (proj2 (proj2 (proj2 (store_failure_responses
                                  (Outage.store_refusing_at 11 "close")
                                  Scenario.mirrored
                                  "u1" "connection refused"))))
                Scenario.ana eq_refl eq_refl)
      as [r [s' [Hrun [Hc [Hok Hall]]]]].
    exists r, s'. split; [exact Hrun|]. split; [exact Hc|]. split; [exact Hok|].
    vm_compute in Hrun. injection Hrun as _ <-.
    apply (Hall 11%nat
             (EStore (Update 7 (updateData Scenario.ana "disconnected" JNull 10100))
                (Some "connection refused")));
      [reflexivity|reflexivity|discriminate].
  - apply (proj1 (proj2 (proj2 (proj2 (proj2 (proj2 (store_failure_responses
                                  (Outage.store_refusing_at 2 "open")
                                  Scenario.mirrored
                                  "u1" "connection refused"))))))
             Scenario.ana JNull); reflexivity.
  - apply (proj2 (proj2 (proj2 (proj2 (proj2 (proj2 (store_failure_responses
                                  (Outage.store_refusing_at 2 "open")
                                  Scenario.mirrored
                                  "u1" "connection refused"))))))
             Scenario.ana); reflexivity.
Defined.

(** C9 as stated fails: a store that refuses the update answers no 500.
    A Sync whose status update is refused answers a 200 success, the
    status left as it was and the fetched pairing code written by the
    later query; a Disconnect and a Delete whose update is refused answer
    a 200 success with the record untouched. *)
Lemma sync_store_failure_answers_success :
  (exists r s' p,
      sync_status "u1" (Outage.store_refusing_at 11 "close")
        (start Scenario.mirrored) = (Ret r, s') /\
      nth_error (trace (world s')) 11
      = Some (EStore (Update 7 p) (Some "connection refused")) /\
      writes_status (EStore (Update 7 p) (Some "connection refused")) = true /\
      code r = 200 /\ success r = true /\
      map status (whatsapp (world s')) = ["connected"] /\
      map qr_code (whatsapp (world s')) = [JStr "ABC123"]) /\
  (exists r s' p,
      disconnect "u1" (Outage.store_refusing_at 2 "open")
        (start Scenario.mirrored) = (Ret r, s') /\
      nth_error (trace (world s')) 2
      = Some (EStore (Update 7 p) (Some "connection refused")) /\
      code r = 200 /\ success r = true /\
      whatsapp (world s') = [Scenario.ana]) /\
  (exists r s' p,
      delete "u1" (Outage.store_refusing_at 2 "open")
        (start Scenario.mirrored) = (Ret r, s') /\
      nth_error (trace (world s')) 2
      = Some (EStore (Update 7 p) (Some "connection refused")) /\
      code r = 200 /\ success r = true /\
      whatsapp (world s') = [Scenario.ana]).
Proof.
  split; [|split].
  all: eexists; eexists; eexists; (split; [vm_compute; reflexivity|]).
  all: repeat split.
Qed.

(* ===================================================================== *)
(** ** The webhook *)
(* ===================================================================== *)

Lemma recorded_update rows i p (P : Row -> Prop) inst :
  In inst rows -> id inst = i ->
  (forall r, P (apply_patch p r)) ->
  recorded (update_rows i p rows) i P.
Proof.
  intros Hin Hid HP. split.
  - exists (apply_patch p inst). split.
    + unfold update_rows. apply in_map_iff. exists inst.
      rewrite Hid, Nat.eqb_refl. auto.
    + rewrite apply_patch_id. exact Hid.
  - intros r Hr Hri. unfold update_rows in Hr. apply in_map_iff in Hr.
    destruct Hr as [r0 [Hr0 _]]. subst r.
    destruct (Nat.eqb (id r0) i) eqn:E.
    + apply HP.
    + apply Nat.eqb_neq in E. contradiction.
Qed.

Lemma named_In name rows inst : named name rows = [inst] -> In inst rows.
Proof.
  intros H. assert (Hin : In inst (named name rows)) by (rewrite H; left; reflexivity).
  unfold named in Hin. apply filter_In in Hin. tauto.
Qed.

Lemma update_rows_length i p rows : length (update_rows i p rows) = length rows.
Proof. unfold update_rows. apply length_map. Qed.

(** A filter that a patch cannot change commutes with an UPDATE. *)
Lemma filter_update_rows (f : Row -> bool) i p rows :
  (forall r, f (apply_patch p r) = f r) ->
  filter f (update_rows i p rows)
  = map (fun r => if Nat.eqb (id r) i then apply_patch p r else r) (filter f rows).
Proof.
  intros Hf. unfold update_rows. induction rows as [|r rows IH]; [reflexivity|].
  cbn [map filter].
  assert (E : f (if Nat.eqb (id r) i then apply_patch p r else r) = f r).
  { destruct (Nat.eqb (id r) i); [apply Hf|reflexivity]. }
  rewrite E. destruct (f r); cbn [map]; rewrite IH; reflexivity.
Qed.

Lemma set_field_name r f : nome_instancia (set_field r f) = nome_instancia r.
Proof. destruct f; reflexivity. Qed.

Lemma apply_patch_name p : forall r, nome_instancia (apply_patch p r) = nome_instancia r.
Proof.
  unfold apply_patch. induction p as [|f p IH]; intros r; simpl.
  - reflexivity.
  - rewrite IH. apply set_field_name.
Qed.

Lemma named_update_rows name i p rows inst :
  named name rows = [inst] -> id inst = i ->
  named name (update_rows i p rows) = [apply_patch p inst].
Proof.
  intros H Hid. unfold named in *. rewrite filter_update_rows.
  - rewrite H. cbn [map]. rewrite Hid, Nat.eqb_refl. reflexivity.
  - intros r. rewrite apply_patch_name. reflexivity.
Qed.

(** X1.  A webhook whose instance name does not resolve to exactly one
    row -- no row, several rows, or a failing store -- is answered 404
    after the one lookup; the table is left as it was. *)
Theorem webhook_unresolved_instance env rows t event instance payload :
  Index.db_error env 0 <> None \/ length (named instance rows) <> 1%nat ->
  exists r s' err,
    Index.webhook event instance payload env (Index.start rows t) = (Ret r, s') /\
    code r = 404 /\ success r = false /\
    body r = BError "Instância não encontrada" JUndefined /\
    Index.journal s' = [Index.FindByName instance err] /\
    Index.table s' = rows.
Proof.
  intros H.
  unfold Index.webhook, Index.try_catch, Index.bind, Index.find_by_name.
  index_steps.
  destruct (Index.db_error env 0) as [m|] eqn:Hdb.
  - index_steps. eexists; eexists; eexists. split; [reflexivity|].
    repeat split.
  - destruct H as [H|H]; [congruence|].
    unfold named in H.
    destruct (filter _ rows) as [|r0 [|r1 more]] eqn:Hf.
    + index_steps. eexists; eexists; eexists. split; [reflexivity|]. repeat split.
    + exfalso. apply H. reflexivity.
    + index_steps. eexists; eexists; eexists. split; [reflexivity|]. repeat split.
Qed.

(** X1 on a table of one row, for a name no row carries. *)
Lemma webhook_unresolved_instance_witness :
  exists r s' err,
    Index.webhook (JStr "connection.update") "nobody"
      (JObj [("state", JStr "open")])
      {| Index.db_error := fun _ => None;
         Index.n8n := fun _ _ _ => Index.Answered 200 JNull;
         Index.development := false |}
      (Index.start [Scenario.ana] 100) = (Ret r, s') /\
    code r = 404 /\ success r = false /\
    body r = BError "Instância não encontrada" JUndefined /\
    Index.journal s' = [Index.FindByName "nobody" err] /\
    Index.table s' = [Scenario.ana].
Proof.
  apply webhook_unresolved_instance. right. cbn. discriminate.
Defined.

(** X2.  A webhook for a known instance and an event other than
    [connection.update] and [qrcode.updated] is acknowledged with a 200
    and writes nothing. *)
Theorem webhook_unhandled_event env rows t event instance payload inst :
  Index.db_error env 0 = None ->
  named instance rows = [inst] ->
  is_str event "connection.update" = false ->
  is_str event "qrcode.updated" = false ->
  exists r s',
    Index.webhook event instance payload env (Index.start rows t) = (Ret r, s') /\
    code r = 200 /\ body r = BDone "Evento não tratado" /\
    Index.journal s' = [Index.FindByName instance None] /\
    Index.table s' = rows.
Proof.
  intros Hdb Hname He1 He2. unfold named in Hname.
  unfold Index.webhook, Index.try_catch, Index.bind, Index.find_by_name.
  index_steps. rewrite Hdb, Hname. index_steps. rewrite He1, He2.
  index_steps. eexists; eexists. split; [reflexivity|]. repeat split.
Qed.

(** X2 on the record of [u1], for a [messages.upsert]. *)
Lemma webhook_unhandled_event_witness :
  exists r s',
    Index.webhook (JStr "messages.upsert") "5511999990000_1234" JUndefined
      {| Index.db_error := fun _ => None;
         Index.n8n := fun _ _ _ => Index.Answered 200 JNull;
         Index.development := false |}
      (Index.start [Scenario.ana] 100) = (Ret r, s') /\
    code r = 200 /\ body r = BDone "Evento não tratado" /\
    Index.journal s' = [Index.FindByName "5511999990000_1234" None] /\
    Index.table s' = [Scenario.ana].
Proof.
  apply (webhook_unhandled_event _ _ _ _ _ _ Scenario.ana); reflexivity.
Defined.

(** A [connection.update] that has something to write, run to its end. *)
Lemma webhook_connection_update_run env rows t instance payload inst :
  Index.db_error env 0 = None ->
  named instance rows = [inst] ->
  defined payload = true ->
  status inst <> mapStatus (opt payload "state") ->
  Index.db_error env 1 = None ->
  exists r s',
    Index.webhook (JStr "connection.update") instance payload env
      (Index.start rows t) = (Ret r, s') /\
    code r = 200 /\ success r = true /\
    Index.table s'
    = update_rows (id inst)
        (if String.eqb (mapStatus (opt payload "state")) "connected"
         then [F_status "connected"; F_atualizado_em t;
               F_last_connection_at (Some t); F_connection_attempts 0]
         else [F_status (mapStatus (opt payload "state")); F_atualizado_em t])
        rows /\
    recorded (Index.table s') (id inst)
      (fun x => status x = mapStatus (opt payload "state") /\
                (mapStatus (opt payload "state") = "connected" ->
                 connection_attempts x = Some 0 /\
                 last_connection_at x = Some t)).
Proof.
  intros Hdb Hname Hdef Hneq Hw.
  assert (Hin : In inst rows) by (eapply named_In; eassumption).
  unfold named in Hname.
  unfold Index.webhook, Index.try_catch, Index.bind, Index.find_by_name.
  index_steps. rewrite Hdb, Hname. index_steps.
  cbn [is_str String.eqb Ascii.eqb Bool.eqb].
  assert (Hmem : Index.member payload "state" = Index.ret (opt payload "state")).
  { destruct payload; try discriminate Hdef; reflexivity. }
  rewrite Hmem. index_steps.
  unfold Index.connection_update, str_neq.
  apply String.eqb_neq in Hneq. rewrite Hneq. cbn [negb].
  destruct (String.eqb (mapStatus (opt payload "state")) "connected") eqn:Hc.
  - apply String.eqb_eq in Hc. rewrite Hc in *.
    cbn [app]. unfold Index.persist, Index.bind, Index.write. index_steps.
    rewrite Hw. index_steps.
    eexists; eexists. split; [reflexivity|].
    split; [reflexivity|]. split; [reflexivity|]. split; [reflexivity|].
    cbn [Index.table].
    apply recorded_update with (inst := inst); [exact Hin|reflexivity|].
    intros x. repeat split.
  - cbn [app]. unfold Index.persist, Index.bind, Index.write. index_steps.
    rewrite Hw. index_steps.
    eexists; eexists. split; [reflexivity|].
    split; [reflexivity|]. split; [reflexivity|]. split; [reflexivity|].
    cbn [Index.table].
    apply recorded_update with (inst := inst); [exact Hin|reflexivity|].
    intros x. split; [reflexivity|]. intros Habs.
    apply String.eqb_neq in Hc. contradiction.
Qed.

(** X3.  A [connection.update] for a known instance whose mapped state
    differs from the stored status writes the new status; when the new
    status is [connected] it also stamps [last_connection_at] and resets
    [connection_attempts] to 0, otherwise it writes nothing but the status
    and [atualizado_em].  The lookup does not look at [is_active]. *)
Theorem webhook_connection_update env rows t instance payload inst :
  Index.db_error env 0 = None ->
  named instance rows = [inst] ->
  defined payload = true ->
  status inst <> mapStatus (opt payload "state") ->
  Index.db_error env 1 = None ->
  exists r s',
    Index.webhook (JStr "connection.update") instance payload env
      (Index.start rows t) = (Ret r, s') /\
    code r = 200 /\ success r = true /\
    Index.table s'
    = update_rows (id inst)
        (if String.eqb (mapStatus (opt payload "state")) "connected"
         then [F_status "connected"; F_atualizado_em t;
               F_last_connection_at (Some t); F_connection_attempts 0]
         else [F_status (mapStatus (opt payload "state")); F_atualizado_em t])
        rows /\
    recorded (Index.table s') (id inst)
      (fun x => status x = mapStatus (opt payload "state") /\
                (mapStatus (opt payload "state") = "connected" ->
                 connection_attempts x = Some 0 /\
                 last_connection_at x = Some t)).
Proof. apply webhook_connection_update_run. Qed.

(** X3 on the record of [u1], soft-deleted and [disconnected], for a
    pushed [open] at instant 100. *)
Lemma webhook_connection_update_witness :
  exists r s',
    Index.webhook (JStr "connection.update") "5511999990000_1234"
      (JObj [("state", JStr "open")]) IndexScenario.working
      (Index.start [IndexScenario.deleted] 100) = (Ret r, s') /\
    code r = 200 /\ success r = true /\
    Index.table s'
    = update_rows 7
        [F_status "connected"; F_atualizado_em 100;
         F_last_connection_at (Some 100); F_connection_attempts 0]
        [IndexScenario.deleted] /\
    recorded (Index.table s') 7
      (fun x => status x = "connected" /\
                ("connected" = "connected" ->
                 connection_attempts x = Some 0 /\
                 last_connection_at x = Some 100)).
Proof.
  apply (webhook_connection_update IndexScenario.working
           [IndexScenario.deleted] 100 "5511999990000_1234"
           (JObj [("state", JStr "open")]) IndexScenario.deleted);
    (reflexivity || discriminate).
Defined.

(** X4.  After a [connection.update] whose write the store took (or
    that had nothing to write), delivering the same event again writes
    nothing: the second request ends after its lookup, with a 200, and the
    table is what the first delivery left. *)
Theorem webhook_redelivery env env' rows t t' instance payload inst r s' :
  Index.db_error env 0 = None ->
  named instance rows = [inst] ->
  defined payload = true ->
  (status inst <> mapStatus (opt payload "state") -> Index.db_error env 1 = None) ->
  Index.webhook (JStr "connection.update") instance payload env
    (Index.start rows t) = (Ret r, s') ->
  Index.db_error env' 0 = None ->
  exists r2 s2,
    Index.webhook (JStr "connection.update") instance payload env'
      (Index.start (Index.table s') t') = (Ret r2, s2) /\
    code r2 = 200 /\
    Index.journal s2 = [Index.FindByName instance None] /\
    Index.table s2 = Index.table s'.
Proof.
  intros Hdb Hname Hdef Hw Hrun Hdb'.
  assert (Hmem : Index.member payload "state" = Index.ret (opt payload "state")).
  { destruct payload; try discriminate Hdef; reflexivity. }
  assert (Hsecond : forall inst',
             named instance (Index.table s') = [inst'] ->
             status inst' = mapStatus (opt payload "state") ->
             exists r2 s2,
               Index.webhook (JStr "connection.update") instance payload env'
                 (Index.start (Index.table s') t') = (Ret r2, s2) /\
               code r2 = 200 /\
               Index.journal s2 = [Index.FindByName instance None] /\
               Index.table s2 = Index.table s').
  { intros inst' Hn' Hst'. unfold named in Hn'.
    unfold Index.webhook, Index.try_catch, Index.bind, Index.find_by_name.
    index_steps. rewrite Hdb', Hn'. index_steps.
    cbn [is_str String.eqb Ascii.eqb Bool.eqb].
    rewrite Hmem. index_steps.
    unfold Index.connection_update, str_neq. rewrite Hst', String.eqb_refl.
    cbn [negb Index.persist]. index_steps.
    eexists; eexists. split; [reflexivity|]. repeat split. }
  pose proof Hname as Hname'. unfold named in Hname'.
  unfold Index.webhook, Index.try_catch, Index.bind, Index.find_by_name in Hrun.
  cbn [Index.logger Index.start Index.table Index.clock Index.journal
       Index.logbook length] in Hrun.
  rewrite Hdb, Hname' in Hrun.
  cbn [single error data found Index.note Index.table Index.clock
       Index.journal Index.logbook is_str String.eqb Ascii.eqb Bool.eqb] in Hrun.
  rewrite Hmem in Hrun.
  cbn [Index.ret Index.new_Date Index.clock] in Hrun.
  unfold Index.connection_update, str_neq in Hrun.
  destruct (String.eqb (status inst) (mapStatus (opt payload "state"))) eqn:Hst.
  - cbn [negb Index.persist Index.reply Index.ret] in Hrun.
    injection Hrun as <- <-.
    apply (Hsecond inst); [exact Hname|]. apply String.eqb_eq. exact Hst.
  - cbn [negb] in Hrun. apply String.eqb_neq in Hst. specialize (Hw Hst).
    destruct (String.eqb (mapStatus (opt payload "state")) "connected") eqn:Hc;
      cbn [app] in Hrun;
      unfold Index.persist, Index.bind, Index.write in Hrun;
      cbn [Index.journal Index.note length app] in Hrun;
      rewrite Hw in Hrun;
      cbn [error Index.logger Index.reply Index.ret] in Hrun;
      injection Hrun as <- <-;
      (eapply Hsecond;
       [ apply named_update_rows; [exact Hname|reflexivity]
       | try (apply String.eqb_eq in Hc; rewrite Hc); reflexivity ]).
Qed.

(** X4 on the disconnected record of [u1]: a pushed [open], twice. *)
Lemma webhook_redelivery_witness :
  exists r s',
    Index.webhook (JStr "connection.update") "5511999990000_1234"
      (JObj [("state", JStr "open")]) IndexScenario.working
      (Index.start [IndexScenario.offline] 100) = (Ret r, s') /\
    exists r2 s2,
      Index.webhook (JStr "connection.update") "5511999990000_1234"
        (JObj [("state", JStr "open")]) IndexScenario.working
        (Index.start (Index.table s') 200) = (Ret r2, s2) /\
      code r2 = 200 /\
      Index.journal s2 = [Index.FindByName "5511999990000_1234" None] /\
      Index.table s2 = Index.table s'.
Proof.
  eexists; eexists. split; [vm_compute; reflexivity|].
  eapply (webhook_redelivery IndexScenario.working IndexScenario.working
            [IndexScenario.offline] 100 200 "5511999990000_1234"
            (JObj [("state", JStr "open")]) IndexScenario.offline);
    reflexivity.
Defined.

(** X5.  A [connection.update] or [qrcode.updated] for a known instance
    whose body carries no [data] (absent or null) ends in a 500 whose
    [error] is the message of the [TypeError] thrown by the read of
    [data.state] or [data.qrcode]; nothing is written. *)
Theorem webhook_missing_data env rows t event instance payload inst :
  Index.db_error env 0 = None ->
  named instance rows = [inst] ->
  event = JStr "connection.update" \/ event = JStr "qrcode.updated" ->
  defined payload = false ->
  exists r s',
    Index.webhook event instance payload env (Index.start rows t) = (Ret r, s') /\
    code r = 500 /\ success r = false /\
    body r
    = BError ("Cannot read properties of " ++ template payload ++ " (reading '"
              ++ (if is_str event "connection.update" then "state" else "qrcode")
              ++ "')") JUndefined /\
    Index.journal s' = [Index.FindByName instance None] /\
    Index.table s' = rows.
Proof.
  intros Hdb Hname Hev Hdef. unfold named in Hname.
  unfold Index.webhook, Index.try_catch, Index.bind, Index.find_by_name.
  index_steps. rewrite Hdb, Hname. index_steps.
  destruct Hev as [-> | ->]; cbn [is_str String.eqb Ascii.eqb Bool.eqb];
    destruct payload; try discriminate Hdef;
    cbn [Index.member]; index_steps;
    eexists; eexists; (split; [reflexivity|]); repeat split.
Qed.

(** X5 on the record of [u1], for a [connection.update] without [data]
    and a [qrcode.updated] whose [data] is null. *)
Lemma webhook_missing_data_witness :
  (exists r s',
      Index.webhook (JStr "connection.update") "5511999990000_1234" JUndefined
        IndexScenario.working (Index.start [Scenario.ana] 100) = (Ret r, s') /\
      code r = 500 /\ success r = false /\
      body r
      = BError "Cannot read properties of undefined (reading 'state')"
          JUndefined /\
      Index.journal s' = [Index.FindByName "5511999990000_1234" None] /\
      Index.table s' = [Scenario.ana]) /\
  (exists r s',
      Index.webhook (JStr "qrcode.updated") "5511999990000_1234" JNull
        IndexScenario.working (Index.start [Scenario.ana] 100) = (Ret r, s') /\
      code r = 500 /\ success r = false /\
      body r
      = BError "Cannot read properties of null (reading 'qrcode')"
          JUndefined /\
      Index.journal s' = [Index.FindByName "5511999990000_1234" None] /\
      Index.table s' = [Scenario.ana]).
Proof.
  split.
  - apply (webhook_missing_data IndexScenario.working [Scenario.ana] 100
             (JStr "connection.update") "5511999990000_1234" JUndefined
             Scenario.ana); try reflexivity.
    left. reflexivity.
  - apply (webhook_missing_data IndexScenario.working [Scenario.ana] 100
             (JStr "qrcode.updated") "5511999990000_1234" JNull
             Scenario.ana); try reflexivity.
    right. reflexivity.
Defined.

(** X6.  A [qrcode.updated] for a known instance stores a truthy
    [data.qrcode] verbatim in [qr_code]; a falsy or absent one is
    acknowledged with a 200 and nothing is written. *)
Theorem webhook_qrcode_updated env rows t instance payload inst :
  Index.db_error env 0 = None ->
  named instance rows = [inst] ->
  defined payload = true ->
  (truthy (opt payload "qrcode") = true ->
   Index.db_error env 1 = None ->
   exists r s',
     Index.webhook (JStr "qrcode.updated") instance payload env
       (Index.start rows t) = (Ret r, s') /\
     code r = 200 /\ success r = true /\
     Index.table s'
     = update_rows (id inst)
         [F_qr_code (opt payload "qrcode"); F_atualizado_em t] rows /\
     recorded (Index.table s') (id inst)
       (fun x => qr_code x = opt payload "qrcode")) /\
  (truthy (opt payload "qrcode") = false ->
   exists r s',
     Index.webhook (JStr "qrcode.updated") instance payload env
       (Index.start rows t) = (Ret r, s') /\
     code r = 200 /\ success r = true /\
     Index.journal s' = [Index.FindByName instance None] /\
     Index.table s' = rows).
Proof.
  intros Hdb Hname Hdef.
  assert (Hin : In inst rows) by (eapply named_In; eassumption).
  unfold named in Hname.
  assert (Hmem : Index.member payload "qrcode" = Index.ret (opt payload "qrcode")).
  { destruct payload; try discriminate Hdef; reflexivity. }
  split.
  - intros Hq Hw.
    unfold Index.webhook, Index.try_catch, Index.bind, Index.find_by_name.
    index_steps. rewrite Hdb, Hname. index_steps.
    cbn [is_str String.eqb Ascii.eqb Bool.eqb].
    rewrite Hmem. index_steps.
    unfold Index.qrcode_updated. rewrite Hq.
    unfold Index.persist, Index.bind, Index.write. index_steps.
    rewrite Hw. index_steps.
    eexists; eexists. split; [reflexivity|].
    split; [reflexivity|]. split; [reflexivity|]. split; [reflexivity|].
    cbn [Index.table].
    apply recorded_update with (inst := inst); [exact Hin|reflexivity|].
    intros x. reflexivity.
  - intros Hq.
    unfold Index.webhook, Index.try_catch, Index.bind, Index.find_by_name.
    index_steps. rewrite Hdb, Hname. index_steps.
    cbn [is_str String.eqb Ascii.eqb Bool.eqb].
    rewrite Hmem. index_steps.
    unfold Index.qrcode_updated. rewrite Hq.
    cbn [Index.persist]. index_steps.
    eexists; eexists. split; [reflexivity|]. repeat split.
Qed.

(** X6 on the record of [u1]: a code, then the empty string. *)
Lemma webhook_qrcode_updated_witness :
  (exists r s',
      Index.webhook (JStr "qrcode.updated") "5511999990000_1234"
        (JObj [("qrcode", JStr "ABC123")]) IndexScenario.working
        (Index.start [Scenario.ana] 100) = (Ret r, s') /\
      code r = 200 /\ success r = true /\
      Index.table s'
      = update_rows 7 [F_qr_code (JStr "ABC123"); F_atualizado_em 100]
          [Scenario.ana] /\
      recorded (Index.table s') 7 (fun x => qr_code x = JStr "ABC123")) /\
  (exists r s',
      Index.webhook (JStr "qrcode.updated") "5511999990000_1234"
        (JObj [("qrcode", JStr "")]) IndexScenario.working
        (Index.start [Scenario.ana] 100) = (Ret r, s') /\
      code r = 200 /\ success r = true /\
      Index.journal s' = [Index.FindByName "5511999990000_1234" None] /\
      Index.table s' = [Scenario.ana]).
Proof.
  split.
  - apply (proj1 (webhook_qrcode_updated IndexScenario.working [Scenario.ana]
                    100 "5511999990000_1234" (JObj [("qrcode", JStr "ABC123")])
                    Scenario.ana eq_refl eq_refl eq_refl)); reflexivity.
  - apply (proj2 (webhook_qrcode_updated IndexScenario.working [Scenario.ana]
                    100 "5511999990000_1234" (JObj [("qrcode", JStr "")])
                    Scenario.ana eq_refl eq_refl eq_refl)); reflexivity.
Defined.

(** X7.  When the webhook has something to write and the store refuses
    the update, the answer is a 500 and the table is left as it was. *)
Theorem webhook_update_refused env rows t event instance payload inst m :
  Index.db_error env 0 = None ->
  named instance rows = [inst] ->
  defined payload = true ->
  (event = JStr "connection.update" /\
   status inst <> mapStatus (opt payload "state")) \/
  (event = JStr "qrcode.updated" /\ truthy (opt payload "qrcode") = true) ->
  Index.db_error env 1 = Some m ->
  exists r s',
    Index.webhook event instance payload env (Index.start rows t) = (Ret r, s') /\
    code r = 500 /\ success r = false /\
    body r = BError "Erro ao atualizar dados" JUndefined /\
    Index.table s' = rows.
Proof.
  intros Hdb Hname Hdef Hev Hw. unfold named in Hname.
  assert (Hmem : forall k, Index.member payload k = Index.ret (opt payload k)).
  { intros k. destruct payload; try discriminate Hdef; reflexivity. }
  unfold Index.webhook, Index.try_catch, Index.bind, Index.find_by_name.
  index_steps. rewrite Hdb, Hname. index_steps.
  destruct Hev as [[-> Hneq]|[-> Hq]]; cbn [is_str String.eqb Ascii.eqb Bool.eqb];
    rewrite Hmem; index_steps.
  - unfold Index.connection_update, str_neq.
    apply String.eqb_neq in Hneq. rewrite Hneq. cbn [negb app].
    unfold Index.persist, Index.bind, Index.write. index_steps.
    rewrite Hw. index_steps.
    eexists; eexists. split; [reflexivity|]. repeat split.
  - unfold Index.qrcode_updated. rewrite Hq.
    unfold Index.persist, Index.bind, Index.write. index_steps.
    rewrite Hw. index_steps.
    eexists; eexists. split; [reflexivity|]. repeat split.
Qed.

(** X7 on the record of [u1], against a store that fails the update. *)
Lemma webhook_update_refused_witness :
  exists r s',
    Index.webhook (JStr "connection.update") "5511999990000_1234"
      (JObj [("state", JStr "close")]) (IndexScenario.store_down_from 1)
      (Index.start [Scenario.ana] 100) = (Ret r, s') /\
    code r = 500 /\ success r = false /\
    body r = BError "Erro ao atualizar dados" JUndefined /\
    Index.table s' = [Scenario.ana].
Proof.
  apply (webhook_update_refused (IndexScenario.store_down_from 1)
           [Scenario.ana] 100 (JStr "connection.update")
           "5511999990000_1234" (JObj [("state", JStr "close")])
           Scenario.ana "connection refused"); try reflexivity.
  left. split; [reflexivity|discriminate].
Defined.

(* ===================================================================== *)
(** ** What no request does to a row *)
(* ===================================================================== *)

Lemma evolves_refl r : evolves r r.
Proof. unfold evolves. tauto. Qed.

Lemma evolves_trans a b c : evolves a b -> evolves b c -> evolves a c.
Proof.
  unfold evolves. intros [H1 [H2 [H3 [H4 [H5 H6]]]]] [G1 [G2 [G3 [G4 [G5 G6]]]]].
  repeat split; try congruence. auto.
Qed.

Lemma evolves_patch p : forall r, keeps_deleted p = true -> evolves r (apply_patch p r).
Proof.
  unfold apply_patch, keeps_deleted.
  induction p as [|f p IH]; intros r H; cbn [fold_left forallb] in *.
  - apply evolves_refl.
  - apply andb_true_iff in H. destruct H as [Hf Hp].
    eapply evolves_trans; [|apply IH; exact Hp].
    destruct f; try (unfold evolves; cbn; tauto).
    destruct v; [discriminate Hf|]. unfold evolves; cbn; tauto.
Qed.

Lemma Forall2_evolves_refl rows : Forall2 evolves rows rows.
Proof. induction rows; constructor; auto using evolves_refl. Qed.

Lemma Forall2_evolves_update rows rows' i p :
  keeps_deleted p = true ->
  Forall2 evolves rows rows' ->
  Forall2 evolves rows (update_rows i p rows').
Proof.
  intros Hp H. unfold update_rows. induction H as [|a b l l' Hab Hl IH].
  - constructor.
  - cbn [map]. constructor; [|exact IH].
    destruct (Nat.eqb (id b) i); [|exact Hab].
    eapply evolves_trans; [exact Hab|]. apply evolves_patch. exact Hp.
Qed.

#[local] Hint Resolve Forall2_evolves_update Forall2_evolves_refl : evolve.
#[local] Hint Extern 1 (keeps_deleted _ = true) => reflexivity : evolve.

Lemma sync_finish_evolves inst env s :
  Forall2 evolves (whatsapp (world s))
    (whatsapp (world (snd (sync_finish inst env s)))).
Proof.
  unfold sync_finish, bind, try_catch, update_returning, update, query, axios.
  pure_steps.
  cbn [frame with_frame set_mappedStatus set_qrCode mappedStatus
       qrCode profileData evolutionStatus].
  split_all.
  all: evolved.
Qed.

(** X8.  Whatever the provider and the store do, a Sync, a Disconnect or
    a Delete leaves the table row for row: no row is added or removed,
    every row keeps its [id], [user_id], [nome_instancia], [numero] and
    [tipo_integracao], and a soft-deleted row stays soft-deleted. *)
Theorem lifecycle_keeps_rows env w uid :
  Forall2 evolves (whatsapp w)
    (whatsapp (world (snd (sync_status uid env (start w))))) /\
  Forall2 evolves (whatsapp w)
    (whatsapp (world (snd (disconnect uid env (start w))))) /\
  Forall2 evolves (whatsapp w)
    (whatsapp (world (snd (delete uid env (start w))))).
Proof.
  split; [|split].
  - unfold sync_status, try_catch, bind, select_active, query.
    pure_steps. split_all; try solve [evolved].
    all: match goal with
         | |- context [poll_loop ?i 5 ?e ?s0] =>
             destruct (poll_loop_spec i 5 e s0)
               as [s1 [attempts [last [Hloop [Hw1 _]]]]];
             rewrite Hloop;
             pose proof (sync_finish_evolves i e s1) as Hfin;
             destruct (sync_finish i e s1) as [o s2];
             cbn [snd] in Hfin; rewrite Hw1 in Hfin;
             destruct o; pure_steps; evolved
         end.
  - unfold disconnect, try_catch, bind, select_active, update, query, axios.
    pure_steps. split_all; evolved.
  - unfold delete, try_catch, bind, select_active, update, query, axios.
    pure_steps. split_all; evolved.
Qed.

Lemma update_rows_app i p a b :
  update_rows i p (a ++ b) = (update_rows i p a ++ update_rows i p b)%list.
Proof. unfold update_rows. apply map_app. Qed.

Lemma setup_existing_evolves uid existing env s :
  Forall2 evolves (whatsapp (world s))
    (whatsapp (world (snd (setup_existing uid existing env s)))).
Proof.
  unfold setup_existing, try_catch, bind, update, query, axios.
  pure_steps.
  cbn [frame with_frame set_existingInstance existingInstance].
  split_all.
  all: evolved.
Qed.

Lemma setup_create_adds uid tel env s :
  exists kept added,
    whatsapp (world (snd (setup_create uid tel env s))) = (kept ++ added)%list /\
    Forall2 evolves (whatsapp (world s)) kept /\
    (added = [] \/
     exists r, added = [r] /\ id r = fresh_id (whatsapp (world s)) /\
               user_id r = uid /\ is_active r = true /\
               status r = "disconnected").
Proof.
  unfold setup_create, try_catch, bind, insert, update, query, axios.
  pure_steps.
  cbn [frame with_frame set_qrCodeBase64 qrCodeBase64].
  split_all.
  all: cbn [snd]; projections.
  all: match goal with
       | |- context [update_rows _ _ (_ ++ _)%list] =>
           rewrite update_rows_app;
           eexists; eexists; split; [reflexivity|];
           split; [evolved|];
           right; unfold update_rows at 1; cbn [map row_of_insert id];
           rewrite Nat.eqb_refl;
           eexists; split; [reflexivity|]; repeat split
       | |- context [(_ ++ [row_of_insert _ _])%list] =>
           eexists; eexists; split; [reflexivity|];
           split; [evolved|];
           right; eexists; split; [reflexivity|]; repeat split
       | _ =>
           eexists; exists []; split; [rewrite app_nil_r; reflexivity|];
           split; [evolved|left; reflexivity]
       end.
Qed.

(** X9.  Whatever the provider and the store do, a Setup keeps every
    row there was (same identity, a soft-deleted row still soft-deleted)
    and adds at most one row, which is active, [disconnected], owned by the
    user and carries a fresh [id]; it never reactivates a row. *)
Theorem setup_adds_at_most_one env w uid :
  exists kept added,
    whatsapp (world (snd (setup uid env (start w)))) = (kept ++ added)%list /\
    Forall2 evolves (whatsapp w) kept /\
    (added = [] \/
     exists r, added = [r] /\ id r = fresh_id (whatsapp w) /\
               user_id r = uid /\ is_active r = true /\
               status r = "disconnected").
Proof.
  assert (Hsame : forall s' : State,
             Forall2 evolves (whatsapp w) (whatsapp (world s')) ->
             exists kept added,
               whatsapp (world s') = (kept ++ added)%list /\
               Forall2 evolves (whatsapp w) kept /\
               (added = [] \/
                exists r, added = [r] /\ id r = fresh_id (whatsapp w) /\
                          user_id r = uid /\ is_active r = true /\
                          status r = "disconnected")).
  { intros s' H. exists (whatsapp (world s')), [].
    split; [rewrite app_nil_r; reflexivity|]. split; [exact H|left; reflexivity]. }
  unfold setup.
  destruct (String.eqb uid ""); [apply Hsame; solve [evolved]|].
  unfold try_catch, bind, select_usuario, select_active, query.
  pure_steps.
  destruct (store_error env (tick (start w))); pure_steps;
    [apply Hsame; solve [evolved]|].
  projections.
  destruct (single _) as [[usuario|] [m|]]; pure_steps;
    try (apply Hsame; solve [evolved]).
  destruct (telefone usuario) as [tel|]; pure_steps; [|apply Hsame; solve [evolved]].
  destruct (String.eqb tel ""); pure_steps; [apply Hsame; solve [evolved]|].
  match goal with
  | |- context [store_error env ?t] => destruct (store_error env t)
  end; pure_steps; [apply Hsame; solve [evolved]|].
  projections.
  destruct (maybeSingle _) as [[existing|] [m|]]; pure_steps;
    try (apply Hsame; solve [evolved]).
  - match goal with
    | |- context [setup_existing uid existing env ?s0] =>
        pose proof (setup_existing_evolves uid existing env s0) as H;
        destruct (setup_existing uid existing env s0) as [o s1]
    end.
    cbn [snd] in H. destruct o; pure_steps; apply Hsame; solve [evolved].
  - match goal with
    | |- context [setup_create uid tel env ?s0] =>
        destruct (setup_create_adds uid tel env s0)
          as [kept [added [Hrows [Hkept Hadded]]]];
        destruct (setup_create uid tel env s0) as [o s1]
    end.
    cbn [snd] in Hrows.
    exists kept, added.
    split; [destruct o; pure_steps; cbn [snd]; projections; exact Hrows|].
    split; [exact Hkept|exact Hadded].
Qed.

(** X10.  Whatever the store does and whatever the body carries, a
    webhook leaves the table row for row: no row is added or removed, every
    row keeps its identity, and a soft-deleted row stays soft-deleted. *)
Theorem webhook_keeps_rows env rows t event instance payload :
  Forall2 evolves rows
    (Index.table
       (snd (Index.webhook event instance payload env (Index.start rows t)))).
Proof.
  unfold Index.webhook, Index.try_catch, Index.bind, Index.find_by_name.
  index_steps.
  destruct (Index.db_error env 0); index_steps; [apply Forall2_evolves_refl|].
  destruct (single _) as [[inst|] [m|]]; index_steps;
    try apply Forall2_evolves_refl.
  destruct (is_str event "connection.update");
    [|destruct (is_str event "qrcode.updated")].
  - destruct payload; cbn [Index.member]; index_steps;
      try apply Forall2_evolves_refl.
    all: unfold Index.connection_update;
      destruct (str_neq _ _);
      [ destruct (String.eqb _ "connected") | ];
      cbn [app Index.persist]; unfold Index.bind, Index.write; index_steps;
      try (destruct (Index.db_error env 1)); index_steps;
      cbn [snd Index.table]; eauto 6 with evolve.
  - destruct payload; cbn [Index.member]; index_steps;
      try apply Forall2_evolves_refl.
    all: unfold Index.qrcode_updated;
      destruct (truthy _);
      cbn [Index.persist]; unfold Index.bind, Index.write; index_steps;
      try (destruct (Index.db_error env 1)); index_steps;
      cbn [snd Index.table]; eauto 6 with evolve.
  - index_steps. apply Forall2_evolves_refl.
Qed.

(* ===================================================================== *)
(** ** The state mapping, site by site *)
(* ===================================================================== *)

(** X11.  The webhook maps [data.state] without the [|| 'close']
    default that Setup and Sync apply first; the two mappings agree on
    every value. *)
Theorem webhook_maps_like_sync (raw : json) :
  mapStatus raw = mapped_of_raw raw.
Proof.
  unfold mapped_of_raw, or_else.
  destruct raw as [| |b|n|s|fs]; cbn [truthy]; try reflexivity.
  - destruct b; reflexivity.
  - destruct (n =? 0); reflexivity.
  - destruct (String.eqb_spec s "") as [->|_]; reflexivity.
Qed.

(* ===================================================================== *)
(** ** Requests that end before the provider is contacted *)
(* ===================================================================== *)

(** X12.  Setup answers before it looks at the [whatsapp] table or
    the provider: 400 with no effect at all for an empty [user_id]; 404
    after the one lookup when the user does not resolve to exactly one
    row of [usuarios] or the store fails; 400 after that lookup when the
    user has no phone number (null or empty). *)
Theorem setup_rejects_early env w uid :
  (uid = "" ->
   exists r,
     setup uid env (start w) = (Ret r, start w) /\
     code r = 400 /\ success r = false) /\
  (uid <> "" ->
   store_error env (effect w 0) <> None \/
   length (filter (fun u => String.eqb (u_id u) uid) (usuarios w)) <> 1%nat ->
   exists r s' err,
     setup uid env (start w) = (Ret r, s') /\
     code r = 404 /\ success r = false /\
     trace (world s') = (trace w ++ [EStore (SelectUsuario uid) err])%list /\
     whatsapp (world s') = whatsapp w) /\
  (forall usuario,
      uid <> "" ->
      store_error env (effect w 0) = None ->
      filter (fun u => String.eqb (u_id u) uid) (usuarios w) = [usuario] ->
      missing (telefone usuario) = true ->
      exists r s',
        setup uid env (start w) = (Ret r, s') /\
        code r = 400 /\ success r = false /\
        trace (world s') = (trace w ++ [EStore (SelectUsuario uid) None])%list /\
        whatsapp (world s') = whatsapp w).
Proof.
  split; [|split].
  - intros ->. eexists. split; [reflexivity|]. split; reflexivity.
  - intros Hu H. apply String.eqb_neq in Hu.
    unfold setup. rewrite Hu.
    unfold try_catch, bind, select_usuario, query.
    replace (tick (start w)) with (effect w 0) by (symmetry; apply tick_start).
    destruct (store_error env (effect w 0)) as [m|] eqn:Hs.
    + pure_steps. eexists; eexists; eexists. split; [reflexivity|].
      projections. repeat split.
    + destruct H as [H|H]; [congruence|].
      projections.
      destruct (filter _ (usuarios w)) as [|u0 [|u1 more]] eqn:Hf.
      * pure_steps. eexists; eexists; eexists. split; [reflexivity|].
        projections. repeat split.
      * exfalso. apply H. reflexivity.
      * pure_steps. eexists; eexists; eexists. split; [reflexivity|].
        projections. repeat split.
  - intros usuario Hu Hs Husr Hmiss. apply String.eqb_neq in Hu.
    unfold setup. rewrite Hu.
    unfold try_catch, bind, select_usuario.
    rewrite query_up by at_tick Hs.
    projections. rewrite Husr. pure_steps.
    destruct (telefone usuario) as [tel|]; cbn [missing] in Hmiss.
    + rewrite Hmiss. pure_steps.
      eexists; eexists. split; [reflexivity|]. projections. repeat split.
    + pure_steps.
      eexists; eexists. split; [reflexivity|]. projections. repeat split.
Qed.

(** X12 on a user nobody knows, and on a known user without a phone. *)
Lemma setup_rejects_early_witness :
  (exists r,
      setup "" (Scenario.provider "open") (start Scenario.blank)
      = (Ret r, start Scenario.blank) /\
      code r = 400 /\ success r = false) /\
  (exists r s' err,
      setup "u9" (Scenario.provider "open") (start Scenario.blank) = (Ret r, s') /\
      code r = 404 /\ success r = false /\
      trace (world s') = [EStore (SelectUsuario "u9") err] /\
      whatsapp (world s') = []) /\
  (exists r s',
      setup "u2" (Scenario.provider "open")
        (start {| usuarios := [ {| u_id := "u2"; telefone := Some "" |} ];
                  whatsapp := []; now := 0; trace := []; logs := [] |})
      = (Ret r, s') /\
      code r = 400 /\ success r = false /\
      trace (world s') = [EStore (SelectUsuario "u2") None] /\
      whatsapp (world s') = []).
Proof.
  split; [|split].
  - apply (proj1 (setup_rejects_early (Scenario.provider "open")
                    Scenario.blank "")). reflexivity.
  - apply (proj1 (proj2 (setup_rejects_early (Scenario.provider "open")
                           Scenario.blank "u9"))).
    + discriminate.
    + right. cbn. discriminate.
  - apply (proj2 (proj2 (setup_rejects_early (Scenario.provider "open")
                           {| usuarios := [ {| u_id := "u2"; telefone := Some "" |} ];
                              whatsapp := []; now := 0; trace := []; logs := [] |}
                           "u2")) {| u_id := "u2"; telefone := Some "" |});
      (reflexivity || discriminate).
Defined.

(** Without exactly one active record the three handlers stop at their
    lookup. *)
Lemma not_one_active_404 env w uid :
  length (active_of uid (whatsapp w)) <> 1%nat ->
  (exists r s' err,
      sync_status uid env (start w) = (Ret r, s') /\
      code r = 404 /\ success r = false /\
      trace (world s') = (trace w ++ [EStore (SelectActive uid) err])%list /\
      whatsapp (world s') = whatsapp w) /\
  (exists r s' err,
      disconnect uid env (start w) = (Ret r, s') /\
      code r = 404 /\ success r = false /\
      trace (world s') = (trace w ++ [EStore (SelectActive uid) err])%list /\
      whatsapp (world s') = whatsapp w) /\
  (exists r s' err,
      delete uid env (start w) = (Ret r, s') /\
      code r = 404 /\ success r = false /\
      trace (world s') = (trace w ++ [EStore (SelectActive uid) err])%list /\
      whatsapp (world s') = whatsapp w).
Proof.
  intros H.
  split; [|split].
  - unfold sync_status, try_catch, bind, select_active, query.
    destruct (store_error env (tick (start w))) as [m|].
    + pure_steps. eexists; eexists; eexists. split; [reflexivity|].
      projections. repeat split.
    + projections.
      destruct (active_of uid (whatsapp w)) as [|r0 [|r1 more]].
      * pure_steps. eexists; eexists; eexists. split; [reflexivity|].
        projections. repeat split.
      * exfalso. apply H. reflexivity.
      * pure_steps. eexists; eexists; eexists. split; [reflexivity|].
        projections. repeat split.
  - unfold disconnect, try_catch, bind, select_active, query.
    destruct (store_error env (tick (start w))) as [m|].
    + pure_steps. eexists; eexists; eexists. split; [reflexivity|].
      projections. repeat split.
    + projections.
      destruct (active_of uid (whatsapp w)) as [|r0 [|r1 more]].
      * pure_steps. eexists; eexists; eexists. split; [reflexivity|].
        projections. repeat split.
      * exfalso. apply H. reflexivity.
      * pure_steps. eexists; eexists; eexists. split; [reflexivity|].
        projections. repeat split.
  - unfold delete, try_catch, bind, select_active, query.
    destruct (store_error env (tick (start w))) as [m|].
    + pure_steps. eexists; eexists; eexists. split; [reflexivity|].
      projections. repeat split.
    + projections.
      destruct (active_of uid (whatsapp w)) as [|r0 [|r1 more]].
      * pure_steps. eexists; eexists; eexists. split; [reflexivity|].
        projections. repeat split.
      * exfalso. apply H. reflexivity.
      * pure_steps. eexists; eexists; eexists. split; [reflexivity|].
        projections. repeat split.
Qed.

(** X13.  Sync, Disconnect and Delete need exactly one active record:
    with none or with several -- whatever the store answers -- each ends
    with a 404 after its one lookup, the provider is not contacted and the
    table is left as it was. *)
Theorem lifecycle_needs_one_active_record env w uid :
  length (active_of uid (whatsapp w)) <> 1%nat ->
  (exists r s' err,
      sync_status uid env (start w) = (Ret r, s') /\
      code r = 404 /\ success r = false /\
      trace (world s') = (trace w ++ [EStore (SelectActive uid) err])%list /\
      whatsapp (world s') = whatsapp w) /\
  (exists r s' err,
      disconnect uid env (start w) = (Ret r, s') /\
      code r = 404 /\ success r = false /\
      trace (world s') = (trace w ++ [EStore (SelectActive uid) err])%list /\
      whatsapp (world s') = whatsapp w) /\
  (exists r s' err,
      delete uid env (start w) = (Ret r, s') /\
      code r = 404 /\ success r = false /\
      trace (world s') = (trace w ++ [EStore (SelectActive uid) err])%list /\
      whatsapp (world s') = whatsapp w).
Proof. apply not_one_active_404. Qed.

(** X13 on a user with two active records. *)
Lemma lifecycle_needs_one_active_record_witness :
  (exists r s' err,
      sync_status "u1" (Scenario.provider "open") (start Race.doubled)
      = (Ret r, s') /\
      code r = 404 /\ success r = false /\
      trace (world s') = [EStore (SelectActive "u1") err] /\
      whatsapp (world s') = [Scenario.ana; Race.twin]) /\
  (exists r s' err,
      disconnect "u1" (Scenario.provider "open") (start Race.doubled)
      = (Ret r, s') /\
      code r = 404 /\ success r = false /\
      trace (world s') = [EStore (SelectActive "u1") err] /\
      whatsapp (world s') = [Scenario.ana; Race.twin]) /\
  (exists r s' err,
      delete "u1" (Scenario.provider "open") (start Race.doubled)
      = (Ret r, s') /\
      code r = 404 /\ success r = false /\
      trace (world s') = [EStore (SelectActive "u1") err] /\
      whatsapp (world s') = [Scenario.ana; Race.twin]).
Proof.
  apply (lifecycle_needs_one_active_record (Scenario.provider "open")
           Race.doubled "u1").
  cbn. discriminate.
Defined.

(** X14.  With two or more active records for a user, Setup cannot resolve
    the record either: for a known user with a phone number it ends in a
    500 after its two lookups, with nothing created remotely or locally. *)
Theorem setup_blocked_by_duplicates env w uid usuario tel :
  uid <> "" ->
  store_error env (effect w 0) = None ->
  filter (fun u => String.eqb (u_id u) uid) (usuarios w) = [usuario] ->
  telefone usuario = Some tel ->
  tel <> "" ->
  store_error env (effect w 1) = None ->
  (2 <= length (active_of uid (whatsapp w)))%nat ->
  exists r s' m,
    setup uid env (start w) = (Ret r, s') /\
    code r = 500 /\ success r = false /\
    body r = BError "Erro ao configurar WhatsApp" (JStr m) /\
    trace (world s')
    = (trace w ++ [EStore (SelectUsuario uid) None;
                   EStore (SelectActive uid) (Some m)])%list /\
    whatsapp (world s') = whatsapp w.
Proof.
  intros Hu Hs0 Husr Htel Htne Hs1 Hdup.
  apply String.eqb_neq in Hu. apply String.eqb_neq in Htne.
  unfold setup. rewrite Hu.
  unfold try_catch, bind, select_usuario, select_active.
  rewrite query_up by at_tick Hs0.
  projections. rewrite Husr. pure_steps. rewrite Htel, Htne.
  rewrite query_up by at_tick Hs1.
  projections.
  destruct (active_of uid (whatsapp w)) as [|r0 [|r1 more]];
    [cbn in Hdup; lia|cbn in Hdup; lia|].
  pure_steps.
  eexists; eexists; eexists. split; [reflexivity|]. projections.
  split; [reflexivity|]. split; [reflexivity|]. split; [reflexivity|].
  split; [rewrite <- app_assoc; reflexivity|reflexivity].
Qed.

(** X14 for [u1] with two active records. *)
Lemma setup_blocked_by_duplicates_witness :
  exists r s' m,
    setup "u1" (Scenario.provider "open") (start Race.doubled) = (Ret r, s') /\
    code r = 500 /\ success r = false /\
    body r = BError "Erro ao configurar WhatsApp" (JStr m) /\
    trace (world s')
    = [EStore (SelectUsuario "u1") None;
       EStore (SelectActive "u1") (Some m)] /\
    whatsapp (world s') = [Scenario.ana; Race.twin].
Proof.
  apply (setup_blocked_by_duplicates (Scenario.provider "open") Race.doubled
           "u1" Scenario.u1 "5511999990000");
    (reflexivity || discriminate).
Defined.

(* ===================================================================== *)
(** ** One request after another *)
(* ===================================================================== *)

Lemma set_field_owner r f : user_id (set_field r f) = user_id r.
Proof. destruct f; reflexivity. Qed.

Lemma apply_patch_owner p : forall r, user_id (apply_patch p r) = user_id r.
Proof.
  unfold apply_patch. induction p as [|f p IH]; intros r; simpl.
  - reflexivity.
  - rewrite IH. apply set_field_owner.
Qed.

(** A patch that leaves [is_active] alone keeps a row in or out of the
    active rows of a user. *)
Lemma active_of_update_rows uid i p rows :
  (forall r, is_active (apply_patch p r) = is_active r) ->
  active_of uid (update_rows i p rows)
  = map (fun r => if Nat.eqb (id r) i then apply_patch p r else r)
      (active_of uid rows).
Proof.
  intros Hp. unfold active_of. apply filter_update_rows.
  intros r. rewrite Hp, apply_patch_owner. reflexivity.
Qed.

Lemma active_of_app uid a b :
  active_of uid (a ++ b) = (active_of uid a ++ active_of uid b)%list.
Proof. unfold active_of. apply filter_app. Qed.

(** The creation path of Setup, run to its end. *)
Lemma setup_create_run env w uid usuario tel d :
  uid <> "" ->
  store_error env (effect w 0) = None ->
  filter (fun u => String.eqb (u_id u) uid) (usuarios w) = [usuario] ->
  telefone usuario = Some tel ->
  tel <> "" ->
  store_error env (effect w 1) = None ->
  active_of uid (whatsapp w) = [] ->
  remote env (effect w 2) (Create (new_name env tel)) = Resolved d ->
  store_error env (effect w 3) = None ->
  exists r s' q,
    setup uid env (start w) = (Ret r, s') /\
    code r = 201 /\
    usuarios (world s') = usuarios w /\
    (whatsapp (world s')
     = (whatsapp w ++ [row_of_insert (fresh_id (whatsapp w))
                         (new_instance uid tel (new_name env tel))])%list \/
     whatsapp (world s')
     = update_rows (fresh_id (whatsapp w)) [F_qr_code q]
         (whatsapp w ++ [row_of_insert (fresh_id (whatsapp w))
                           (new_instance uid tel (new_name env tel))])%list).
Proof.
  intros Hu Hs0 Husr Htel Htne Hs1 Hact Hr Hs3.
  apply String.eqb_neq in Hu. apply String.eqb_neq in Htne.
  unfold new_name in *.
  unfold setup. rewrite Hu.
  unfold try_catch, bind, select_usuario, select_active.
  rewrite query_up by at_tick Hs0.
  projections. rewrite Husr. pure_steps. rewrite Htel, Htne.
  rewrite query_up by at_tick Hs1.
  projections. rewrite Hact. pure_steps.
  unfold setup_create, bind, try_catch, insert, update.
  pure_steps.
  rewrite (axios_resolved _ _ _ d) by at_tick Hr.
  pure_steps.
  rewrite query_up by at_tick Hs3.
  pure_steps. projections.
  unfold query, axios. split_all.
  all: eexists; eexists; eexists; (split; [reflexivity|]).
  all: split; [reflexivity|]; split; [reflexivity|].
  all: projections.
  all: first [ left; reflexivity | right; reflexivity ].
  Unshelve. all: exact JNull.
Qed.

(** The resynchronisation path of Setup, for any provider. *)
Lemma setup_existing_run env w uid usuario tel inst :
  uid <> "" ->
  store_error env (effect w 0) = None ->
  filter (fun u => String.eqb (u_id u) uid) (usuarios w) = [usuario] ->
  telefone usuario = Some tel ->
  tel <> "" ->
  store_error env (effect w 1) = None ->
  active_of uid (whatsapp w) = [inst] ->
  exists r s' inst' q msg,
    setup uid env (start w) = (Ret r, s') /\
    code r = 200 /\ body r = BSetup inst' q msg /\
    id inst' = id inst /\ nome_instancia inst' = nome_instancia inst /\
    forallb (fun e => negb (creates e)) (events_since w (world s')) = true /\
    length (whatsapp (world s')) = length (whatsapp w) /\
    length (active_of uid (whatsapp (world s'))) = 1%nat.
Proof.
  intros Hu Hs0 Husr Htel Htne Hs1 Hact.
  apply String.eqb_neq in Hu. apply String.eqb_neq in Htne.
  unfold setup. rewrite Hu.
  unfold try_catch, bind, select_usuario, select_active.
  rewrite query_up by at_tick Hs0.
  projections. rewrite Husr. pure_steps. rewrite Htel, Htne.
  rewrite query_up by at_tick Hs1.
  projections. rewrite Hact. pure_steps.
  unfold setup_existing, try_catch, bind, update, query, axios.
  pure_steps.
  cbn [frame with_frame set_existingInstance existingInstance].
  split_all.
  all: eexists; eexists; eexists; eexists; eexists; (split; [reflexivity|]).
  all: split; [reflexivity|]; split; [reflexivity|].
  all: split; [reflexivity|]; split; [reflexivity|].
  all: split;
    [ erewrite events_since_app
        by (projections; rewrite <- ?app_assoc; reflexivity);
      reflexivity | ].
  all: projections.
  all: rewrite ?update_rows_length; (split; [reflexivity|]).
  all: try (rewrite active_of_update_rows by (intros x; reflexivity));
       rewrite Hact; reflexivity.
Qed.

(** X15.  Setup is idempotent.  After a Setup that created the user's
    record, a second Setup -- whatever the provider answers, the store
    answering its two lookups -- takes the resynchronisation path: it
    answers 200 with the instance name the first call chose, makes no
    remote create and no insert, and the user still has exactly one active
    record. *)
Theorem setup_twice env env2 w uid usuario tel d :
  uid <> "" ->
  store_error env (effect w 0) = None ->
  filter (fun u => String.eqb (u_id u) uid) (usuarios w) = [usuario] ->
  telefone usuario = Some tel ->
  tel <> "" ->
  store_error env (effect w 1) = None ->
  active_of uid (whatsapp w) = [] ->
  remote env (effect w 2) (Create (new_name env tel)) = Resolved d ->
  store_error env (effect w 3) = None ->
  exists r1 s1,
    setup uid env (start w) = (Ret r1, s1) /\
    code r1 = 201 /\
    (store_error env2 (effect (world s1) 0) = None ->
     store_error env2 (effect (world s1) 1) = None ->
     exists r2 s2 inst q msg,
       setup uid env2 (start (world s1)) = (Ret r2, s2) /\
       code r2 = 200 /\ body r2 = BSetup inst q msg /\
       nome_instancia inst = new_name env tel /\
       forallb (fun e => negb (creates e)) (events_since (world s1) (world s2))
       = true /\
       length (whatsapp (world s2)) = length (whatsapp (world s1)) /\
       length (active_of uid (whatsapp (world s2))) = 1%nat).
Proof.
  intros Hu Hs0 Husr Htel Htne Hs1 Hact Hr Hs3.
  destruct (setup_create_run env w uid usuario tel d Hu Hs0 Husr Htel Htne
              Hs1 Hact Hr Hs3)
    as [r1 [s1 [q1 [Hrun [Hcode [Husers Hrows]]]]]].
  exists r1, s1. split; [exact Hrun|]. split; [exact Hcode|].
  intros H0 H1.
  set (new := row_of_insert (fresh_id (whatsapp w))
                (new_instance uid tel (new_name env tel))) in *.
  assert (Hnew : active_of uid [new] = [new]).
  { unfold active_of. cbn [filter new row_of_insert user_id is_active
                         new_instance n_user_id n_is_active].
    rewrite String.eqb_refl. reflexivity. }
  assert (Hone : exists inst1,
             active_of uid (whatsapp (world s1)) = [inst1] /\
             nome_instancia inst1 = new_name env tel).
  { destruct Hrows as [-> | ->].
    - exists new. rewrite active_of_app, Hact, Hnew. split; reflexivity.
    - exists (apply_patch [F_qr_code q1] new).
      rewrite active_of_update_rows by (intros x; reflexivity).
      rewrite active_of_app, Hact, Hnew. cbn [app map new row_of_insert id].
      rewrite Nat.eqb_refl. split; reflexivity. }
  destruct Hone as [inst1 [Hact1 Hname1]].
  destruct (setup_existing_run env2 (world s1) uid usuario tel inst1 Hu H0
              ltac:(rewrite Husers; exact Husr) Htel Htne H1 Hact1)
    as [r2 [s2 [inst' [q [msg [Hrun2 [Hc2 [Hb2 [_ [Hn2 [Hev [Hlen Hact2]]]]]]]]]]]].
  exists r2, s2, inst', q, msg.
  split; [exact Hrun2|]. split; [exact Hc2|]. split; [exact Hb2|].
  split; [rewrite Hn2; exact Hname1|]. split; [exact Hev|].
  split; [exact Hlen|exact Hact2].
Qed.

(** X15 for [u1], who has no record, against a provider that reports
    [close]: the second Setup returns the name the first one chose. *)
Lemma setup_twice_witness :
  exists r1 s1,
    setup "u1" (Scenario.provider "close") (start Scenario.blank) = (Ret r1, s1) /\
    code r1 = 201 /\
    exists r2 s2 inst q msg,
      setup "u1" (Scenario.provider "close") (start (world s1)) = (Ret r2, s2) /\
      code r2 = 200 /\ body r2 = BSetup inst q msg /\
      nome_instancia inst = "5511999990000_1234" /\
      forallb (fun e => negb (creates e)) (events_since (world s1) (world s2))
      = true /\
      length (whatsapp (world s2)) = length (whatsapp (world s1)) /\
      length (active_of "u1" (whatsapp (world s2))) = 1%nat.
Proof.
  destruct (setup_twice (Scenario.provider "close") (Scenario.provider "close")
              Scenario.blank "u1" Scenario.u1 "5511999990000" JNull
              ltac:(discriminate) eq_refl eq_refl eq_refl ltac:(discriminate)
              eq_refl eq_refl eq_refl eq_refl)
    as [r1 [s1 [Hrun [Hcode Hnext]]]].
  exists r1, s1. split; [exact Hrun|]. split; [exact Hcode|].
  apply Hnext; reflexivity.
Defined.

(** Delete, run to its end, with the store taking the write. *)
Lemma delete_run env w uid inst :
  store_error env (effect w 0) = None ->
  active_of uid (whatsapp w) = [inst] ->
  store_error env (effect w 2) = None ->
  exists r s',
    delete uid env (start w) = (Ret r, s') /\
    code r = 200 /\
    usuarios (world s') = usuarios w /\
    whatsapp (world s')
    = update_rows (id inst) (delete_patch (now w)) (whatsapp w).
Proof.
  intros Hs Ha Hu.
  unfold delete, try_catch, bind, select_active, update.
  rewrite query_up by at_tick Hs.
  projections. rewrite Ha. pure_steps.
  unfold axios.
  destruct (remote env _ _) as [d|e]; pure_steps;
    [|destruct (status_is_not _ _); pure_steps].
  all: rewrite query_up by at_tick Hu.
  all: pure_steps; eexists; eexists; (split; [reflexivity|]).
  all: projections; repeat split.
Qed.

(** Soft-deleting the one active record of a user leaves the user without
    an active record. *)
Lemma active_of_deleted uid rows inst t :
  active_of uid rows = [inst] ->
  active_of uid (update_rows (id inst) (delete_patch t) rows) = [].
Proof.
  intros H.
  assert (Hall : forall r, In r rows ->
                           String.eqb (user_id r) uid && is_active r = true ->
                           id r = id inst).
  { intros r Hin Hf.
    assert (Hr : In r (active_of uid rows)).
    { unfold active_of. apply filter_In. split; assumption. }
    rewrite H in Hr. destruct Hr as [<-|[]]. reflexivity. }
  clear H. unfold active_of, update_rows.
  induction rows as [|r rows IH]; [reflexivity|].
  cbn [map filter].
  rewrite IH by (intros x Hx; apply Hall; right; exact Hx).
  destruct (Nat.eqb (id r) (id inst)) eqn:E.
  - cbn. rewrite andb_false_r. reflexivity.
  - destruct (String.eqb (user_id r) uid && is_active r) eqn:F; [|reflexivity].
    apply Nat.eqb_neq in E. exfalso. apply E. apply Hall; [left; reflexivity|exact F].
Qed.

(** X16.  After a Delete (the store taking the write) the user has no
    active record left: a Sync, a Disconnect and a second Delete each end
    with a 404 after their lookup, whatever the provider and the store
    answer, and leave the table as the Delete left it. *)
Theorem after_delete env env2 w uid inst :
  store_error env (effect w 0) = None ->
  active_of uid (whatsapp w) = [inst] ->
  store_error env (effect w 2) = None ->
  exists r1 s1,
    delete uid env (start w) = (Ret r1, s1) /\
    code r1 = 200 /\
    active_of uid (whatsapp (world s1)) = [] /\
    (exists r s' err,
        sync_status uid env2 (start (world s1)) = (Ret r, s') /\
        code r = 404 /\ success r = false /\
        trace (world s')
        = (trace (world s1) ++ [EStore (SelectActive uid) err])%list /\
        whatsapp (world s') = whatsapp (world s1)) /\
    (exists r s' err,
        disconnect uid env2 (start (world s1)) = (Ret r, s') /\
        code r = 404 /\ success r = false /\
        trace (world s')
        = (trace (world s1) ++ [EStore (SelectActive uid) err])%list /\
        whatsapp (world s') = whatsapp (world s1)) /\
    (exists r s' err,
        delete uid env2 (start (world s1)) = (Ret r, s') /\
        code r = 404 /\ success r = false /\
        trace (world s')
        = (trace (world s1) ++ [EStore (SelectActive uid) err])%list /\
        whatsapp (world s') = whatsapp (world s1)).
Proof.
  intros Hs Ha Hu.
  destruct (delete_run env w uid inst Hs Ha Hu) as [r1 [s1 [Hrun [Hc [_ Hrows]]]]].
  exists r1, s1. split; [exact Hrun|]. split; [exact Hc|].
  assert (Hnone : active_of uid (whatsapp (world s1)) = []).
  { rewrite Hrows. apply active_of_deleted. exact Ha. }
  split; [exact Hnone|].
  apply not_one_active_404. rewrite Hnone. discriminate.
Qed.

(** X16 on the record of [u1]. *)
Lemma after_delete_witness :
  exists r1 s1,
    delete "u1" (Scenario.provider "open") (start Scenario.mirrored) = (Ret r1, s1) /\
    code r1 = 200 /\
    active_of "u1" (whatsapp (world s1)) = [] /\
    (exists r s' err,
        sync_status "u1" (Scenario.provider "open") (start (world s1)) = (Ret r, s') /\
        code r = 404 /\ success r = false /\
        trace (world s')
        = (trace (world s1) ++ [EStore (SelectActive "u1") err])%list /\
        whatsapp (world s') = whatsapp (world s1)) /\
    (exists r s' err,
        disconnect "u1" (Scenario.provider "open") (start (world s1)) = (Ret r, s') /\
        code r = 404 /\ success r = false /\
        trace (world s')
        = (trace (world s1) ++ [EStore (SelectActive "u1") err])%list /\
        whatsapp (world s') = whatsapp (world s1)) /\
    (exists r s' err,
        delete "u1" (Scenario.provider "open") (start (world s1)) = (Ret r, s') /\
        code r = 404 /\ success r = false /\
        trace (world s')
        = (trace (world s1) ++ [EStore (SelectActive "u1") err])%list /\
        whatsapp (world s') = whatsapp (world s1)).
Proof.
  apply (after_delete (Scenario.provider "open") (Scenario.provider "open")
           Scenario.mirrored "u1" Scenario.ana eq_refl eq_refl eq_refl).
Defined.

(* ===================================================================== *)
(** ** Sync: more end-to-end properties *)
(* ===================================================================== *)

(** X17.  When the first poll of a Sync reads [open] and the profile is
    served, the request ends after four effects -- lookup, poll, profile
    fetch, update -- without sleeping and without asking for a pairing code;
    the record is persisted [connected] with the counter at 0,
    [last_connection_at] at the time of the request and the profile's name
    and picture, and [statusChanged] tells whether the record was
    [connected] before. *)
Theorem sync_first_poll_open env w uid inst d p :
  store_error env (effect w 0) = None ->
  active_of uid (whatsapp w) = [inst] ->
  remote env (effect w 1) (ConnectionState (nome_instancia inst)) = Resolved d ->
  is_str (evolutionStatus_of d) "open" = true ->
  remote env (effect w 2) (FetchProfile (nome_instancia inst)) = Resolved p ->
  store_error env (effect w 3) = None ->
  exists r s' inst' err,
    sync_status uid env (start w) = (Ret r, s') /\
    code r = 200 /\
    body r = BSync inst' JNull (str_neq (status inst) "connected") /\
    trace (world s')
    = (trace w ++
       [ EStore (SelectActive uid) None;
         ERemote (ConnectionState (nome_instancia inst)) (Resolved d);
         ERemote (FetchProfile (nome_instancia inst)) (Resolved p);
         EStore (Update (id inst) (updateData inst "connected" p (now w))) err ])%list /\
    now (world s') = now w /\
    persisted (world s') (id inst)
      (fun x =>
         status x = "connected" /\
         connection_attempts x = Some 0 /\
         last_connection_at x = Some (now w) /\
         profile_name x = opt p "name" ||| JNull /\
         profile_picture_url x = opt p "profilePictureUrl" ||| JNull).
Proof.
  intros Hs Ha Hpoll Hopen Hprof Hupd.
  unfold sync_status, try_catch, bind, select_active.
  rewrite query_up by at_tick Hs.
  projections. rewrite Ha. pure_steps.
  cbn [poll_loop]. unfold poll_once, try_catch, bind.
  rewrite (axios_resolved _ _ _ d) by at_tick Hpoll.
  pure_steps.
  cbn [frame with_frame set_evolutionStatus evolutionStatus].
  rewrite Hopen.
  rewrite (axios_resolved _ _ _ p) by at_tick Hprof.
  pure_steps.
  unfold sync_finish, bind, update_returning.
  pure_steps.
  cbn [frame with_frame set_mappedStatus set_profileData set_evolutionStatus
       set_qrCode evolutionStatus mappedStatus profileData qrCode].
  rewrite (is_str_true _ _ Hopen).
  cbn [mapStatus is_str String.eqb Ascii.eqb Bool.eqb].
  rewrite query_up by at_tick Hupd.
  pure_steps. projections.
  match goal with
  | |- context [@single Row ?l] => destruct (@single Row l) as [[upd|] [m|]]
  end; pure_steps;
    cbn [frame with_frame set_qrCode qrCode].
  all: eexists; eexists; eexists; eexists; (split; [reflexivity|]).
  all: split; [reflexivity|]; split; [reflexivity|].
  all: projections.
  all: split; [rewrite <- !app_assoc; reflexivity|].
  all: split; [reflexivity|].
  all: eapply persisted_update_same with (inst := inst);
    [ reflexivity | eapply active_is; eassumption | reflexivity
    | intros x; repeat split ].
Qed.

(** X17 on the record of [u1], against a provider that reports [open]. *)
Lemma sync_first_poll_open_witness :
  exists r s' inst' err,
    sync_status "u1" (Scenario.provider "open") (start Scenario.mirrored)
    = (Ret r, s') /\
    code r = 200 /\
    body r = BSync inst' JNull false /\
    trace (world s')
    = [ EStore (SelectActive "u1") None;
        ERemote (ConnectionState "5511999990000_1234")
          (Resolved (Scenario.state_body "open"));
        ERemote (FetchProfile "5511999990000_1234")
          (Resolved (JObj [("name", JStr "Ana")]));
        EStore (Update 7
                  (updateData Scenario.ana "connected"
                     (JObj [("name", JStr "Ana")]) 100)) err ] /\
    now (world s') = 100 /\
    persisted (world s') 7
      (fun x =>
         status x = "connected" /\
         connection_attempts x = Some 0 /\
         last_connection_at x = Some 100 /\
         profile_name x = JStr "Ana" /\
         profile_picture_url x = JNull).
Proof.
  apply (sync_first_poll_open (Scenario.provider "open") Scenario.mirrored
           "u1" Scenario.ana (Scenario.state_body "open")
           (JObj [("name", JStr "Ana")]));
    reflexivity.
Defined.

Lemma sync_finish_body inst env s :
  exists r s' inst' q,
    sync_finish inst env s = (Ret r, s') /\
    body r = BSync inst' q
               (str_neq (status inst) (mapStatus (evolutionStatus (frame s)))) /\
    (mapStatus (evolutionStatus (frame s)) <> "disconnected" -> q = JNull).
Proof.
  unfold sync_finish, bind, try_catch, update_returning, update, query, axios.
  pure_steps.
  cbn [frame with_frame set_mappedStatus set_qrCode mappedStatus
       qrCode profileData evolutionStatus].
  split_oracles.
  all: eexists; eexists; eexists; eexists; (split; [reflexivity|]).
  all: split; [reflexivity|].
  all: intros Hnot; try reflexivity.
  all: exfalso; apply Hnot; apply String.eqb_eq; assumption.
Qed.

(** X18.  A Sync (the store taking the writes) reports in
    [statusChanged] whether the status it persists differs from the status
    the record had, refreshes [last_connection_at] to the time of the
    update exactly when that status is [connected] and otherwise leaves
    the looked-up value, and returns a pairing code only when the status
    is [disconnected]. *)
Theorem sync_reports_change env w uid inst :
  store_up env ->
  active_of uid (whatsapp w) = [inst] ->
  exists r s' inst' q,
    sync_status uid env (start w) = (Ret r, s') /\
    body r = BSync inst' q (str_neq (status inst) (mappedStatus (frame s'))) /\
    (mappedStatus (frame s') <> "disconnected" -> q = JNull) /\
    persisted (world s') (id inst)
      (fun x =>
         status x = mappedStatus (frame s') /\
         last_connection_at x
         = if String.eqb (mappedStatus (frame s')) "connected"
           then Some (now (world s'))
           else last_connection_at inst).
Proof.
  intros Hup Ha.
  destruct (sync_status_found env w uid inst (Hup _) Ha)
    as [s0 [Hw0 [Hn0 [Ht0 [He0 [Hp0 Hrun]]]]]].
  destruct (poll_loop_spec inst 5 env s0)
    as [s1 [attempts [last [Hloop [Hw1 _]]]]].
  destruct (sync_finish_spec inst env s1)
    as [r [s' [rest [Hfin [_ [_ [Hm [_ [Hn [_ [_ [Hst _]]]]]]]]]]]].
  destruct (sync_finish_body inst env s1)
    as [r' [s'' [inst' [q [Hfin' [Hbody Hq]]]]]].
  rewrite Hfin in Hfin'. injection Hfin' as <- <-.
  exists r, s', inst', q.
  split; [apply (Hrun s1); assumption|].
  rewrite Hm. split; [exact Hbody|]. split; [exact Hq|].
  destruct (Hst Hup) as [qp [Hqp Hrows]].
  rewrite Hn.
  eapply persisted_update2 with (inst := inst).
  - exact Hrows.
  - rewrite Hw1, Hw0. eapply active_is; eassumption.
  - reflexivity.
  - intros x. destruct Hqp as [->|[q0 ->]]; repeat split.
Qed.

(** X18 on the record of [u1], [connected] before, against a provider
    that reports [close]: the status changed and [last_connection_at]
    stays at 5. *)
Lemma sync_reports_change_witness :
  exists r s' inst' q,
    sync_status "u1" (Scenario.provider "close") (start Scenario.mirrored)
    = (Ret r, s') /\
    body r = BSync inst' q true /\
    persisted (world s') 7
      (fun x => status x = "disconnected" /\ last_connection_at x = Some 5).
Proof.
  destruct (sync_reports_change (Scenario.provider "close") Scenario.mirrored
              "u1" Scenario.ana (fun _ => eq_refl) eq_refl)
    as [r [s' [inst' [q [Hrun [Hbody [_ Hp]]]]]]].
  exists r, s', inst', q.
  vm_compute in Hrun. injection Hrun as <- <-.
  split; [reflexivity|]. split; [exact Hbody|exact Hp].
Defined.

(* ===================================================================== *)
(** ** The way to a lifecycle handler *)
(* ===================================================================== *)

(** X19.  [authenticate] lets a request through exactly when its
    [x-api-key] header is a non-empty string equal to the configured
    [API_KEY]; with [API_KEY] absent or empty no request gets through. *)
Theorem authenticate_passes cfg apiKey :
  (authenticate cfg apiKey = None <->
   exists k, apiKey = Some k /\ k <> "" /\ API_KEY cfg = Some k) /\
  (missing (API_KEY cfg) = true ->
   authenticate cfg apiKey
   = Some (SText 401 "Chave de API inválida ou não fornecida.")).
Proof.
  assert (Hiff : authenticate cfg apiKey = None <->
                 exists k, apiKey = Some k /\ k <> "" /\ API_KEY cfg = Some k).
  { unfold authenticate, missing, differs.
    destruct apiKey as [k|]; cbn [orb].
    - destruct (String.eqb_spec k "") as [->|Hk]; cbn [orb].
      + split; [discriminate|]. intros [k' [H [Hne _]]].
        injection H as <-. contradiction.
      + destruct (API_KEY cfg) as [c|].
        * destruct (String.eqb_spec k c) as [->|Hkc]; cbn [negb].
          -- split; [|reflexivity]. intros _. exists c. auto.
          -- split; [discriminate|]. intros [k' [H [_ Hc]]].
             injection H as <-. injection Hc as <-. contradiction.
        * split; [discriminate|]. intros [k' [_ [_ Hc]]]. discriminate.
    - split; [discriminate|]. intros [k' [H _]]. discriminate. }
  split; [exact Hiff|].
  intros Hmiss.
  destruct (authenticate cfg apiKey) as [s|] eqn:E.
  - unfold authenticate in E.
    destruct (missing apiKey || differs apiKey (API_KEY cfg));
      [injection E as <-; reflexivity|discriminate].
  - exfalso. destruct (proj1 Hiff eq_refl) as [k [_ [Hk Hc]]].
    rewrite Hc in Hmiss. cbn [missing] in Hmiss.
    apply String.eqb_eq in Hmiss. contradiction.
Qed.

(** X19 with no [API_KEY] configured. *)
Lemma authenticate_passes_witness :
  authenticate {| API_KEY := None; EVOLUTION_API_URL := Some "http://evo";
                  EVOLUTION_API_KEY := Some "k" |} (Some "guess")
  = Some (SText 401 "Chave de API inválida ou não fornecida.").
Proof.
  apply (proj2 (authenticate_passes
                  {| API_KEY := None; EVOLUTION_API_URL := Some "http://evo";
                     EVOLUTION_API_KEY := Some "k" |} (Some "guess"))).
  reflexivity.
Defined.

(** X20.  A request to a lifecycle route that fails authentication
    is answered 401 with no effect at all; one that authenticates while
    the provider's URL or key is not configured is answered 500 after an
    error is logged.  In neither case does the handler run: nothing is
    read, written or sent, whatever the handler is. *)
Theorem route_refuses_before_handler cfg apiKey handler env w :
  (authenticate cfg apiKey <> None ->
   whatsapp_route cfg apiKey handler env (start w)
   = (Ret (SText 401 "Chave de API inválida ou não fornecida."), start w)) /\
  (authenticate cfg apiKey = None ->
   missing (EVOLUTION_API_URL cfg) || missing (EVOLUTION_API_KEY cfg) = true ->
   exists s',
     whatsapp_route cfg apiKey handler env (start w)
     = (Ret (SJson {| code := 500;
                      body := BError "Configuração da API de evolução incompleta."
                                JUndefined |}), s') /\
     trace (world s') = trace w /\
     whatsapp (world s') = whatsapp w /\
     logs (world s')
     = (logs w ++ [(Error, "EVOLUTION_API_URL ou EVOLUTION_API_KEY não configurado.")])%list).
Proof.
  split.
  - intros H. unfold whatsapp_route.
    destruct (authenticate cfg apiKey) as [s|] eqn:E; [|contradiction].
    unfold authenticate in E.
    destruct (missing apiKey || differs apiKey (API_KEY cfg));
      [injection E as <-; reflexivity|discriminate].
  - intros Hauth Hcfg. unfold whatsapp_route, configuration_guard, bind.
    rewrite Hauth, Hcfg. pure_steps.
    eexists. split; [reflexivity|]. projections. repeat split.
Qed.

(** X20 for a Delete of [u1]'s record: without the key, and with the key
    but no provider URL. *)
Lemma route_refuses_before_handler_witness :
  whatsapp_route {| API_KEY := Some "secret"; EVOLUTION_API_URL := None;
                    EVOLUTION_API_KEY := Some "k" |}
    None (delete "u1") (Scenario.provider "open") (start Scenario.mirrored)
  = (Ret (SText 401 "Chave de API inválida ou não fornecida."),
     start Scenario.mirrored) /\
  exists s',
    whatsapp_route {| API_KEY := Some "secret"; EVOLUTION_API_URL := None;
                      EVOLUTION_API_KEY := Some "k" |}
      (Some "secret") (delete "u1") (Scenario.provider "open")
      (start Scenario.mirrored)
    = (Ret (SJson {| code := 500;
                     body := BError "Configuração da API de evolução incompleta."
                               JUndefined |}), s') /\
    trace (world s') = [] /\
    whatsapp (world s') = [Scenario.ana] /\
    logs (world s')
    = [(Error, "EVOLUTION_API_URL ou EVOLUTION_API_KEY não configurado.")].
Proof.
  split.
  - apply (proj1 (route_refuses_before_handler
                    {| API_KEY := Some "secret"; EVOLUTION_API_URL := None;
                       EVOLUTION_API_KEY := Some "k" |}
                    None (delete "u1") (Scenario.provider "open")
                    Scenario.mirrored)).
    discriminate.
  - apply (proj2 (route_refuses_before_handler
                    {| API_KEY := Some "secret"; EVOLUTION_API_URL := None;
                       EVOLUTION_API_KEY := Some "k" |}
                    (Some "secret") (delete "u1") (Scenario.provider "open")
                    Scenario.mirrored)); reflexivity.
Defined.

(* ===================================================================== *)
(** ** The campaign routes *)
(* ===================================================================== *)

(** The campaign gate with the store answering its lookup. *)
Lemma criar_campanha_gate env rows t uid body :
  Index.db_error env 0 = None ->
  (active_of uid rows = [] \/
   exists inst, active_of uid rows = [inst] /\ status inst <> "connected") ->
  exists s',
    Index.criar_campanha uid body env (Index.start rows t) = (Ret Index.NotConnected, s') /\
    Index.journal s' = [Index.FindActive uid None] /\
    Index.table s' = rows.
Proof.
  intros Hdb H.
  unfold Index.criar_campanha, Index.try_catch, Index.bind, Index.find_active.
  index_steps. rewrite Hdb.
  destruct H as [->|[inst [-> Hst]]]; index_steps.
  - eexists. split; [reflexivity|]. split; reflexivity.
  - unfold str_neq. apply String.eqb_neq in Hst. rewrite Hst. cbn [negb].
    index_steps. eexists. split; [reflexivity|]. split; reflexivity.
Qed.

Lemma criar_campanha_connected env rows t uid body inst :
  Index.db_error env 0 = None ->
  active_of uid rows = [inst] ->
  status inst = "connected" ->
  exists s',
    Index.criar_campanha uid body env (Index.start rows t)
    = (Ret (match Index.n8n env 1 "/webhook/criar-campanha" body with
            | Index.Answered st d => Index.send st d
            | Index.Refused e =>
                Index.Failure 500
                  (if String.eqb (message e) "" then "Internal Server Error"
                   else message e)
                  (Index.development env)
            end), s') /\
    Index.journal s'
    = [Index.FindActive uid None;
       Index.Post "/webhook/criar-campanha" body
         (Index.n8n env 1 "/webhook/criar-campanha" body)] /\
    Index.table s' = rows.
Proof.
  intros Hdb Ha Hst.
  unfold Index.criar_campanha, Index.try_catch, Index.bind, Index.find_active,
    Index.post, Index.errorHandler.
  index_steps. rewrite Hdb, Ha. index_steps.
  unfold str_neq. rewrite Hst. cbn [String.eqb Ascii.eqb Bool.eqb negb].
  index_steps.
  destruct (Index.n8n env 1 "/webhook/criar-campanha" body) as [st d|e];
    index_steps; unfold Index.bind; index_steps;
    eexists; (split; [reflexivity|]); split; reflexivity.
Qed.

(** X21.  Campaign creation is gated on the mirrored status: with no
    active record, or with one whose status is not [connected], the answer
    is the 403 refusal and the workflow engine is not called; with one
    active [connected] record the body is posted to the engine once and
    the engine's status and data are handed to [res.status(..).send(..)],
    which relays them unchanged when the data are an object, a string or
    a boolean. *)
Theorem campaign_needs_connection env rows t uid body :
  Index.db_error env 0 = None ->
  ((active_of uid rows = [] \/
    exists inst, active_of uid rows = [inst] /\ status inst <> "connected") ->
   exists s',
     Index.criar_campanha uid body env (Index.start rows t)
     = (Ret Index.NotConnected, s') /\
     Index.status_of Index.NotConnected = Some 403 /\
     Index.journal s' = [Index.FindActive uid None] /\
     Index.table s' = rows) /\
  (forall inst st d,
      active_of uid rows = [inst] ->
      status inst = "connected" ->
      Index.n8n env 1 "/webhook/criar-campanha" body = Index.Answered st d ->
      exists s',
        Index.criar_campanha uid body env (Index.start rows t)
        = (Ret (Index.send st d), s') /\
        Index.journal s'
        = [Index.FindActive uid None;
           Index.Post "/webhook/criar-campanha" body (Index.Answered st d)] /\
        Index.table s' = rows /\
        (200 <= st < 300 -> Index.relayable d = true ->
         Index.send st d = Index.Relayed st d)).
Proof.
  intros Hdb. split.
  - intros H. destruct (criar_campanha_gate env rows t uid body Hdb H)
      as [s' [Hrun [Hj Ht]]].
    exists s'. repeat split; assumption.
  - intros inst st d Ha Hst Hn.
    destruct (criar_campanha_connected env rows t uid body inst Hdb Ha Hst)
      as [s' [Hrun [Hj Ht]]].
    rewrite Hn in Hrun, Hj. exists s'.
    split; [exact Hrun|]. split; [exact Hj|]. split; [exact Ht|].
    intros _ Hd. unfold Index.send. rewrite Hd. reflexivity.
Qed.

(** X21 on the record of [u1]: disconnected, then connected. *)
Lemma campaign_needs_connection_witness :
  (exists s',
      Index.criar_campanha "u1" (JObj [("user_id", JStr "u1")])
        IndexScenario.working (Index.start [IndexScenario.offline] 100)
      = (Ret Index.NotConnected, s') /\
      Index.status_of Index.NotConnected = Some 403 /\
      Index.journal s' = [Index.FindActive "u1" None] /\
      Index.table s' = [IndexScenario.offline]) /\
  (exists s',
      Index.criar_campanha "u1" (JObj [("user_id", JStr "u1")])
        IndexScenario.working (Index.start [Scenario.ana] 100)
      = (Ret (Index.Relayed 200 (JObj [("ok", JBool true)])), s') /\
      Index.journal s'
      = [Index.FindActive "u1" None;
         Index.Post "/webhook/criar-campanha" (JObj [("user_id", JStr "u1")])
           (Index.Answered 200 (JObj [("ok", JBool true)]))] /\
      Index.table s' = [Scenario.ana]).
Proof.
  split.
  - apply (proj1 (campaign_needs_connection IndexScenario.working
                    [IndexScenario.offline] 100 "u1"
                    (JObj [("user_id", JStr "u1")]) eq_refl)).
    right. exists IndexScenario.offline. split; [reflexivity|discriminate].
  - destruct (proj2 (campaign_needs_connection IndexScenario.working
                       [Scenario.ana] 100 "u1"
                       (JObj [("user_id", JStr "u1")]) eq_refl)
                Scenario.ana 200 (JObj [("ok", JBool true)])
                eq_refl eq_refl eq_refl) as [s' [Hrun [Hj [Ht Hsend]]]].
    rewrite Hsend in Hrun by (lia || reflexivity).
    exists s'. repeat split; assumption.
Defined.

(** X22.  A campaign route never passes a failure on with the failing
    party's status: when the engine rejects the POST of [comecar-campanha]
    or [pausar-campanha], or that of [criar-campanha] for a connected
    user, or when the store fails the lookup of [criar-campanha], the
    answer is a 500 whose message is the error's own text ("Internal
    Server Error" when it has none), and the table is left as it was. *)
Theorem campaign_failures_are_500 env rows t :
  (forall path body e,
      Index.n8n env 0 path body = Index.Refused e ->
      exists s',
        Index.forward path body env (Index.start rows t)
        = (Ret (Index.Failure 500
                  (if String.eqb (message e) "" then "Internal Server Error"
                   else message e)
                  (Index.development env)), s') /\
        Index.table s' = rows) /\
  (forall uid body inst e,
      Index.db_error env 0 = None ->
      active_of uid rows = [inst] ->
      status inst = "connected" ->
      Index.n8n env 1 "/webhook/criar-campanha" body = Index.Refused e ->
      exists s',
        Index.criar_campanha uid body env (Index.start rows t)
        = (Ret (Index.Failure 500
                  (if String.eqb (message e) "" then "Internal Server Error"
                   else message e)
                  (Index.development env)), s') /\
        Index.table s' = rows) /\
  (forall uid body m,
      Index.db_error env 0 = Some m ->
      exists s',
        Index.criar_campanha uid body env (Index.start rows t)
        = (Ret (Index.Failure 500
                  (if String.eqb m "" then "Internal Server Error" else m)
                  (Index.development env)), s') /\
        Index.journal s' = [Index.FindActive uid (Some m)] /\
        Index.table s' = rows).
Proof.
  split; [|split].
  - intros path body e Hn.
    unfold Index.forward, Index.try_catch, Index.bind, Index.post,
      Index.errorHandler.
    index_steps. rewrite Hn. index_steps. unfold Index.bind. index_steps.
    eexists. split; reflexivity.
  - intros uid body inst e Hdb Ha Hst Hn.
    destruct (criar_campanha_connected env rows t uid body inst Hdb Ha Hst)
      as [s' [Hrun [_ Ht]]].
    rewrite Hn in Hrun. exists s'. split; assumption.
  - intros uid body m Hdb.
    unfold Index.criar_campanha, Index.try_catch, Index.bind, Index.find_active,
      Index.errorHandler.
    index_steps. rewrite Hdb. index_steps. unfold Index.bind. index_steps.
    cbn [new_Error message].
    eexists. split; [reflexivity|]. split; reflexivity.
Qed.

(** X22 against an engine that answers 404 and a store that is down. *)
Lemma campaign_failures_are_500_witness :
  (exists s',
      Index.pausar_campanha (JObj [("campanha_id", JNum 9546)])
        IndexScenario.engine_not_found (Index.start [Scenario.ana] 100)
      = (Ret (Index.Failure 500 "Request failed with status code 404" false), s') /\
      Index.table s' = [Scenario.ana]) /\
  (exists s',
      Index.criar_campanha "u1" JNull IndexScenario.engine_not_found
        (Index.start [Scenario.ana] 100)
      = (Ret (Index.Failure 500 "Request failed with status code 404" false), s') /\
      Index.table s' = [Scenario.ana]) /\
  (exists s',
      Index.criar_campanha "u1" JNull (IndexScenario.store_down_from 0)
        (Index.start [Scenario.ana] 100)
      = (Ret (Index.Failure 500 "connection refused" false), s') /\
      Index.journal s' = [Index.FindActive "u1" (Some "connection refused")] /\
      Index.table s' = [Scenario.ana]).
Proof.
  split; [|split].
  - apply (proj1 (campaign_failures_are_500 IndexScenario.engine_not_found
                    [Scenario.ana] 100)
             "/webhook/pausar-campanha" (JObj [("campanha_id", JNum 9546)])
             Scenario.not_found).
    reflexivity.
  - apply (proj1 (proj2 (campaign_failures_are_500 IndexScenario.engine_not_found
                           [Scenario.ana] 100))
             "u1" JNull Scenario.ana Scenario.not_found); reflexivity.
  - apply (proj2 (proj2 (campaign_failures_are_500
                           (IndexScenario.store_down_from 0)
                           [Scenario.ana] 100))
             "u1" JNull "connection refused").
    reflexivity.
Defined.

(* ===================================================================== *)
(** ** From the lifecycle to the campaigns *)
(* ===================================================================== *)

(** Disconnect, run to its end, with the store taking the write. *)
Lemma disconnect_run env w uid inst d :
  store_error env (effect w 0) = None ->
  active_of uid (whatsapp w) = [inst] ->
  remote env (effect w 1) (Logout (nome_instancia inst)) = Resolved d ->
  store_error env (effect w 2) = None ->
  exists r s',
    disconnect uid env (start w) = (Ret r, s') /\
    code r = 200 /\
    whatsapp (world s')
    = update_rows (id inst) (disconnect_patch (now w)) (whatsapp w).
Proof.
  intros Hs Ha Hr Hu.
  unfold disconnect, try_catch, bind, select_active, update.
  rewrite query_up by at_tick Hs.
  projections. rewrite Ha. pure_steps.
  rewrite (axios_resolved _ _ _ d) by at_tick Hr.
  pure_steps.
  rewrite query_up by at_tick Hu.
  pure_steps.
  eexists; eexists. split; [reflexivity|]. projections. split; reflexivity.
Qed.

(** X23.  After a Disconnect or a Delete (the store taking the write)
    campaign creation for that user is refused with the 403, and the
    workflow engine is not called. *)
Theorem campaign_after_teardown env ienv w uid inst t body :
  store_error env (effect w 0) = None ->
  active_of uid (whatsapp w) = [inst] ->
  store_error env (effect w 2) = None ->
  Index.db_error ienv 0 = None ->
  (forall d,
      remote env (effect w 1) (Logout (nome_instancia inst)) = Resolved d ->
      exists r1 s1 s2,
        disconnect uid env (start w) = (Ret r1, s1) /\
        code r1 = 200 /\
        Index.criar_campanha uid body ienv (Index.start (whatsapp (world s1)) t)
        = (Ret Index.NotConnected, s2) /\
        Index.journal s2 = [Index.FindActive uid None]) /\
  (exists r1 s1 s2,
      delete uid env (start w) = (Ret r1, s1) /\
      code r1 = 200 /\
      Index.criar_campanha uid body ienv (Index.start (whatsapp (world s1)) t)
      = (Ret Index.NotConnected, s2) /\
      Index.journal s2 = [Index.FindActive uid None]).
Proof.
  intros Hs Ha Hu Hdb. split.
  - intros d Hr.
    destruct (disconnect_run env w uid inst d Hs Ha Hr Hu)
      as [r1 [s1 [Hrun [Hc Hrows]]]].
    destruct (criar_campanha_gate ienv (whatsapp (world s1)) t uid body Hdb)
      as [s2 [Hrun2 [Hj _]]].
    { right. exists (apply_patch (disconnect_patch (now w)) inst).
      rewrite Hrows.
      rewrite active_of_update_rows by (intros x; reflexivity).
      rewrite Ha. cbn [map]. rewrite Nat.eqb_refl.
      split; [reflexivity|]. cbn. discriminate. }
    exists r1, s1, s2. repeat split; assumption.
  - destruct (delete_run env w uid inst Hs Ha Hu)
      as [r1 [s1 [Hrun [Hc [_ Hrows]]]]].
    destruct (criar_campanha_gate ienv (whatsapp (world s1)) t uid body Hdb)
      as [s2 [Hrun2 [Hj _]]].
    { left. rewrite Hrows. apply active_of_deleted. exact Ha. }
    exists r1, s1, s2. repeat split; assumption.
Qed.

(** X23 on the connected record of [u1]. *)
Lemma campaign_after_teardown_witness :
  (exists r1 s1 s2,
      disconnect "u1" (Scenario.provider "open") (start Scenario.mirrored)
      = (Ret r1, s1) /\
      code r1 = 200 /\
      Index.criar_campanha "u1" JNull IndexScenario.working
        (Index.start (whatsapp (world s1)) 200)
      = (Ret Index.NotConnected, s2) /\
      Index.journal s2 = [Index.FindActive "u1" None]) /\
  (exists r1 s1 s2,
      delete "u1" (Scenario.provider "open") (start Scenario.mirrored)
      = (Ret r1, s1) /\
      code r1 = 200 /\
      Index.criar_campanha "u1" JNull IndexScenario.working
        (Index.start (whatsapp (world s1)) 200)
      = (Ret Index.NotConnected, s2) /\
      Index.journal s2 = [Index.FindActive "u1" None]).
Proof.
  destruct (campaign_after_teardown (Scenario.provider "open")
              IndexScenario.working Scenario.mirrored "u1" Scenario.ana 200
              JNull eq_refl eq_refl eq_refl eq_refl) as [Hdis Hdel].
  split; [apply (Hdis JNull); reflexivity|exact Hdel].
Defined.

(** X24.  A pushed [open] unlocks campaign creation without any Sync:
    after a [connection.update] webhook carrying [open] for the user's one
    active record (the store taking the write), [criar-campanha] passes
    the gate and posts the body to the engine; an answer whose data are an
    object, a string or a boolean is relayed unchanged. *)
Theorem campaign_after_webhook env env2 rows t t2 uid instance payload body inst st d :
  Index.db_error env 0 = None ->
  named instance rows = [inst] ->
  active_of uid rows = [inst] ->
  opt payload "state" = JStr "open" ->
  defined payload = true ->
  status inst <> "connected" ->
  Index.db_error env 1 = None ->
  Index.db_error env2 0 = None ->
  Index.n8n env2 1 "/webhook/criar-campanha" body = Index.Answered st d ->
  200 <= st < 300 ->
  Index.relayable d = true ->
  exists r1 s1 s2,
    Index.webhook (JStr "connection.update") instance payload env
      (Index.start rows t) = (Ret r1, s1) /\
    code r1 = 200 /\
    Index.criar_campanha uid body env2 (Index.start (Index.table s1) t2)
    = (Ret (Index.Relayed st d), s2) /\
    Index.journal s2
    = [Index.FindActive uid None;
       Index.Post "/webhook/criar-campanha" body (Index.Answered st d)].
Proof.
  intros Hdb Hname Hact Hopen Hdef Hneq Hw Hdb2 Hn _ Hd.
  destruct (webhook_connection_update_run env rows t instance payload inst
              Hdb Hname Hdef) as [r1 [s1 [Hrun [Hc [_ [Hrows _]]]]]].
  { rewrite Hopen. exact Hneq. }
  { exact Hw. }
  rewrite Hopen in Hrows. cbn [mapStatus is_str String.eqb Ascii.eqb Bool.eqb] in Hrows.
  destruct (criar_campanha_connected env2 (Index.table s1) t2 uid body
              (apply_patch [F_status "connected"; F_atualizado_em t;
                            F_last_connection_at (Some t);
                            F_connection_attempts 0] inst) Hdb2)
    as [s2 [Hrun2 [Hj2 _]]].
  { rewrite Hrows.
    rewrite active_of_update_rows by (intros x; reflexivity).
    rewrite Hact. cbn [map]. rewrite Nat.eqb_refl. reflexivity. }
  { reflexivity. }
  rewrite Hn in Hrun2, Hj2. unfold Index.send in Hrun2. rewrite Hd in Hrun2.
  exists r1, s1, s2. repeat split; assumption.
Qed.

(** X24 on the disconnected record of [u1]. *)
Lemma campaign_after_webhook_witness :
  exists r1 s1 s2,
    Index.webhook (JStr "connection.update") "5511999990000_1234"
      (JObj [("state", JStr "open")]) IndexScenario.working
      (Index.start [IndexScenario.offline] 100) = (Ret r1, s1) /\
    code r1 = 200 /\
    Index.criar_campanha "u1" JNull IndexScenario.working
      (Index.start (Index.table s1) 200)
    = (Ret (Index.Relayed 200 (JObj [("ok", JBool true)])), s2) /\
    Index.journal s2
    = [Index.FindActive "u1" None;
       Index.Post "/webhook/criar-campanha" JNull
         (Index.Answered 200 (JObj [("ok", JBool true)]))].
Proof.
  apply (campaign_after_webhook IndexScenario.working IndexScenario.working
           [IndexScenario.offline] 100 200 "u1" "5511999990000_1234"
           (JObj [("state", JStr "open")]) JNull IndexScenario.offline
           200 (JObj [("ok", JBool true)]));
    (reflexivity || discriminate || lia).
Defined.
